(** * Vehicle Rental API: the rental endpoints of [app/main.py]

    A shallow embedding of the rental handlers ([create_rental],
    [update_rental], [delete_rental], [list_rentals], [get_rental_by_id],
    [get_user_rentals]) together with the SQL they send, and the properties
    of the booking rules stated about them.

    The handlers talk to a MariaDB database through [database.fetch_one],
    [database.fetch_all] and [database.execute].  The database is modelled
    as a record of tables (lists of rows); every SQL statement of the
    handlers becomes a function on that record, and a handler becomes a
    computation in a small state-and-exception monad. *)

From Stdlib Require Import ZArith List Bool String Ascii Lia.
From Stdlib Require Import Floats.SpecFloat.
Import ListNotations.

Local Open Scope string_scope.
Local Open Scope list_scope.
Local Open Scope Z_scope.

(* ================================================================= *)
(** ** Calendar dates ([datetime.date], SQL [DATE]) *)

Module PyDate.

(** A [datetime.date]: the handlers receive them from pydantic, which
    only builds valid dates (see [valid]). *)
Record date : Type := mkdate { year : Z; month : Z; day : Z }.

(** [_is_leap] of the [datetime] module. *)
Definition is_leap (y : Z) : bool :=
  (y mod 4 =? 0) && (negb (y mod 100 =? 0) || (y mod 400 =? 0)).

(** [_days_before_year]: days before January 1st of year [y]. *)
Definition days_before_year (y : Z) : Z :=
  let y' := y - 1 in y' * 365 + y' / 4 - y' / 100 + y' / 400.

(** [_DAYS_IN_MONTH], with February corrected by [_days_in_month]. *)
Definition days_in_month (y m : Z) : Z :=
  if (m =? 2) && is_leap y then 29
  else match m with
       | 1 => 31 | 2 => 28 | 3 => 31 | 4 => 30 | 5 => 31 | 6 => 30
       | 7 => 31 | 8 => 31 | 9 => 30 | 10 => 31 | 11 => 30 | 12 => 31
       | _ => -1
       end.

(** [_DAYS_BEFORE_MONTH] plus the leap day, as [_days_before_month]. *)
Definition days_before_month (y m : Z) : Z :=
  match m with
  | 1 => 0 | 2 => 31 | 3 => 59 | 4 => 90 | 5 => 120 | 6 => 151
  | 7 => 181 | 8 => 212 | 9 => 243 | 10 => 273 | 11 => 304 | 12 => 334
  | _ => 0
  end + (if (2 <? m) && is_leap y then 1 else 0).

(** [date.toordinal()], that is [_ymd2ord]: 0001-01-01 is day 1. *)
Definition toordinal (d : date) : Z :=
  days_before_year (year d) + days_before_month (year d) (month d) + day d.

(** The dates [datetime.date] can represent (MINYEAR = 1, MAXYEAR = 9999). *)
Definition valid (d : date) : Prop :=
  1 <= year d <= 9999 /\ 1 <= month d <= 12 /\
  1 <= day d <= days_in_month (year d) (month d).

(** Comparison of dates: [date.__lt__] compares the (year, month, day)
    triples; SQL compares [DATE] values the same way. *)
Definition ltb (a b : date) : bool :=
  (year a <? year b) ||
  ((year a =? year b) &&
   ((month a <? month b) || ((month a =? month b) && (day a <? day b)))).

Definition eqb (a b : date) : bool :=
  (year a =? year b) && (month a =? month b) && (day a =? day b).

Definition leb (a b : date) : bool := ltb a b || eqb a b.
Definition gtb (a b : date) : bool := ltb b a.
Definition geb (a b : date) : bool := leb b a.

Definition lt (a b : date) : Prop := ltb a b = true.
Definition le (a b : date) : Prop := leb a b = true.
Definition gt (a b : date) : Prop := gtb a b = true.
Definition ge (a b : date) : Prop := geb a b = true.

(** [(a - b).days] in Python and [DATEDIFF(a, b)] in SQL: the number of
    days from [b] to [a]. *)
Definition days_between (a b : date) : Z := toordinal a - toordinal b.

(** Lexicographic combination of two comparisons, as [String.compare]
    chains them. *)
Definition lex (c1 c2 : comparison) : comparison :=
  match c1 with Eq => c2 | Lt => Lt | Gt => Gt end.

(** *** Dates as text

    [update_rental] binds [str(payload.start_date)], the ISO 8601 text
    of the date, and lets the server compare and store it. *)

Definition digit (n : Z) : ascii := ascii_of_N (Z.to_N (48 + n mod 10)).

Definition digit_value (c : ascii) : Z := Z.of_N (N_of_ascii c) - 48.

(** [str(d)], that is [d.isoformat()]: ["%04d-%02d-%02d"]. *)
Definition isoformat (d : date) : string :=
  String (digit (year d / 1000)) (String (digit (year d / 100))
  (String (digit (year d / 10)) (String (digit (year d))
  (String "-" (String (digit (month d / 10)) (String (digit (month d))
  (String "-" (String (digit (day d / 10)) (String (digit (day d))
  EmptyString))))))))).

(** The number written by a string of decimal digits. *)
Fixpoint number_from (acc : Z) (s : string) : Z :=
  match s with
  | EmptyString => acc
  | String c s' => number_from (10 * acc + digit_value c) s'
  end.

(** The server's reading of a ['YYYY-MM-DD'] literal where a [DATE] is
    expected (a comparison with a [DATE] column, an assignment to one).
    It is only applied to the texts [isoformat] produces. *)
Definition of_sql_text (s : string) : date :=
  {| year := number_from 0 (substring 0 4 s);
     month := number_from 0 (substring 5 2 s);
     day := number_from 0 (substring 8 2 s) |}.

End PyDate.

Abbreviation date := PyDate.date.
Abbreviation DATEDIFF := PyDate.days_between (only parsing).

Declare Scope date_scope.
Delimit Scope date_scope with date.
Infix "<?" := PyDate.ltb : date_scope.
Infix "<=?" := PyDate.leb : date_scope.
Infix ">?" := PyDate.gtb : date_scope.
Infix ">=?" := PyDate.geb : date_scope.
Infix "<" := PyDate.lt : date_scope.
Infix "<=" := PyDate.le : date_scope.
Infix ">" := PyDate.gt : date_scope.
Infix ">=" := PyDate.ge : date_scope.

(* ================================================================= *)
(** ** Numbers: Python [float] and SQL [DECIMAL] *)

Module PyFloat.

(** A Python [float] is an IEEE 754 binary64 value. *)
Definition prec : Z := 53.
Definition emax : Z := 1024.
Definition float : Type := spec_float.

(** [float(n)] for an [int]: the nearest binary64 value. *)
Definition of_int (n : Z) : float := binary_normalize prec emax n 0 false.

(** [x * y] on floats. *)
Definition mul (x y : float) : float := SFmul prec emax x y.

(** The binary64 value nearest to the fraction [n / d] (with [d > 0]),
    ties to even: how a decimal literal or a [Decimal] becomes a float. *)
Definition of_fraction (n : Z) (d : positive) : float :=
  match n with
  | Z0 => S754_zero false
  | Zpos p => SFdiv prec emax (S754_finite false p 0) (S754_finite false d 0)
  | Zneg p => SFdiv prec emax (S754_finite true p 0) (S754_finite false d 0)
  end.

(** Rounding of the fraction [n / d] to an integer, ties to even. *)
Definition round_half_even (n : Z) (d : positive) : Z :=
  let q := n / Zpos d in
  let r := n mod Zpos d in
  match 2 * r ?= Zpos d with
  | Lt => q
  | Gt => q + 1
  | Eq => if Z.even q then q else q + 1
  end.

(** [round(x, 2)]: the exact value of [x] is rounded to two decimals,
    ties to even, and the decimal result is read back as the nearest
    float; infinities and NaN round to themselves, the sign of a zero
    result is the sign of [x]. *)
Definition round2 (x : float) : float :=
  match x with
  | S754_finite s m e =>
      let hundredths :=
        match e with
        | Zneg k => round_half_even (100 * Zpos m) (2 ^ k)%positive
        | _ => 100 * Zpos m * 2 ^ e
        end in
      match hundredths with
      | Zpos h =>
          SFdiv prec emax (S754_finite s h 0) (S754_finite false 100 0)
      | _ => S754_zero s
      end
  | _ => x
  end.

End PyFloat.

Abbreviation float := PyFloat.float.

Module Decimal.

(** An SQL [DECIMAL] value, and Python's [decimal.Decimal] that the
    driver returns for it: [unscaled / 10 ^ scale]. *)
Record decimal : Type := mkdecimal { unscaled : Z; scale : nat }.

(** [n * d] for an integer [n]: exact in SQL. *)
Definition mul_int (n : Z) (d : decimal) : decimal :=
  {| unscaled := n * unscaled d; scale := scale d |}.

Fixpoint pow10 (n : nat) : positive :=
  match n with
  | O => 1%positive
  | S n' => (10 * pow10 n')%positive
  end.

(** [float(d)]: the nearest binary64 value. *)
Definition to_float (d : decimal) : float :=
  PyFloat.of_fraction (unscaled d) (pow10 (scale d)).

End Decimal.

Abbreviation decimal := Decimal.decimal.


(* ================================================================= *)
(** ** The database

    The DDL of the tables is not part of the sources: a row holds the
    columns the rental handlers read or write.  [deleted_at] is the
    soft-delete marker ([None] is SQL [NULL]). *)

Definition timestamp : Type := Z.

Module Vehicle.
(** Modelled from the spec: the [CREATE TABLE] statements are missing;
    [price_per_day] is a decimal, [deleted_at] a nullable timestamp. *)
Record row : Type := mkrow {
  vehicle_id : Z;
  make : string;
  model : string;
  price_per_day : decimal;
  deleted_at : option timestamp
}.
End Vehicle.

Module Rental.
(** [price_at_rental] and [total_cost] hold the float that the [INSERT]
    of [create_rental] binds. *)
Record row : Type := mkrow {
  rental_id : Z;
  user_id : Z;
  vehicle_id : Z;
  start_date : date;
  end_date : date;
  price_at_rental : float;
  total_cost : float;
  updated_at : option timestamp;
  deleted_at : option timestamp
}.
End Rental.

(** [get_rental_by_id] reads two tables of its own, [rentals] and
    [vehicles], with columns [id] and [daily_rate]; nothing else in the
    sources writes or reads them. *)
Module rentals.
Record row : Type := mkrow {
  id : Z;
  user_id : Z;
  vehicle_id : Z;
  start_date : date;
  end_date : date;
  deleted_at : option timestamp
}.
End rentals.

Module vehicles.
Record row : Type := mkrow { id : Z; daily_rate : decimal }.
End vehicles.

Record Database : Type := mkDatabase {
  Vehicle_table : list Vehicle.row;
  Rental_table : list Rental.row;
  Rental_auto_increment : Z;   (* the next [rental_id] the server hands out *)
  vehicles_table : option (list vehicles.row);   (* [None]: no such table *)
  rentals_table : option (list rentals.row)
}.

(** *** SQL building blocks *)

Definition IS_NULL {A : Type} (x : option A) : bool :=
  match x with None => true | Some _ => false end.

(** [SELECT cols FROM rows WHERE cond]. *)
Definition SELECT {Row R : Type} (cols : Row -> R) (rows : list Row)
    (cond : Row -> bool) : list R :=
  map cols (filter cond rows).

(** The first row of a result, what [database.fetch_one] returns (and what
    [LIMIT 1] keeps); [None] when the result is empty. *)
Definition first_row {R : Type} (rows : list R) : option R :=
  match rows with
  | [] => None
  | r :: _ => Some r
  end.

(** [left JOIN right ON on]. *)
Definition JOIN {A B : Type} (left : list A) (right : list B)
    (on : A -> B -> bool) : list (A * B) :=
  flat_map (fun a => map (pair a) (filter (on a) right)) left.

(** [ORDER BY key DESC] on a date column.  SQL leaves the order of rows
    with equal keys open; here they keep their order, and nothing that is
    stated of a listing depends on that choice. *)
Fixpoint insert_desc {R : Type} (key : R -> date) (x : R) (l : list R) : list R :=
  match l with
  | [] => [x]
  | y :: l' =>
      if (key y <=? key x)%date then x :: l else y :: insert_desc key x l'
  end.

Definition ORDER_BY_DESC {R : Type} (key : R -> date) (rows : list R) : list R :=
  fold_right (insert_desc key) [] rows.

(** [LIMIT limit OFFSET offset]. *)
Definition LIMIT_OFFSET {R : Type} (limit offset : Z) (rows : list R) : list R :=
  firstn (Z.to_nat limit) (skipn (Z.to_nat offset) rows).

(** [' AND '.join(where)]: the conjunction of the collected conditions. *)
Definition AND_join {Row : Type} (where_ : list (Row -> bool)) (r : Row) : bool :=
  forallb (fun cond => cond r) where_.

(* ================================================================= *)
(** ** Requests, responses and handlers *)

Module RentalCreateRequest.
Record payload : Type := mk {
  user_id : Z;
  vehicle_id : Z;
  start_date : date;
  end_date : date
}.
End RentalCreateRequest.
Abbreviation RentalCreateRequest := RentalCreateRequest.payload.

Record RentalResponse : Type := mkRentalResponse {
  rental_id : Z;
  user_id : Z;
  vehicle_id : Z;
  make : option string;
  model : option string;
  start_date : date;
  end_date : date;
  total_days : Z;
  total_price : float
}.

Record HTTPException : Type := mkHTTPException {
  status_code : Z;
  detail : string
}.

(** How a handler ends: it returns, it raises an [HTTPException], or an
    exception nobody catches escapes it (FastAPI answers 500). *)
Inductive outcome (A : Type) : Type :=
| Return (a : A)
| Raise (e : HTTPException)
| Uncaught (exc : string).
Arguments Return {A} a.
Arguments Raise {A} e.
Arguments Uncaught {A} exc.

(** A handler runs against the database and may change it. *)
Definition handler (A : Type) : Type := Database -> outcome A * Database.

Definition ret {A : Type} (a : A) : handler A := fun db => (Return a, db).

Definition bind {A B : Type} (m : handler A) (k : A -> handler B) : handler B :=
  fun db =>
    match m db with
    | (Return a, db') => k a db'
    | (Raise e, db') => (Raise e, db')
    | (Uncaught exc, db') => (Uncaught exc, db')
    end.

Definition raise {A : Type} (e : HTTPException) : handler A :=
  fun db => (Raise e, db).

Definition uncaught {A : Type} (exc : string) : handler A :=
  fun db => (Uncaught exc, db).

(** [await database.fetch_one(query)] and [await database.fetch_all(query)],
    on a database that answers: a lost connection has no outcome here.
    Only the [INSERT] of [create_rental], which the handler guards, is
    given the error the driver raises. *)
Definition fetch_one {R : Type} (query : Database -> list R) : handler (option R) :=
  fun db => (Return (first_row (query db)), db).

Definition fetch_all {R : Type} (query : Database -> list R) : handler (list R) :=
  fun db => (Return (query db), db).

(** [fetch_one] for a query over tables the database may lack: the
    server then refuses the statement and the driver raises. *)
Definition fetch_one_if_tables {R : Type} (query : Database -> option (list R))
    : handler (option R) :=
  fun db =>
    match query db with
    | Some rows => (Return (first_row rows), db)
    | None => (Uncaught "ProgrammingError: (1146, Table doesn't exist)", db)
    end.

(** [await database.execute(statement)], on a database that answers. *)
Definition execute {R : Type} (statement : Database -> R * Database) : handler R :=
  fun db => let (r, db') := statement db in (Return r, db').

Declare Scope handler_scope.
Delimit Scope handler_scope with handler.
Notation "x <- m ;; k" := (bind m (fun x => k))
  (at level 100, m at next level, right associativity) : handler_scope.
Notation "m ;; k" := (bind m (fun _ => k))
  (at level 100, right associativity) : handler_scope.
Local Open Scope handler_scope.

(** Python truthiness of a fetched row ([if overlap:], [if not existing:]). *)
Definition truthy {R : Type} (row : option R) : bool :=
  match row with Some _ => true | None => false end.

(** [needle in hay] on [str]. *)
Fixpoint contains (needle hay : string) : bool :=
  prefix needle hay ||
  match hay with
  | EmptyString => false
  | String _ hay' => contains needle hay'
  end.

(* ================================================================= *)
(** ** [GET /rentals], [GET /rentals/{rental_id}], [GET /users/{user_id}/rentals] *)

(** The [SELECT] list shared by [list_rentals] and the final query of
    [update_rental]: [DATEDIFF(r.end_date, r.start_date) AS total_days]
    and [(DATEDIFF(...) * v.price_per_day) AS total_price]. *)
Definition rental_view (rv : Rental.row * Vehicle.row) : RentalResponse :=
  let (r, v) := rv in
  {| rental_id := Rental.rental_id r;
     user_id := Rental.user_id r;
     vehicle_id := Rental.vehicle_id r;
     make := None;
     model := None;
     start_date := Rental.start_date r;
     end_date := Rental.end_date r;
     total_days := DATEDIFF (Rental.end_date r) (Rental.start_date r);
     total_price :=
       Decimal.to_float
         (Decimal.mul_int (DATEDIFF (Rental.end_date r) (Rental.start_date r))
                          (Vehicle.price_per_day v)) |}.

Definition Rental_JOIN_Vehicle (db : Database) : list (Rental.row * Vehicle.row) :=
  JOIN (Rental_table db) (Vehicle_table db)
       (fun r v => Vehicle.vehicle_id v =? Rental.vehicle_id r).

(** [if user_id:] and [if vehicle_id:] add a condition for an id that is
    given and not zero. *)
Definition list_rentals (user_id vehicle_id : option Z) (limit offset : Z)
    : handler (list RentalResponse) :=
  let where_ := [fun rv : Rental.row * Vehicle.row =>
                   IS_NULL (Rental.deleted_at (fst rv))] in
  let where_ :=
    match user_id with
    | Some uid =>
        if uid =? 0 then where_
        else where_ ++ [fun rv => Rental.user_id (fst rv) =? uid]
    | None => where_
    end in
  let where_ :=
    match vehicle_id with
    | Some vid =>
        if vid =? 0 then where_
        else where_ ++ [fun rv => Rental.vehicle_id (fst rv) =? vid]
    | None => where_
    end in
  rows <- fetch_all (fun db =>
    LIMIT_OFFSET limit offset
      (map rental_view
         (ORDER_BY_DESC (fun rv => Rental.start_date (fst rv))
            (SELECT (fun rv => rv) (Rental_JOIN_Vehicle db) (AND_join where_))))) ;;
  ret rows.

Definition rentals_view (rv : rentals.row * vehicles.row) : RentalResponse :=
  let (r, v) := rv in
  {| rental_id := rentals.id r;
     user_id := rentals.user_id r;
     vehicle_id := rentals.vehicle_id r;
     make := None;
     model := None;
     start_date := rentals.start_date r;
     end_date := rentals.end_date r;
     total_days := DATEDIFF (rentals.end_date r) (rentals.start_date r);
     total_price :=
       Decimal.to_float
         (Decimal.mul_int (DATEDIFF (rentals.end_date r) (rentals.start_date r))
                          (vehicles.daily_rate v)) |}.

Definition get_rental_by_id (rental_id : Z) : handler RentalResponse :=
  row <- fetch_one_if_tables (fun db =>
    match rentals_table db, vehicles_table db with
    | Some rentals, Some vehicles =>
        Some (SELECT rentals_view
                (JOIN rentals vehicles
                      (fun r v => vehicles.id v =? rentals.vehicle_id r))
                (fun rv => IS_NULL (rentals.deleted_at (fst rv))
                           && (rentals.id (fst rv) =? rental_id)))
    | _, _ => None
    end) ;;
  match row with
  | None => raise {| status_code := 404; detail := "Rental not found" |}
  | Some row => ret row
  end.

(** The [SELECT] list of [get_user_rentals]: [v.make], [v.model], the
    day difference, and the stored [r.total_cost AS total_price]. *)
Definition user_rental_view (rv : Rental.row * Vehicle.row) : RentalResponse :=
  let (r, v) := rv in
  {| rental_id := Rental.rental_id r;
     user_id := Rental.user_id r;
     vehicle_id := Rental.vehicle_id r;
     make := Some (Vehicle.make v);
     model := Some (Vehicle.model v);
     start_date := Rental.start_date r;
     end_date := Rental.end_date r;
     total_days := DATEDIFF (Rental.end_date r) (Rental.start_date r);
     total_price := Rental.total_cost r |}.

Definition get_user_rentals (user_id : Z) (vehicle_id : option Z) (skip limit : Z)
    : handler (list RentalResponse) :=
  let where_ := [fun rv : Rental.row * Vehicle.row =>
                   IS_NULL (Rental.deleted_at (fst rv));
                 fun rv => Rental.user_id (fst rv) =? user_id] in
  let where_ :=
    match vehicle_id with
    | Some vid => where_ ++ [fun rv => Rental.vehicle_id (fst rv) =? vid]
    | None => where_
    end in
  rows <- fetch_all (fun db =>
    LIMIT_OFFSET limit skip
      (map user_rental_view
         (ORDER_BY_DESC (fun rv => Rental.start_date (fst rv))
            (SELECT (fun rv => rv) (Rental_JOIN_Vehicle db) (AND_join where_))))) ;;
  ret rows.

(* ================================================================= *)
(** ** [POST /rentals] *)

Definition invalid_date_range : HTTPException :=
  {| status_code := 422;
     detail := "Invalid date range: start_date must be before end_date" |}.

Definition vehicle_not_available : HTTPException :=
  {| status_code := 400;
     detail := "Vehicle not available in the selected dates" |}.

(** The overlap query of [create_rental]:
    [SELECT 1 FROM Rental WHERE vehicle_id = :vehicle_id
       AND NOT (:end_date < start_date OR :start_date > end_date) LIMIT 1].
    It does not look at [deleted_at]. *)
Definition create_overlap_condition (vehicle_id : Z) (start_date end_date : date)
    (r : Rental.row) : bool :=
  (Rental.vehicle_id r =? vehicle_id)
  && negb ((end_date <? Rental.start_date r)%date
           || (start_date >? Rental.end_date r)%date).

(** [SELECT price_per_day FROM Vehicle
     WHERE vehicle_id = :vehicle_id AND deleted_at IS NULL]. *)
Definition vehicle_pricing_condition (vehicle_id : Z) (v : Vehicle.row) : bool :=
  (Vehicle.vehicle_id v =? vehicle_id) && IS_NULL (Vehicle.deleted_at v).

(** The [INSERT INTO Rental (...)] of [create_rental].  [raises] is the
    text of the exception the driver raises for this statement, when it
    raises one: error 1062 on the unique key [uq_vehicle_date_overlap]
    after a concurrent booking, a lost connection, a foreign key on
    [user_id].  Otherwise the row is stored with the next [rental_id],
    which the call returns, and the other columns at [NULL]. *)
Definition INSERT_INTO_Rental (raises : option string)
    (user_id vehicle_id : Z) (start_date end_date : date)
    (price_at_rental total_cost : float) (db : Database)
    : (string + Z) * Database :=
  match raises with
  | Some msg => (inl msg, db)
  | None =>
      let rid := Rental_auto_increment db in
      (inr rid,
       {| Vehicle_table := Vehicle_table db;
          Rental_table :=
            Rental_table db ++
            [{| Rental.rental_id := rid;
                Rental.user_id := user_id;
                Rental.vehicle_id := vehicle_id;
                Rental.start_date := start_date;
                Rental.end_date := end_date;
                Rental.price_at_rental := price_at_rental;
                Rental.total_cost := total_cost;
                Rental.updated_at := None;
                Rental.deleted_at := None |}];
          Rental_auto_increment := rid + 1;
          vehicles_table := vehicles_table db;
          rentals_table := rentals_table db |})
  end.

Definition create_rental (insert_raises : option string)
    (payload : RentalCreateRequest) : handler RentalResponse :=
  let user_id := RentalCreateRequest.user_id payload in
  let vehicle_id := RentalCreateRequest.vehicle_id payload in
  let start_date := RentalCreateRequest.start_date payload in
  let end_date := RentalCreateRequest.end_date payload in
  (* 1) Validate date range *)
  if (end_date <? start_date)%date then raise invalid_date_range else
  (* 2) Check for ANY overlapping rental for the same vehicle *)
  overlap <- fetch_one (fun db =>
    SELECT (fun _ => 1) (Rental_table db)
           (create_overlap_condition vehicle_id start_date end_date)) ;;
  if truthy overlap then raise vehicle_not_available else
  (* 3) Get vehicle pricing *)
  vehicle <- fetch_one (fun db =>
    SELECT Vehicle.price_per_day (Vehicle_table db)
           (vehicle_pricing_condition vehicle_id)) ;;
  match vehicle with
  | None => raise {| status_code := 404; detail := "Vehicle not found" |}
  | Some price =>
      let price_per_day := Decimal.to_float price in
      (* 4) Compute total days and cost (inclusive of both dates) *)
      let total_days := PyDate.days_between end_date start_date + 1 in
      let total_cost :=
        PyFloat.round2 (PyFloat.mul price_per_day (PyFloat.of_int total_days)) in
      (* 5) Insert rental, catching any remaining 1062 errors *)
      inserted <- execute (INSERT_INTO_Rental insert_raises user_id vehicle_id
                             start_date end_date price_per_day total_cost) ;;
      match inserted with
      | inl msg =>
          if contains "1062" msg && contains "uq_vehicle_date_overlap" msg
          then raise vehicle_not_available
          else raise {| status_code := 500; detail := "Failed to create rental" |}
      | inr rental_id =>
          (* 6) Respond with the new rental *)
          ret {| rental_id := rental_id;
                 user_id := user_id;
                 vehicle_id := vehicle_id;
                 make := None;
                 model := None;
                 start_date := start_date;
                 end_date := end_date;
                 total_days := total_days;
                 total_price := total_cost |}
      end
  end.

(* ================================================================= *)
(** ** [DELETE /rentals/{rental_id}] *)

Definition rental_not_found : HTTPException :=
  {| status_code := 404; detail := "Rental not found" |}.

(** [WHERE rental_id = :rid AND deleted_at IS NULL]. *)
Definition live_rental_condition (rid : Z) (r : Rental.row) : bool :=
  (Rental.rental_id r =? rid) && IS_NULL (Rental.deleted_at r).

(** [UPDATE Rental SET ... WHERE rental_id = :rid]: [set] is applied to
    the rows with that id, the others are kept.  The statement is taken
    to go through: the key [uq_vehicle_date_overlap], on which the server
    can refuse new dates, is not looked at. *)
Definition UPDATE_Rental (set : Rental.row -> Rental.row) (rid : Z)
    (db : Database) : unit * Database :=
  (tt,
   {| Vehicle_table := Vehicle_table db;
      Rental_table :=
        map (fun r => if Rental.rental_id r =? rid then set r else r)
            (Rental_table db);
      Rental_auto_increment := Rental_auto_increment db;
      vehicles_table := vehicles_table db;
      rentals_table := rentals_table db |}).

(** [SET deleted_at = CURRENT_TIMESTAMP]. *)
Definition SET_deleted_at (now : timestamp) (r : Rental.row) : Rental.row :=
  {| Rental.rental_id := Rental.rental_id r;
     Rental.user_id := Rental.user_id r;
     Rental.vehicle_id := Rental.vehicle_id r;
     Rental.start_date := Rental.start_date r;
     Rental.end_date := Rental.end_date r;
     Rental.price_at_rental := Rental.price_at_rental r;
     Rental.total_cost := Rental.total_cost r;
     Rental.updated_at := Rental.updated_at r;
     Rental.deleted_at := Some now |}.

(** [now] is the server's [CURRENT_TIMESTAMP] when the statement runs. *)
Definition delete_rental (now : timestamp) (rental_id : Z) : handler unit :=
  (* Verify rental exists and not already deleted *)
  existing <- fetch_one (fun db =>
    SELECT Rental.rental_id (Rental_table db) (live_rental_condition rental_id)) ;;
  if negb (truthy existing) then raise rental_not_found else
  execute (UPDATE_Rental (SET_deleted_at now) rental_id) ;;
  ret tt.

(* ================================================================= *)
(** ** [PUT /rentals/{rental_id}] *)

(** The overlap query of [update_rental]:
    [SELECT 1 FROM Rental WHERE vehicle_id = :vehicle_id
       AND rental_id <> :rid AND deleted_at IS NULL
       AND NOT (:end_date <= start_date OR :start_date >= end_date) LIMIT 1],
    the two dates bound as text. *)
Definition update_overlap_condition (vehicle_id rid : Z)
    (start_date end_date : string) (r : Rental.row) : bool :=
  (Rental.vehicle_id r =? vehicle_id)
  && negb (Rental.rental_id r =? rid)
  && IS_NULL (Rental.deleted_at r)
  && negb ((PyDate.of_sql_text end_date <=? Rental.start_date r)%date
           || (PyDate.of_sql_text start_date >=? Rental.end_date r)%date).

(** [SELECT CASE WHEN :start_date < :end_date THEN 1 ELSE 0 END AS ok]:
    both operands are text, so this is a comparison of strings; the
    statement has no [FROM] and yields exactly one row. *)
Definition date_order_query (start_date end_date : string) : list Z :=
  [if String.ltb start_date end_date then 1 else 0].

(** [SET start_date = :start_date, end_date = :end_date,
         updated_at = CURRENT_TIMESTAMP]. *)
Definition SET_dates (start_date end_date : string) (now : timestamp)
    (r : Rental.row) : Rental.row :=
  {| Rental.rental_id := Rental.rental_id r;
     Rental.user_id := Rental.user_id r;
     Rental.vehicle_id := Rental.vehicle_id r;
     Rental.start_date := PyDate.of_sql_text start_date;
     Rental.end_date := PyDate.of_sql_text end_date;
     Rental.price_at_rental := Rental.price_at_rental r;
     Rental.total_cost := Rental.total_cost r;
     Rental.updated_at := Some now;
     Rental.deleted_at := Rental.deleted_at r |}.

Definition update_rental (now : timestamp) (rental_id : Z)
    (payload : RentalCreateRequest) : handler RentalResponse :=
  let start_date := PyDate.isoformat (RentalCreateRequest.start_date payload) in
  let end_date := PyDate.isoformat (RentalCreateRequest.end_date payload) in
  (* Ensure rental exists *)
  existing <- fetch_one (fun db =>
    SELECT (fun r => (Rental.rental_id r, Rental.vehicle_id r))
           (Rental_table db) (live_rental_condition rental_id)) ;;
  match existing with
  | None => raise rental_not_found
  | Some existing =>
      let vehicle_id := snd existing in
      (* Overlap check excluding current rental *)
      overlap <- fetch_one (fun db =>
        SELECT (fun _ => 1) (Rental_table db)
               (update_overlap_condition vehicle_id rental_id
                  start_date end_date)) ;;
      if truthy overlap then raise vehicle_not_available else
      (* Date order validation *)
      valid <- fetch_one (fun _ => date_order_query start_date end_date) ;;
      if match valid with
         | None => true
         | Some ok => negb (ok =? 1)
         end
      then raise invalid_date_range else
      execute (UPDATE_Rental (SET_dates start_date end_date now) rental_id) ;;
      (* Return updated view *)
      row <- fetch_one (fun db =>
        SELECT rental_view (Rental_JOIN_Vehicle db)
               (fun rv => Rental.rental_id (fst rv) =? rental_id)) ;;
      match row with
      | None => uncaught "TypeError: 'NoneType' object is not iterable"
      | Some row => ret row
      end
  end.

(* ================================================================= *)
(** ** The scenario of the specification *)

Definition d (y m dd : Z) : date := PyDate.mkdate y m dd.

Definition scenario_db : Database :=
  {| Vehicle_table :=
       [{| Vehicle.vehicle_id := 2; Vehicle.make := "Toyota";
           Vehicle.model := "Camry";
           Vehicle.price_per_day := Decimal.mkdecimal 4500 2;
           Vehicle.deleted_at := None |}];
     Rental_table := [];
     Rental_auto_increment := 1;
     vehicles_table := None;
     rentals_table := None |}.

Definition request (uid vid : Z) (s e : date) : RentalCreateRequest :=
  RentalCreateRequest.mk uid vid s e.

(** Scenario A: the first booking, 2024-04-01 to 2024-04-05. *)
Definition rental_A_request : RentalCreateRequest :=
  request 1 2 (d 2024 4 1) (d 2024 4 5).

Definition scenario_db_A : Database :=
  snd (create_rental None rental_A_request scenario_db).

(** Scenario D: moving that booking to 2024-04-02 .. 2024-04-06. *)
Definition rental_D_request : RentalCreateRequest :=
  request 1 2 (d 2024 4 2) (d 2024 4 6).

(** The text of a MariaDB duplicate-key error on the backstop key. *)
Definition duplicate_key_error : string :=
  "(1062, Duplicate entry '2-2024-04-01-2024-04-05' for key 'uq_vehicle_date_overlap')".

Definition rental_row (rid uid vid : Z) (s e : date)
    (deleted_at : option timestamp) : Rental.row :=
  {| Rental.rental_id := rid;
     Rental.user_id := uid;
     Rental.vehicle_id := vid;
     Rental.start_date := s;
     Rental.end_date := e;
     Rental.price_at_rental := Decimal.to_float (Decimal.mkdecimal 4500 2);
     Rental.total_cost :=
       PyFloat.round2
         (PyFloat.mul (Decimal.to_float (Decimal.mkdecimal 4500 2))
                      (PyFloat.of_int (PyDate.days_between e s + 1)));
     Rental.updated_at := None;
     Rental.deleted_at := deleted_at |}.

(** Vehicle 2 with two live rentals: 04-01 .. 04-05 and 04-10 .. 04-12. *)
Definition shared_endpoint_db : Database :=
  {| Vehicle_table := Vehicle_table scenario_db;
     Rental_table :=
       [rental_row 1 1 2 (d 2024 4 1) (d 2024 4 5) None;
        rental_row 2 7 2 (d 2024 4 10) (d 2024 4 12) None];
     Rental_auto_increment := 3;
     vehicles_table := None;
     rentals_table := None |}.

(** Vehicle 2 with two live rentals: 04-01 .. 04-10 and 04-20 .. 04-22. *)
Definition two_rentals_db : Database :=
  {| Vehicle_table := Vehicle_table scenario_db;
     Rental_table :=
       [rental_row 1 1 2 (d 2024 4 1) (d 2024 4 10) None;
        rental_row 2 7 2 (d 2024 4 20) (d 2024 4 22) None];
     Rental_auto_increment := 3;
     vehicles_table := None;
     rentals_table := None |}.



(** What scenario A answers, and the row it stores. *)
Definition response_A : RentalResponse :=
  mkRentalResponse 1 1 2 None None (d 2024 4 1) (d 2024 4 5) 5
    (Decimal.to_float (Decimal.mkdecimal 22500 2)).

Definition rental_A : Rental.row :=
  rental_row 1 1 2 (d 2024 4 1) (d 2024 4 5) None.

(** What scenario D answers, and the database after it. *)
Definition response_D : RentalResponse :=
  mkRentalResponse 1 1 2 None None (d 2024 4 2) (d 2024 4 6) 4
    (Decimal.to_float (Decimal.mkdecimal 18000 2)).

Definition scenario_db_D : Database :=
  snd (update_rental 1000 1 rental_D_request scenario_db_A).

(** A database that has the tables of [get_rental_by_id], with the
    booking of scenario A in them. *)
Definition legacy_db : Database :=
  {| Vehicle_table := Vehicle_table scenario_db;
     Rental_table := [];
     Rental_auto_increment := 1;
     vehicles_table :=
       Some [{| vehicles.id := 2;
                vehicles.daily_rate := Decimal.mkdecimal 4500 2 |}];
     rentals_table :=
       Some [{| rentals.id := 1; rentals.user_id := 1; rentals.vehicle_id := 2;
                rentals.start_date := d 2024 4 1;
                rentals.end_date := d 2024 4 5;
                rentals.deleted_at := None |}] |}.

(** The text of an error that is not a duplicate key. *)
Definition lost_connection_error : string :=
  "(2013, Lost connection to MySQL server during query)".

(** Scenario C: the booking of scenario A, cancelled. *)
Definition scenario_db_A_cancelled : Database :=
  snd (delete_rental 1000 1 scenario_db_A).

(* ================================================================= *)
(** ** Vocabulary of the statements *)

(** A rental of the vehicle, cancelled or not, that the requested range
    meets, by the test of [create_rental]. *)
Definition blocks_create (payload : RentalCreateRequest) (db : Database)
    (r : Rental.row) : Prop :=
  In r (Rental_table db) /\
  Rental.vehicle_id r = RentalCreateRequest.vehicle_id payload /\
  ~ ((RentalCreateRequest.end_date payload < Rental.start_date r)%date \/
     (RentalCreateRequest.start_date payload > Rental.end_date r)%date).

(** A vehicle the request can book: present and not soft-deleted. *)
Definition bookable (payload : RentalCreateRequest) (db : Database)
    (v : Vehicle.row) : Prop :=
  In v (Vehicle_table db) /\
  Vehicle.vehicle_id v = RentalCreateRequest.vehicle_id payload /\
  Vehicle.deleted_at v = None.

(** Another rental of the vehicle, not cancelled, that the requested
    range meets, by the test of [update_rental]. *)
Definition blocks_update (rid vid : Z) (s e : date) (db : Database)
    (r : Rental.row) : Prop :=
  In r (Rental_table db) /\
  Rental.vehicle_id r = vid /\
  Rental.rental_id r <> rid /\
  Rental.deleted_at r = None /\
  ~ ((e <= Rental.start_date r)%date \/ (s >= Rental.end_date r)%date).

(** The day count a read endpoint reports for a row: the plain day
    difference of the two dates it reports. *)
Definition reports_day_difference (row : RentalResponse) : Prop :=
  total_days row
  = PyDate.toordinal (end_date row) - PyDate.toordinal (start_date row).

(* ================================================================= *)
(** ** Invariants of the [Rental] table and histories of requests *)

(** [rental_id] is a key of the table, and the ids in use lie below the
    counter that numbers the next row. *)
Definition well_keyed (db : Database) : Prop :=
  NoDup (map Rental.rental_id (Rental_table db)) /\
  Forall (fun r => Rental.rental_id r < Rental_auto_increment db)
         (Rental_table db).

(** Two rentals do not book one vehicle for the same night: when they are
    on the same vehicle and neither is cancelled, one ends by the day the
    other starts. *)
Definition apart (r1 r2 : Rental.row) : Prop :=
  Rental.vehicle_id r1 = Rental.vehicle_id r2 ->
  Rental.deleted_at r1 = None -> Rental.deleted_at r2 = None ->
  (Rental.end_date r1 <= Rental.start_date r2)%date \/
  (Rental.start_date r1 >= Rental.end_date r2)%date.

Definition live_rentals_apart (db : Database) : Prop :=
  ForallOrdPairs apart (Rental_table db).

(** The requests that write to the [Rental] table: [POST /rentals] (with
    what its [INSERT] raises, if it does), [PUT /rentals/{rental_id}] and
    [DELETE /rentals/{rental_id}] (with the server's clock). *)
Inductive rental_request : Type :=
| Create (insert_raises : option string) (payload : RentalCreateRequest)
| Update (now : timestamp) (rental_id : Z) (payload : RentalCreateRequest)
| Cancel (now : timestamp) (rental_id : Z).

(** The database after a request, whatever the answer was. *)
Definition serve (req : rental_request) (db : Database) : Database :=
  match req with
  | Create insert_raises payload => snd (create_rental insert_raises payload db)
  | Update now rid payload => snd (update_rental now rid payload db)
  | Cancel now rid => snd (delete_rental now rid db)
  end.

Definition serve_all (reqs : list rental_request) (db : Database) : Database :=
  fold_left (fun db req => serve req db) reqs db.

(** The dates of an update, which travel as text, are dates of the
    calendar. *)
Definition dated (req : rental_request) : Prop :=
  match req with
  | Update _ _ payload =>
      PyDate.valid (RentalCreateRequest.start_date payload) /\
      PyDate.valid (RentalCreateRequest.end_date payload)
  | Create _ _ | Cancel _ _ => True
  end.

(* ================================================================= *)
(** ** Vocabulary of the listings *)

(** A listing is ordered by [start_date], the latest first. *)
Definition newest_first (rows : list RentalResponse) : Prop :=
  ForallOrdPairs (fun a b => (start_date b <= start_date a)%date) rows.

(** A rental that is not cancelled, with the row of its vehicle. *)
Definition listed_pair (db : Database) (r : Rental.row) (v : Vehicle.row) : Prop :=
  In r (Rental_table db) /\ In v (Vehicle_table db) /\
  Vehicle.vehicle_id v = Rental.vehicle_id r /\
  Rental.deleted_at r = None.

(** What [if user_id:] makes of an optional id: a filter, unless the id
    is missing or zero. *)
Definition passes (filter : option Z) (value : Z) : Prop :=
  match filter with
  | Some wanted => wanted = 0 \/ value = wanted
  | None => True
  end.

(** Every rental is of a vehicle the [Vehicle] table has, soft-deleted
    or not: what a foreign key on [Rental.vehicle_id] enforces. *)
Definition vehicles_known (db : Database) : Prop :=
  Forall (fun r => exists v, In v (Vehicle_table db) /\
                             Vehicle.vehicle_id v = Rental.vehicle_id r)
         (Rental_table db).

(** The answers [create_rental] and [update_rental] refuse a request
    with. *)
Definition create_rental_refusals : list HTTPException :=
  [invalid_date_range; vehicle_not_available;
   {| status_code := 404; detail := "Vehicle not found" |};
   {| status_code := 500; detail := "Failed to create rental" |}].

Definition update_rental_refusals : list HTTPException :=
  [rental_not_found; vehicle_not_available; invalid_date_range].

(* ================================================================= *)
(** ** [GET /vehicles] *)

Module Catalog.
(** The columns of [Vehicle] that [list_vehicles] names; the rental
    handlers read [vehicle_id], [make], [model], [price_per_day] and
    [deleted_at] of the same table.  As for the other tables the
    [CREATE TABLE] statement is missing: the columns are taken to be
    [NOT NULL], except [deleted_at]. *)
Record row : Type := mkrow {
  vehicle_id : Z;
  make : string;
  model : string;
  year : Z;
  status : string;
  price_per_day : decimal;
  created_at : timestamp;
  deleted_at : option timestamp
}.

(** The part of a row the rental handlers see. *)
Definition to_Vehicle (r : row) : Vehicle.row :=
  {| Vehicle.vehicle_id := vehicle_id r;
     Vehicle.make := make r;
     Vehicle.model := model r;
     Vehicle.price_per_day := price_per_day r;
     Vehicle.deleted_at := deleted_at r |}.
End Catalog.

Module VehicleListing.
(** A row of the answer: [SELECT vehicle_id, make, model, year, status,
    price_per_day, created_at], made a [dict]. *)
Record row : Type := mkrow {
  vehicle_id : Z;
  make : string;
  model : string;
  year : Z;
  status : string;
  price_per_day : decimal;
  created_at : timestamp
}.
End VehicleListing.

(** The [Literal] types of the query parameters. *)
Module Literal.
Inductive status : Type := available | rented | maintenance.
Inductive sort_by : Type := price | year | created_at.
Inductive sort_dir : Type := asc | desc.

Definition status_str (s : status) : string :=
  match s with
  | available => "available"
  | rented => "rented"
  | maintenance => "maintenance"
  end.
End Literal.

(** Exact comparison of two [DECIMAL] values, as [ORDER BY] needs it. *)
Definition decimal_leb (a b : decimal) : bool :=
  Decimal.unscaled a * Zpos (Decimal.pow10 (Decimal.scale b))
  <=? Decimal.unscaled b * Zpos (Decimal.pow10 (Decimal.scale a)).

(** [ORDER BY column ASC] for a column compared by [leb]; rows with
    equal keys keep their order. *)
Fixpoint insert_by {R : Type} (leb : R -> R -> bool) (x : R) (l : list R)
    : list R :=
  match l with
  | [] => [x]
  | y :: l' => if leb x y then x :: l else y :: insert_by leb x l'
  end.

Definition ORDER_BY {R : Type} (leb : R -> R -> bool) (rows : list R) : list R :=
  fold_right (insert_by leb) [] rows.

(** [ORDER BY {sort_column} {sort_dir.upper()}]. *)
Definition sort_column_leb (sort_column : string)
    : option (Catalog.row -> Catalog.row -> bool) :=
  if String.eqb sort_column "price_per_day" then
    Some (fun a b => decimal_leb (Catalog.price_per_day a) (Catalog.price_per_day b))
  else if String.eqb sort_column "year" then
    Some (fun a b => Catalog.year a <=? Catalog.year b)
  else if String.eqb sort_column "created_at" then
    Some (fun a b => Catalog.created_at a <=? Catalog.created_at b)
  else None.

Definition ORDER_BY_column (sort_column : string) (direction : Literal.sort_dir)
    (rows : list Catalog.row) : option (list Catalog.row) :=
  match sort_column_leb sort_column with
  | None => None
  | Some leb =>
      Some (match direction with
            | Literal.asc => ORDER_BY leb rows
            | Literal.desc => ORDER_BY (fun a b => leb b a) rows
            end)
  end.

(** [sort_column_map.get(sort_by, "created_at")]. *)
Definition sort_column_map (sort_by : option Literal.sort_by) : string :=
  match sort_by with
  | Some Literal.price => "price_per_day"
  | Some Literal.year => "year"
  | Some Literal.created_at => "created_at"
  | None => "created_at"
  end.

Section ListVehicles.
(** What the server does with the text and price comparisons depends on
    the collation of the columns and on how the driver sends a [float]:
    [text_eq column param] is [column = :param] on a text column,
    [price_geb] and [price_leb] are [price_per_day >= :min_price] and
    [price_per_day <= :max_price]. *)
Variable text_eq : string -> string -> bool.
Variable price_geb : decimal -> float -> bool.
Variable price_leb : decimal -> float -> bool.

Definition list_vehicles_select (r : Catalog.row) : VehicleListing.row :=
  {| VehicleListing.vehicle_id := Catalog.vehicle_id r;
     VehicleListing.make := Catalog.make r;
     VehicleListing.model := Catalog.model r;
     VehicleListing.year := Catalog.year r;
     VehicleListing.status := Catalog.status r;
     VehicleListing.price_per_day := Catalog.price_per_day r;
     VehicleListing.created_at := Catalog.created_at r |}.

(** One turn of the loop over [("status", "status"), ("make", "make"),
    ("model", "model")]: a parameter that is truthy adds
    [{column} = :{param}]. *)
Definition equality_filter (where_ : list (Catalog.row -> bool))
    (param_column : option string * (Catalog.row -> string))
    : list (Catalog.row -> bool) :=
  let (param, column) := param_column in
  match param with
  | Some (String c s) => where_ ++ [fun r => text_eq (column r) (String c s)]
  | Some EmptyString | None => where_
  end.

(** The [WHERE] clause [list_vehicles] builds. *)
Definition list_vehicles_where
    (status : option Literal.status) (make model : option string)
    (year_from year_to : option Z) (min_price max_price : option float)
    : list (Catalog.row -> bool) :=
  (* Build WHERE clause dynamically *)
  let where_ := [fun r : Catalog.row => IS_NULL (Catalog.deleted_at r)] in
  (* Simple equality filters *)
  let where_ :=
    fold_left equality_filter
      [(option_map Literal.status_str status, Catalog.status);
       (make, Catalog.make);
       (model, Catalog.model)] where_ in
  (* Range filters *)
  let where_ :=
    match year_from with
    | Some y => where_ ++ [fun r => Catalog.year r >=? y]
    | None => where_
    end in
  let where_ :=
    match year_to with
    | Some y => where_ ++ [fun r => Catalog.year r <=? y]
    | None => where_
    end in
  let where_ :=
    match min_price with
    | Some p => where_ ++ [fun r => price_geb (Catalog.price_per_day r) p]
    | None => where_
    end in
  match max_price with
  | Some p => where_ ++ [fun r => price_leb (Catalog.price_per_day r) p]
  | None => where_
  end.

(** [list_vehicles] reads the table and writes nothing: it is given the
    rows of [Vehicle] and ends as a handler does. *)
Definition list_vehicles
    (status : option Literal.status) (make model : option string)
    (year_from year_to : option Z) (min_price max_price : option float)
    (sort_by : option Literal.sort_by) (sort_dir : option Literal.sort_dir)
    (limit offset : Z) (Vehicle : list Catalog.row)
    : outcome (list VehicleListing.row) :=
  let where_ :=
    list_vehicles_where status make model year_from year_to min_price max_price in
  (* Map sort_by parameter to actual column name *)
  let sort_column := sort_column_map sort_by in
  (* Build complete SQL query *)
  match sort_dir with
  | None => Uncaught "AttributeError: 'NoneType' object has no attribute 'upper'"
  | Some direction =>
      match ORDER_BY_column sort_column direction
              (SELECT (fun r => r) Vehicle (AND_join where_)) with
      | None => Uncaught "ProgrammingError: (1054, Unknown column in 'order clause')"
      | Some rows =>
          Return (map list_vehicles_select (LIMIT_OFFSET limit offset rows))
      end
  end.
End ListVehicles.

(** A row of [Vehicle] that the filters let through: not soft-deleted,
    equal to each text parameter that is given and not empty, within
    each bound that is given. *)
Definition vehicle_matches (text_eq : string -> string -> bool)
    (price_geb price_leb : decimal -> float -> bool)
    (status : option Literal.status) (make model : option string)
    (year_from year_to : option Z) (min_price max_price : option float)
    (r : Catalog.row) : Prop :=
  Catalog.deleted_at r = None /\
  (forall s, status = Some s ->
             text_eq (Catalog.status r) (Literal.status_str s) = true) /\
  (forall m, make = Some m -> m <> "" -> text_eq (Catalog.make r) m = true) /\
  (forall m, model = Some m -> m <> "" -> text_eq (Catalog.model r) m = true) /\
  (forall y, year_from = Some y -> y <= Catalog.year r) /\
  (forall y, year_to = Some y -> Catalog.year r <= y) /\
  (forall p, min_price = Some p -> price_geb (Catalog.price_per_day r) p = true) /\
  (forall p, max_price = Some p -> price_leb (Catalog.price_per_day r) p = true).

(** The order of two rows of the answer on the column [sort_by] names,
    [created_at] when it names none. *)
Definition listing_leb (sort_by : option Literal.sort_by)
    (a b : VehicleListing.row) : bool :=
  match sort_by with
  | Some Literal.price =>
      decimal_leb (VehicleListing.price_per_day a) (VehicleListing.price_per_day b)
  | Some Literal.year => VehicleListing.year a <=? VehicleListing.year b
  | Some Literal.created_at | None =>
      VehicleListing.created_at a <=? VehicleListing.created_at b
  end.

Definition in_order (sort_by : option Literal.sort_by) (sort_dir : Literal.sort_dir)
    (rows : list VehicleListing.row) : Prop :=
  ForallOrdPairs
    (fun a b => match sort_dir with
                | Literal.asc => listing_leb sort_by a b = true
                | Literal.desc => listing_leb sort_by b a = true
                end) rows.

(** The [Vehicle] table of the scenario, with all its columns. *)
Definition scenario_catalog : list Catalog.row :=
  [{| Catalog.vehicle_id := 2; Catalog.make := "Toyota";
      Catalog.model := "Camry"; Catalog.year := 2022;
      Catalog.status := "available";
      Catalog.price_per_day := Decimal.mkdecimal 4500 2;
      Catalog.created_at := 0; Catalog.deleted_at := None |}].

(* ================================================================= *)
(** ** [POST /auth/register] and [POST /auth/login] *)

Module User.
(** The columns of [User] the two handlers name; [last_login_at] and
    [deleted_at] are nullable. *)
Record row : Type := mkrow {
  user_id : Z;
  name : string;
  email : string;
  phone : string;
  password_hash : string;
  last_login_at : option timestamp;
  deleted_at : option timestamp
}.
End User.

Record Users : Type := mkUsers {
  User_table : list User.row;
  User_auto_increment : Z   (* the next [user_id] the server hands out *)
}.

Module AuthRegisterRequest.
Record payload : Type := mk {
  name : string;
  email : string;
  phone : string;
  password : string
}.
End AuthRegisterRequest.

Module AuthLoginRequest.
Record payload : Type := mk {
  email : string;
  password : string
}.
End AuthLoginRequest.

Module AuthResponse.
Record response : Type := mk {
  success : bool;
  message : string;
  user_id : option Z;
  name : option string;
  email : option string
}.
End AuthResponse.

(** [str.lower()] on the text of an exception.  It changes the letters
    [A] to [Z]; what it does to other characters yields none of the
    texts that [register] looks for. *)
Definition lower_char (c : ascii) : ascii :=
  let n := N_of_ascii c in
  if ((65 <=? n) && (n <=? 90))%N then ascii_of_N (n + 32) else c.

Fixpoint lower (s : string) : string :=
  match s with
  | EmptyString => EmptyString
  | String c s' => String (lower_char c) (lower s')
  end.

(** The [except Exception as e:] clause of [register], given [str(e)]. *)
Definition registration_error (e : string) : HTTPException :=
  (* Handle duplicate email or phone (MySQL/MariaDB error code 1062) *)
  let error_msg := lower e in
  if contains "duplicate" error_msg || contains "1062" error_msg then
    if contains "email" error_msg then
      {| status_code := 400; detail := "Email already registered" |}
    else if contains "phone" error_msg then
      {| status_code := 400; detail := "Phone number already registered" |}
    else
      {| status_code := 400; detail := "Registration failed: duplicate entry" |}
  else {| status_code := 500; detail := "Registration failed" |}.

(** [INSERT INTO User (name, email, phone, password_hash) VALUES (...)].
    [raises] is the text of the exception the driver raises for the
    statement, when it raises one (a duplicate key on [email] or
    [phone], a lost connection); otherwise the row is stored with the
    next [user_id], which the call returns. *)
Definition INSERT_INTO_User (raises : option string)
    (name email phone password_hash : string) (users : Users)
    : (string + Z) * Users :=
  match raises with
  | Some msg => (inl msg, users)
  | None =>
      let uid := User_auto_increment users in
      (inr uid,
       {| User_table :=
            User_table users ++
            [{| User.user_id := uid;
                User.name := name;
                User.email := email;
                User.phone := phone;
                User.password_hash := password_hash;
                User.last_login_at := None;
                User.deleted_at := None |}];
          User_auto_increment := uid + 1 |})
  end.

(** [UPDATE User SET last_login_at = CURRENT_TIMESTAMP WHERE user_id = :uid]. *)
Definition SET_last_login_at (now : timestamp) (u : User.row) : User.row :=
  {| User.user_id := User.user_id u;
     User.name := User.name u;
     User.email := User.email u;
     User.phone := User.phone u;
     User.password_hash := User.password_hash u;
     User.last_login_at := Some now;
     User.deleted_at := User.deleted_at u |}.

Definition UPDATE_User (set : User.row -> User.row) (uid : Z) (users : Users)
    : Users :=
  {| User_table :=
       map (fun u => if User.user_id u =? uid then set u else u) (User_table users);
     User_auto_increment := User_auto_increment users |}.

Section Auth.
(** [SHA2(:password, 256)] is computed by the server, and the two
    comparisons of [login] follow the collations of the columns:
    [email_eq column param] is [email = :email], [hash_eq] is
    [password_hash = SHA2(:password, 256)]. *)
Variable SHA2_256 : string -> string.
Variable email_eq : string -> string -> bool.
Variable hash_eq : string -> string -> bool.

(** [insert_raises] and [fetch_raises] are the texts of the exceptions
    that the [INSERT] and the [SELECT] raise, when they raise one; both
    statements are inside the [try]. *)
Definition register (insert_raises fetch_raises : option string)
    (payload : AuthRegisterRequest.payload) (users : Users)
    : outcome AuthResponse.response * Users :=
  (* Insert new user with SHA2-hashed password *)
  match INSERT_INTO_User insert_raises
          (AuthRegisterRequest.name payload)
          (AuthRegisterRequest.email payload)
          (AuthRegisterRequest.phone payload)
          (SHA2_256 (AuthRegisterRequest.password payload)) users with
  | (inl e, users') => (Raise (registration_error e), users')
  | (inr result, users') =>
      (* Fetch the newly created user *)
      match fetch_raises with
      | Some e => (Raise (registration_error e), users')
      | None =>
          match first_row (SELECT (fun u => u) (User_table users')
                             (fun u => User.user_id u =? result)) with
          | None =>
              (Raise (registration_error
                        "'NoneType' object is not subscriptable"),
               users')
          | Some user =>
              (Return {| AuthResponse.success := true;
                         AuthResponse.message := "Registration successful";
                         AuthResponse.user_id := Some (User.user_id user);
                         AuthResponse.name := Some (User.name user);
                         AuthResponse.email := Some (User.email user) |},
               users')
          end
      end
  end.

Definition invalid_credentials : HTTPException :=
  {| status_code := 401; detail := "Invalid email or password" |}.

(** [WHERE email = :email AND password_hash = SHA2(:password, 256)
      AND deleted_at IS NULL]. *)
Definition login_condition (payload : AuthLoginRequest.payload) (u : User.row)
    : bool :=
  email_eq (User.email u) (AuthLoginRequest.email payload)
  && hash_eq (User.password_hash u) (SHA2_256 (AuthLoginRequest.password payload))
  && IS_NULL (User.deleted_at u).

(** [now] is the server's [CURRENT_TIMESTAMP] when the [UPDATE] runs.
    Both statements are taken to go through: the handler catches no
    error of the driver, and none has an outcome here. *)
Definition login (now : timestamp) (payload : AuthLoginRequest.payload)
    (users : Users) : outcome AuthResponse.response * Users :=
  (* Query user with matching email and password hash *)
  match first_row (SELECT (fun u => u) (User_table users)
                     (login_condition payload)) with
  | None => (Raise invalid_credentials, users)
  | Some user =>
      (* Update last login timestamp for activity tracking *)
      let users' := UPDATE_User (SET_last_login_at now) (User.user_id user) users in
      (Return {| AuthResponse.success := true;
                 AuthResponse.message := "Login successful";
                 AuthResponse.user_id := Some (User.user_id user);
                 AuthResponse.name := Some (User.name user);
                 AuthResponse.email := Some (User.email user) |},
       users')
  end.
End Auth.

(** The answers [register] refuses a request with. *)
Definition registration_refusals : list HTTPException :=
  [{| status_code := 400; detail := "Email already registered" |};
   {| status_code := 400; detail := "Phone number already registered" |};
   {| status_code := 400; detail := "Registration failed: duplicate entry" |};
   {| status_code := 500; detail := "Registration failed" |}].

(** [user_id] is a key of [User], and the ids in use lie below the
    counter that numbers the next row. *)
Definition users_keyed (users : Users) : Prop :=
  NoDup (map User.user_id (User_table users)) /\
  Forall (fun u => User.user_id u < User_auto_increment users) (User_table users).

(** The row [register] stores for a payload. *)
Definition registered_row (SHA2_256 : string -> string)
    (payload : AuthRegisterRequest.payload) (users : Users) : User.row :=
  {| User.user_id := User_auto_increment users;
     User.name := AuthRegisterRequest.name payload;
     User.email := AuthRegisterRequest.email payload;
     User.phone := AuthRegisterRequest.phone payload;
     User.password_hash := SHA2_256 (AuthRegisterRequest.password payload);
     User.last_login_at := None;
     User.deleted_at := None |}.

(** Sample data: a registration, and an empty [User] table. *)
Definition john_doe : AuthRegisterRequest.payload :=
  AuthRegisterRequest.mk "John Doe" "john.doe@example.com" "+14155551234"
                         "securepassword123".

Definition no_users : Users := {| User_table := []; User_auto_increment := 1 |}.

(** A stand-in for the digest, for running the handlers on sample data. *)
Definition sample_digest (password : string) : string := "sha2:" ++ password.

(* ================================================================= *)
(** ** The helpers of the test suite ([test_main.py]) *)

Section TestHelpers.
(** The dicts the tests pass around hold Python objects of any kind:
    [V], with [None], Python's [==] and [str()] on it. *)
Variable V : Type.
Variable py_None : V.
Variable py_eq : V -> V -> bool.
Variable py_str : V -> string.

(** A [dict] with [str] keys, in insertion order. *)
Definition dict : Type := list (string * V).

(** [d.get(key)], with [None] for a missing key, and [d[key]], which
    raises [KeyError] for one. *)
Definition dict_lookup (d : dict) (key : string) : option V :=
  option_map snd (find (fun kv => String.eqb (fst kv) key) d).

Definition dict_get (d : dict) (key : string) : V :=
  match dict_lookup d key with
  | Some v => v
  | None => py_None
  end.

(** [d[key] = value]. *)
Fixpoint dict_setitem (d : dict) (key : string) (value : V) : dict :=
  match d with
  | [] => [(key, value)]
  | (k, v) :: d' =>
      if String.eqb k key then (k, value) :: d'
      else (k, v) :: dict_setitem d' key value
  end.

Record MockRow : Type := mkMockRow { _data : dict }.

Definition MockRow_getitem (self : MockRow) (key : string) : outcome V :=
  match dict_lookup (_data self) key with
  | Some v => Return v
  | None => Uncaught "KeyError"
  end.

Definition MockRow_keys (self : MockRow) : list string := map fst (_data self).

(** [dict(row)]: the row has [keys()], so the constructor stores
    [row[k]] for each [k] of [row.keys()]. *)
Fixpoint dict_update_from (row : MockRow) (keys : list string) (d : dict)
    : outcome dict :=
  match keys with
  | [] => Return d
  | k :: keys' =>
      match MockRow_getitem row k with
      | Return v => dict_update_from row keys' (dict_setitem d k v)
      | Raise e => Raise e
      | Uncaught exc => Uncaught exc
      end
  end.

Definition dict_of_MockRow (row : MockRow) : outcome dict :=
  dict_update_from row (MockRow_keys row) [].

Definition create_mock_row (data : dict) : MockRow := mkMockRow data.

Definition create_mock_rows (data_list : list dict) : list MockRow :=
  map create_mock_row data_list.

Record QueryCapture : Type := mkQueryCapture {
  queries : list string;
  params : list dict
}.

(** [QueryCapture()]. *)
Definition QueryCapture_init : QueryCapture :=
  {| queries := []; params := [] |}.

(** [values or {}]: [None] and the empty dict are falsy. *)
Definition values_or_empty (values : option dict) : dict :=
  match values with
  | Some (kv :: d) => kv :: d
  | Some [] | None => []
  end.

Definition capture (query : string) (values : option dict) (self : QueryCapture)
    : QueryCapture :=
  {| queries := queries self ++ [query];
     params := params self ++ [values_or_empty values] |}.

(** The loop of [assert_contains] over [self.queries]. *)
Fixpoint assert_contains_from (substring : string) (qs : list string)
    : outcome bool :=
  match qs with
  | [] => Uncaught ("AssertionError: No query contains: " ++ substring)
  | q :: qs' =>
      if contains substring q then Return true
      else assert_contains_from substring qs'
  end.

Definition assert_contains (substring : string) (self : QueryCapture)
    : outcome bool :=
  assert_contains_from substring (queries self).

(** The loop of [assert_param_equals] over [self.params]. *)
Fixpoint assert_param_equals_from (key : string) (value : V) (ps : list dict)
    : outcome bool :=
  match ps with
  | [] =>
      Uncaught ("AssertionError: No query params contain "
                ++ key ++ "=" ++ py_str value)
  | p :: ps' =>
      if py_eq (dict_get p key) value then Return true
      else assert_param_equals_from key value ps'
  end.

Definition assert_param_equals (key : string) (value : V) (self : QueryCapture)
    : outcome bool :=
  assert_param_equals_from key value (params self).

(** [self.queries[-1] if self.queries else ""]. *)
Definition last_query (self : QueryCapture) : string :=
  last (queries self) "".

(** The captures of a test, one call of a mocked database method after
    the other. *)
Definition captured (calls : list (string * option dict)) : QueryCapture :=
  fold_left (fun self call => capture (fst call) (snd call) self)
            calls QueryCapture_init.
End TestHelpers.

Arguments mkMockRow {V} _.
Arguments _data {V} _.
Arguments mkQueryCapture {V} _ _.
Arguments queries {V} _.
Arguments params {V} _.
Arguments QueryCapture_init {V}.
Arguments dict_lookup {V} _ _.
Arguments dict_setitem {V} _ _ _.
Arguments MockRow_getitem {V} _ _.
Arguments MockRow_keys {V} _.
Arguments dict_update_from {V} _ _ _.
Arguments dict_of_MockRow {V} _.
Arguments create_mock_row {V} _.
Arguments create_mock_rows {V} _.
Arguments values_or_empty {V} _.
Arguments capture {V} _ _ _.
Arguments assert_contains {V} _ _.
Arguments last_query {V} _.
Arguments captured {V} _.

(** Two rows of a listing show the same rental: they agree on all but
    [make], [model] and [total_price]. *)
Definition same_rental (a b : RentalResponse) : Prop :=
  rental_id a = rental_id b /\ user_id a = user_id b /\
  vehicle_id a = vehicle_id b /\
  start_date a = start_date b /\ end_date a = end_date b /\
  total_days a = total_days b.

(** What becomes of a stored rental: it keeps its id, user, vehicle,
    price and total cost, and once cancelled it is left as it is. *)
Definition kept (r r' : Rental.row) : Prop :=
  Rental.rental_id r' = Rental.rental_id r /\
  Rental.user_id r' = Rental.user_id r /\
  Rental.vehicle_id r' = Rental.vehicle_id r /\
  Rental.price_at_rental r' = Rental.price_at_rental r /\
  Rental.total_cost r' = Rental.total_cost r /\
  (Rental.deleted_at r <> None -> r' = r).

(* ================================================================= *)
(** ** Facts about dates *)

Module PyDateFacts.
Import PyDate.

Lemma digit_code (n : Z) :
  N_of_ascii (digit n) = Z.to_N (48 + n mod 10).
Proof.
  unfold digit.
  assert (H : 0 <= n mod 10 < 10) by (apply Z.mod_pos_bound; lia).
  apply N_ascii_embedding.
  change 256%N with (Z.to_N 256).
  apply Z2N.inj_lt; lia.
Qed.

Lemma digit_value_digit (n : Z) : digit_value (digit n) = n mod 10.
Proof.
  unfold digit_value. rewrite digit_code.
  assert (H : 0 <= n mod 10 < 10) by (apply Z.mod_pos_bound; lia).
  rewrite Z2N.id; lia.
Qed.

Lemma compare_digit (i j : Z) :
  Ascii.compare (digit i) (digit j) = (i mod 10 ?= j mod 10).
Proof.
  unfold Ascii.compare. rewrite !digit_code.
  assert (Hi : 0 <= i mod 10 < 10) by (apply Z.mod_pos_bound; lia).
  assert (Hj : 0 <= j mod 10 < 10) by (apply Z.mod_pos_bound; lia).
  rewrite Z2N.inj_compare by lia.
  apply Z.add_compare_mono_l.
Qed.

Lemma days_in_month_bounds (y m : Z) :
  1 <= m <= 12 -> 28 <= days_in_month y m <= 31.
Proof.
  intros Hm. unfold days_in_month.
  destruct ((m =? 2) && is_leap y); [lia|].
  assert (Hcases : m = 1 \/ m = 2 \/ m = 3 \/ m = 4 \/ m = 5 \/ m = 6 \/
                   m = 7 \/ m = 8 \/ m = 9 \/ m = 10 \/ m = 11 \/ m = 12) by lia.
  repeat (destruct Hcases as [-> | Hcases]; [lia|]). subst m; lia.
Qed.

(** Reading back the text of a date gives the date. *)
Lemma of_sql_text_isoformat (a : date) :
  valid a -> of_sql_text (isoformat a) = a.
Proof.
  intros (Hy & Hm & Hd).
  pose proof (days_in_month_bounds (year a) (month a) Hm) as Hd'.
  destruct a as [y m dd]; cbn [year month day] in *.
  cbv beta iota delta [of_sql_text isoformat substring number_from year month day].
  rewrite !digit_value_digit.
  f_equal; Z.to_euclidean_division_equations; lia.
Qed.

Lemma lex_Eq_l (c : comparison) : lex Eq c = c.
Proof. reflexivity. Qed.

Lemma lex_Eq_r (c : comparison) : lex c Eq = c.
Proof. destruct c; reflexivity. Qed.

Lemma lex_assoc (c1 c2 c3 : comparison) :
  lex (lex c1 c2) c3 = lex c1 (lex c2 c3).
Proof. destruct c1; reflexivity. Qed.

(** Comparing two numbers is comparing their tens, then their units. *)
Lemma compare_split10 (x y : Z) :
  lex (x / 10 ?= y / 10) (x mod 10 ?= y mod 10) = (x ?= y).
Proof.
  unfold lex.
  destruct (Z.compare_spec (x / 10) (y / 10));
    destruct (Z.compare_spec (x mod 10) (y mod 10));
    symmetry;
    first [ apply Z.compare_eq_iff | apply Z.compare_lt_iff | apply Z.compare_gt_iff ];
    Z.to_euclidean_division_equations; lia.
Qed.

Lemma compare_digits2 (x y : Z) :
  0 <= x < 100 -> 0 <= y < 100 ->
  lex ((x / 10) mod 10 ?= (y / 10) mod 10) (x mod 10 ?= y mod 10) = (x ?= y).
Proof.
  intros Hx Hy.
  rewrite !(Z.mod_small (_ / 10)) by (Z.to_euclidean_division_equations; lia).
  apply compare_split10.
Qed.

Lemma compare_digits4 (x y : Z) :
  0 <= x < 10000 -> 0 <= y < 10000 ->
  lex ((x / 1000) mod 10 ?= (y / 1000) mod 10)
    (lex ((x / 100) mod 10 ?= (y / 100) mod 10)
      (lex ((x / 10) mod 10 ?= (y / 10) mod 10) (x mod 10 ?= y mod 10)))
  = (x ?= y).
Proof.
  intros Hx Hy.
  rewrite <- (compare_split10 x y), <- (compare_split10 (x / 10) (y / 10)),
    <- (compare_split10 (x / 10 / 10) (y / 10 / 10)).
  rewrite !Z.div_div by lia. change (10 * 10 * 10) with 1000.
  change (10 * 10) with 100.
  rewrite !(Z.mod_small (_ / 1000)) by (Z.to_euclidean_division_equations; lia).
  rewrite !lex_assoc. reflexivity.
Qed.

(** The order on dates, as propositions on the three fields. *)
Lemma ltb_true_iff (a b : date) :
  ltb a b = true <->
  year a < year b \/
  (year a = year b /\
   (month a < month b \/ (month a = month b /\ day a < day b))).
Proof.
  unfold ltb.
  rewrite orb_true_iff, andb_true_iff, orb_true_iff, andb_true_iff,
    !Z.ltb_lt, !Z.eqb_eq.
  reflexivity.
Qed.

Lemma ltb_false_iff (a b : date) :
  ltb a b = false <->
  ~ (year a < year b \/
     (year a = year b /\
      (month a < month b \/ (month a = month b /\ day a < day b)))).
Proof. rewrite <- ltb_true_iff. destruct (ltb a b); intuition congruence. Qed.

Lemma eqb_true_iff (a b : date) :
  eqb a b = true <-> year a = year b /\ month a = month b /\ day a = day b.
Proof.
  unfold eqb. rewrite !andb_true_iff, !Z.eqb_eq. tauto.
Qed.

Lemma leb_true_iff (a b : date) :
  leb a b = true <->
  year a < year b \/
  (year a = year b /\
   (month a < month b \/ (month a = month b /\ day a <= day b))).
Proof.
  unfold leb. rewrite orb_true_iff, ltb_true_iff, eqb_true_iff. lia.
Qed.

Lemma leb_false_iff (a b : date) :
  leb a b = false <->
  ~ (year a < year b \/
     (year a = year b /\
      (month a < month b \/ (month a = month b /\ day a <= day b)))).
Proof. rewrite <- leb_true_iff. destruct (leb a b); intuition congruence. Qed.

Lemma date_eq_iff (a b : date) :
  a = b <-> year a = year b /\ month a = month b /\ day a = day b.
Proof.
  split; [intros ->; tauto|].
  destruct a, b; cbn. intros (-> & -> & ->). reflexivity.
Qed.

(** Goals about the order of dates become linear arithmetic. *)
Ltac date_order :=
  unfold lt, le, gt, ge, gtb, geb in *;
  rewrite ?ltb_true_iff, ?ltb_false_iff, ?leb_true_iff, ?leb_false_iff,
    ?date_eq_iff in *;
  lia.

(** The ISO texts of two dates compare, as strings, the way the dates do. *)
Lemma compare_isoformat (a b : date) :
  valid a -> valid b ->
  String.compare (isoformat a) (isoformat b)
  = lex (year a ?= year b) (lex (month a ?= month b) (day a ?= day b)).
Proof.
  intros (Hya & Hma & Hda) (Hyb & Hmb & Hdb).
  pose proof (days_in_month_bounds (year a) _ Hma).
  pose proof (days_in_month_bounds (year b) _ Hmb).
  unfold isoformat. cbn [String.compare].
  rewrite !compare_digit.
  change (Ascii.compare "-" "-") with Eq.
  fold (lex (day a mod 10 ?= day b mod 10) Eq).
  repeat match goal with
         | |- context [match ?c with Eq => ?k | Lt => Lt | Gt => Gt end] =>
             progress change (match c with Eq => k | Lt => Lt | Gt => Gt end)
               with (lex c k)
         end.
  rewrite !lex_Eq_l, lex_Eq_r.
  rewrite <- (compare_digits4 (year a) (year b)) by lia.
  rewrite <- (compare_digits2 (month a) (month b)) by lia.
  rewrite <- (compare_digits2 (day a) (day b)) by lia.
  rewrite !lex_assoc. reflexivity.
Qed.

Lemma ltb_isoformat (a b : date) :
  valid a -> valid b ->
  String.ltb (isoformat a) (isoformat b) = ltb a b.
Proof.
  intros Ha Hb. unfold String.ltb. rewrite compare_isoformat by assumption.
  unfold lex.
  destruct (Z.compare_spec (year a) (year b));
    destruct (Z.compare_spec (month a) (month b));
    destruct (Z.compare_spec (day a) (day b));
    symmetry; date_order.
Qed.
(** *** Order and day numbers *)

Lemma days_before_year_succ (y : Z) :
  days_before_year (y + 1)
  = days_before_year y + 365 + (if is_leap y then 1 else 0).
Proof.
  unfold days_before_year, is_leap. cbv zeta.
  replace (y + 1 - 1) with y by lia.
  destruct (Z.eqb_spec (y mod 4) 0), (Z.eqb_spec (y mod 100) 0),
    (Z.eqb_spec (y mod 400) 0); cbn [andb orb negb];
    Z.to_euclidean_division_equations; lia.
Qed.

Lemma days_before_year_mono (y1 y2 : Z) :
  y1 <= y2 -> days_before_year y1 <= days_before_year y2.
Proof.
  intros Hle. unfold days_before_year. cbv zeta.
  Z.to_euclidean_division_equations. lia.
Qed.

Lemma month_cases (m : Z) :
  1 <= m <= 12 ->
  m = 1 \/ m = 2 \/ m = 3 \/ m = 4 \/ m = 5 \/ m = 6 \/
  m = 7 \/ m = 8 \/ m = 9 \/ m = 10 \/ m = 11 \/ m = 12.
Proof. lia. Qed.

(** The day of the year of a valid date lies within the year. *)
Lemma day_of_year_bounds (a : date) :
  valid a ->
  1 <= days_before_month (year a) (month a) + day a
    <= 365 + (if is_leap (year a) then 1 else 0).
Proof.
  intros (_ & Hm & Hd). revert Hd.
  unfold days_in_month, days_before_month.
  destruct (month_cases _ Hm) as [-> | [-> | [-> | [-> | [-> | [-> |
    [-> | [-> | [-> | [-> | [-> | ->]]]]]]]]]]];
    destruct (is_leap (year a)); cbn -[Z.add]; lia.
Qed.

(** Within a year, a later month starts after every day of an earlier one. *)
Lemma days_before_month_lt (y m1 m2 : Z) :
  1 <= m1 <= 12 -> 1 <= m2 <= 12 -> m1 < m2 ->
  days_before_month y m1 + days_in_month y m1 <= days_before_month y m2.
Proof.
  intros H1 H2 Hlt. unfold days_in_month, days_before_month.
  destruct (month_cases _ H1) as [-> | [-> | [-> | [-> | [-> | [-> |
    [-> | [-> | [-> | [-> | [-> | ->]]]]]]]]]]];
    destruct (month_cases _ H2) as [-> | [-> | [-> | [-> | [-> | [-> |
    [-> | [-> | [-> | [-> | [-> | ->]]]]]]]]]]];
    try lia; destruct (is_leap y); cbn -[Z.add]; lia.
Qed.

Lemma toordinal_lt (a b : date) :
  valid a -> valid b -> ltb a b = true -> toordinal a < toordinal b.
Proof.
  intros Ha Hb Hlt. apply ltb_true_iff in Hlt.
  pose proof (day_of_year_bounds a Ha) as Hda.
  pose proof (day_of_year_bounds b Hb) as Hdb.
  unfold toordinal.
  destruct Hlt as [Hy | (Hy & [Hm | (Hm & Hd)])].
  - pose proof (days_before_year_succ (year a)) as Hsucc.
    pose proof (days_before_year_mono (year a + 1) (year b)) as Hmono.
    lia.
  - destruct Ha as (_ & Hma & Hdaya), Hb as (_ & Hmb & Hdayb).
    rewrite Hy in *.
    pose proof (days_before_month_lt (year b) (month a) (month b) Hma Hmb Hm).
    lia.
  - rewrite Hy, Hm. lia.
Qed.

(** The order of valid dates is the order of their day numbers. *)
Lemma ltb_toordinal (a b : date) :
  valid a -> valid b -> (ltb a b = true <-> toordinal a < toordinal b).
Proof.
  intros Ha Hb. split; [apply toordinal_lt; assumption|].
  intros Hlt. destruct (ltb a b) eqn:Hab; [reflexivity|].
  destruct (ltb b a) eqn:Hba.
  - apply toordinal_lt in Hba; try assumption. lia.
  - assert (Heq : a = b) by (clear - Hab Hba; date_order).
    subst. lia.
Qed.

Lemma leb_toordinal (a b : date) :
  valid a -> valid b -> (leb a b = true <-> toordinal a <= toordinal b).
Proof.
  intros Ha Hb. split.
  - intros Hle. destruct (ltb a b) eqn:Hab.
    + apply toordinal_lt in Hab; try assumption. lia.
    + assert (Heq : a = b) by (clear - Hle Hab; date_order).
      subst. lia.
  - intros Hle. destruct (leb a b) eqn:Hab; [reflexivity|].
    assert (Hba : ltb b a = true) by (clear - Hab; date_order).
    apply toordinal_lt in Hba; try assumption. lia.
Qed.
End PyDateFacts.

(* ================================================================= *)
(** ** Facts about the SQL building blocks *)

Section QueryFacts.
Context {Row R : Type}.
Variables (cols : Row -> R) (cond : Row -> bool).

Lemma first_row_SELECT (rows : list Row) :
  first_row (SELECT cols rows cond) = option_map cols (find cond rows).
Proof.
  unfold SELECT.
  induction rows as [|r rows IH]; simpl; [reflexivity|].
  destruct (cond r); simpl; [reflexivity | exact IH].
Qed.

Lemma truthy_first_row_SELECT (rows : list Row) :
  truthy (first_row (SELECT cols rows cond)) = existsb cond rows.
Proof.
  unfold SELECT.
  induction rows as [|r rows IH]; simpl; [reflexivity|].
  destruct (cond r); simpl; [reflexivity | exact IH].
Qed.

End QueryFacts.

Section ConditionFacts.
Context {Row : Type}.
Variable cond : Row -> bool.

(** A key that identifies [r0] among [rows] makes [find] return [r0]. *)
Lemma find_unique (rows : list Row) (r0 : Row) :
  In r0 rows -> cond r0 = true ->
  (forall r, In r rows -> cond r = true -> r = r0) ->
  find cond rows = Some r0.
Proof.
  intros Hin Hc Huniq.
  destruct (find cond rows) as [r|] eqn:Hfind.
  - apply find_some in Hfind. f_equal. apply Huniq; tauto.
  - apply (find_none _ _ Hfind) in Hin. congruence.
Qed.

Lemma existsb_false_iff (rows : list Row) :
  existsb cond rows = false <-> forall r, In r rows -> cond r = false.
Proof.
  split.
  - intros H r Hin. destruct (cond r) eqn:Hr; [|reflexivity].
    assert (existsb cond rows = true) by (apply existsb_exists; eauto).
    congruence.
  - intros H. destruct (existsb cond rows) eqn:Hex; [|reflexivity].
    apply existsb_exists in Hex. destruct Hex as (r & Hin & Hr).
    rewrite (H r Hin) in Hr. discriminate.
Qed.
End ConditionFacts.

(* ================================================================= *)
(** ** Facts about [create_rental] *)

Section CreateRental.
Import PyDateFacts.

Variable insert_raises : option string.
Variable payload : RentalCreateRequest.
Variable db : Database.

Let uid := RentalCreateRequest.user_id payload.
Let vid := RentalCreateRequest.vehicle_id payload.
Let s := RentalCreateRequest.start_date payload.
Let e := RentalCreateRequest.end_date payload.

(** The steps of the handler, one after the other. *)
Lemma create_rental_steps :
  create_rental insert_raises payload db =
  if (e <? s)%date then (Raise invalid_date_range, db)
  else if existsb (create_overlap_condition vid s e) (Rental_table db)
  then (Raise vehicle_not_available, db)
  else match find (vehicle_pricing_condition vid) (Vehicle_table db) with
       | None => (Raise {| status_code := 404; detail := "Vehicle not found" |}, db)
       | Some v =>
           let price := Decimal.to_float (Vehicle.price_per_day v) in
           let days := PyDate.days_between e s + 1 in
           let cost := PyFloat.round2 (PyFloat.mul price (PyFloat.of_int days)) in
           match INSERT_INTO_Rental insert_raises uid vid s e price cost db with
           | (inl msg, db') =>
               if contains "1062" msg && contains "uq_vehicle_date_overlap" msg
               then (Raise vehicle_not_available, db')
               else (Raise {| status_code := 500;
                              detail := "Failed to create rental" |}, db')
           | (inr rid, db') =>
               (Return {| rental_id := rid; user_id := uid; vehicle_id := vid;
                          make := None; model := None;
                          start_date := s; end_date := e;
                          total_days := days; total_price := cost |}, db')
           end
       end.
Proof.
  unfold create_rental. fold uid vid s e.
  destruct (e <? s)%date; [reflexivity|].
  unfold bind at 1, fetch_one at 1.
  rewrite truthy_first_row_SELECT.
  destruct (existsb _ _); [reflexivity|].
  unfold bind at 1, fetch_one at 1.
  rewrite first_row_SELECT.
  destruct (find _ _) as [v|]; [|reflexivity].
  cbn [option_map]. unfold bind, execute.
  destruct (INSERT_INTO_Rental _ _ _ _ _ _ _ _) as [[msg|rid] db'].
  - destruct (contains "1062" msg && contains "uq_vehicle_date_overlap" msg);
      reflexivity.
  - reflexivity.
Qed.
End CreateRental.

(** The [WHERE] conditions, as propositions. *)
Section Conditions.
Import PyDateFacts.

Lemma not_lt_iff (a b : date) : ~ (a < b)%date <-> (a <? b)%date = false.
Proof. unfold PyDate.lt. destruct (a <? b)%date; intuition congruence. Qed.

Lemma create_overlap_condition_iff (vid : Z) (s e : date) (r : Rental.row) :
  create_overlap_condition vid s e r = true <->
  Rental.vehicle_id r = vid /\
  ~ ((e < Rental.start_date r)%date \/ (s > Rental.end_date r)%date).
Proof.
  unfold create_overlap_condition, PyDate.gt, PyDate.lt, PyDate.gtb.
  rewrite andb_true_iff, negb_true_iff, orb_false_iff, Z.eqb_eq.
  destruct (e <? Rental.start_date r)%date, (Rental.end_date r <? s)%date;
    intuition congruence.
Qed.

Lemma live_vehicle_iff (vid : Z) (v : Vehicle.row) :
  vehicle_pricing_condition vid v = true <->
  Vehicle.vehicle_id v = vid /\ Vehicle.deleted_at v = None.
Proof.
  unfold vehicle_pricing_condition, IS_NULL.
  rewrite andb_true_iff, Z.eqb_eq.
  destruct (Vehicle.deleted_at v); intuition congruence.
Qed.

Lemma live_rental_iff (rid : Z) (r : Rental.row) :
  live_rental_condition rid r = true <->
  Rental.rental_id r = rid /\ Rental.deleted_at r = None.
Proof.
  unfold live_rental_condition, IS_NULL.
  rewrite andb_true_iff, Z.eqb_eq.
  destruct (Rental.deleted_at r); intuition congruence.
Qed.

(** The steps of [delete_rental]. *)
Lemma delete_rental_steps (now : timestamp) (rid : Z) (db : Database) :
  delete_rental now rid db =
  if existsb (live_rental_condition rid) (Rental_table db)
  then (Return tt, snd (UPDATE_Rental (SET_deleted_at now) rid db))
  else (Raise rental_not_found, db).
Proof.
  unfold delete_rental, bind at 1, fetch_one.
  rewrite truthy_first_row_SELECT.
  destruct (existsb _ _); reflexivity.
Qed.
End Conditions.

(* ================================================================= *)
(** ** The decision protocol of [create_rental] *)

Section CreateRentalCases.
Import PyDateFacts.

Variable payload : RentalCreateRequest.
Variable db : Database.

Let uid := RentalCreateRequest.user_id payload.
Let vid := RentalCreateRequest.vehicle_id payload.
Let s := RentalCreateRequest.start_date payload.
Let e := RentalCreateRequest.end_date payload.

Lemma overlap_query_true :
  (exists r, blocks_create payload db r) ->
  existsb (create_overlap_condition vid s e) (Rental_table db) = true.
Proof.
  intros (r & Hin & Hr). apply existsb_exists. exists r.
  split; [exact Hin|]. apply create_overlap_condition_iff. exact Hr.
Qed.

Lemma overlap_query_false :
  ~ (exists r, blocks_create payload db r) ->
  existsb (create_overlap_condition vid s e) (Rental_table db) = false.
Proof.
  intros Hno. apply existsb_false_iff. intros r Hin.
  destruct (create_overlap_condition vid s e r) eqn:Hc; [|reflexivity].
  apply create_overlap_condition_iff in Hc. exfalso. apply Hno.
  exists r. split; [exact Hin | exact Hc].
Qed.

Lemma create_rental_invalid_range (insert_raises : option string) :
  (e < s)%date ->
  create_rental insert_raises payload db = (Raise invalid_date_range, db).
Proof.
  intros Hlt. rewrite create_rental_steps. fold s e.
  unfold PyDate.lt in Hlt. rewrite Hlt. reflexivity.
Qed.

Lemma create_rental_overlap (insert_raises : option string) :
  ~ (e < s)%date -> (exists r, blocks_create payload db r) ->
  create_rental insert_raises payload db = (Raise vehicle_not_available, db).
Proof.
  intros Hrange Hr. rewrite create_rental_steps. fold vid s e.
  apply not_lt_iff in Hrange. rewrite Hrange, (overlap_query_true Hr).
  reflexivity.
Qed.

Lemma create_rental_vehicle_not_found (insert_raises : option string) :
  ~ (e < s)%date -> ~ (exists r, blocks_create payload db r) ->
  ~ (exists v, bookable payload db v) ->
  create_rental insert_raises payload db =
  (Raise {| status_code := 404; detail := "Vehicle not found" |}, db).
Proof.
  intros Hrange Hno Hnov. rewrite create_rental_steps. fold vid s e.
  apply not_lt_iff in Hrange. rewrite Hrange, (overlap_query_false Hno).
  destruct (find (vehicle_pricing_condition vid) (Vehicle_table db)) as [v|] eqn:Hv;
    [|reflexivity].
  apply find_some in Hv. destruct Hv as [Hin Hv].
  apply live_vehicle_iff in Hv. exfalso. apply Hnov. exists v.
  split; [exact Hin | exact Hv].
Qed.

(** Once the three checks pass, the handler prices the booking from the
    first bookable row and sends the [INSERT]. *)
Lemma create_rental_validated (insert_raises : option string) :
  ~ (e < s)%date -> ~ (exists r, blocks_create payload db r) ->
  (exists v, bookable payload db v) ->
  exists v,
    bookable payload db v /\
    find (vehicle_pricing_condition vid) (Vehicle_table db) = Some v /\
    let price := Decimal.to_float (Vehicle.price_per_day v) in
    let days := PyDate.days_between e s + 1 in
    let cost := PyFloat.round2 (PyFloat.mul price (PyFloat.of_int days)) in
    create_rental insert_raises payload db =
    match INSERT_INTO_Rental insert_raises uid vid s e price cost db with
    | (inl msg, db') =>
        if contains "1062" msg && contains "uq_vehicle_date_overlap" msg
        then (Raise vehicle_not_available, db')
        else (Raise {| status_code := 500;
                       detail := "Failed to create rental" |}, db')
    | (inr rid, db') =>
        (Return {| rental_id := rid; user_id := uid; vehicle_id := vid;
                   make := None; model := None;
                   start_date := s; end_date := e;
                   total_days := days; total_price := cost |}, db')
    end.
Proof.
  intros Hrange Hno (v0 & Hin0 & Hv0).
  destruct (find (vehicle_pricing_condition vid) (Vehicle_table db)) as [v|] eqn:Hv.
  - exists v. pose proof (find_some _ _ Hv) as [Hin Hlive].
    apply live_vehicle_iff in Hlive.
    split; [split; [exact Hin | exact Hlive]|].
    split; [reflexivity|].
    rewrite create_rental_steps. fold uid vid s e.
    apply not_lt_iff in Hrange. rewrite Hrange, (overlap_query_false Hno), Hv.
    reflexivity.
  - apply (find_none _ _ Hv) in Hin0.
    apply live_vehicle_iff in Hv0. fold vid in Hv0. congruence.
Qed.

(** The overlap check covers what the unique key on vehicle and dates
    guards: once it has passed, no stored rental, cancelled or not, has
    the vehicle and the two dates of the request, so without a concurrent
    writer the [INSERT] cannot meet a duplicate. *)
Lemma overlap_check_covers_same_dates :
  ~ (e < s)%date -> ~ (exists r, blocks_create payload db r) ->
  forall r, In r (Rental_table db) ->
    ~ (Rental.vehicle_id r = vid /\ Rental.start_date r = s /\
       Rental.end_date r = e).
Proof.
  intros Hrange Hno r Hin (Hvid & Hs & He). apply Hno. exists r.
  split; [exact Hin|]. split; [exact Hvid|].
  rewrite Hs, He. fold s e. unfold PyDate.gt, PyDate.gtb.
  intros [H | H]; exact (Hrange H).
Qed.

(** A request that was booked left its row behind. *)
Lemma create_rental_returned (insert_raises : option string)
    (resp : RentalResponse) (db' : Database) :
  create_rental insert_raises payload db = (Return resp, db') ->
  (e <? s)%date = false /\
  start_date resp = s /\ end_date resp = e /\
  total_days resp = PyDate.days_between e s + 1 /\
  exists stored,
    Rental_table db' = Rental_table db ++ [stored] /\
    Rental.rental_id stored = rental_id resp /\
    Rental.vehicle_id stored = vid /\
    Rental.start_date stored = s /\ Rental.end_date stored = e.
Proof.
  intros Hcreate.
  rewrite create_rental_steps in Hcreate. fold uid vid s e in Hcreate.
  destruct (e <? s)%date eqn:Hrange; [discriminate|].
  destruct (existsb _ _); [discriminate|].
  destruct (find _ _) as [v|]; [|discriminate].
  destruct insert_raises as [msg|]; cbn in Hcreate.
  { destruct (contains "1062" msg && contains "uq_vehicle_date_overlap" msg);
      discriminate. }
  injection Hcreate as <- <-.
  repeat (split; [reflexivity|]).
  eexists. cbn. split; [reflexivity|]. repeat split.
Qed.
End CreateRentalCases.

(** C3. A create request is answered in this order: a range with
    [end_date < start_date] raises the invalid-range error (422);
    otherwise any rental of the vehicle that overlaps the range, cancelled
    or not, raises the vehicle-unavailable error (400); otherwise a
    missing or soft-deleted vehicle raises "Vehicle not found" (404);
    otherwise the rental is booked, provided the [INSERT] itself goes
    through.  The database is untouched by every rejection.  So a rental
    that was created, then cancelled, still blocks every new request for
    the same vehicle and dates. *)
Theorem create_rental_error_protocol
    (insert_raises : option string) (payload : RentalCreateRequest)
    (db : Database) :
  let vid := RentalCreateRequest.vehicle_id payload in
  let s := RentalCreateRequest.start_date payload in
  let e := RentalCreateRequest.end_date payload in
  let overlapping := blocks_create payload db in
  let bookable := bookable payload db in
  ((e < s)%date ->
   create_rental insert_raises payload db = (Raise invalid_date_range, db))
  /\
  (~ (e < s)%date -> (exists r, overlapping r) ->
   create_rental insert_raises payload db = (Raise vehicle_not_available, db))
  /\
  (~ (e < s)%date -> ~ (exists r, overlapping r) -> ~ (exists v, bookable v) ->
   create_rental insert_raises payload db =
   (Raise {| status_code := 404; detail := "Vehicle not found" |}, db))
  /\
  (~ (e < s)%date -> ~ (exists r, overlapping r) -> (exists v, bookable v) ->
   insert_raises = None ->
   exists resp db',
     create_rental insert_raises payload db = (Return resp, db') /\
     exists stored,
       Rental_table db' = Rental_table db ++ [stored] /\
       Rental.rental_id stored = rental_id resp /\
       Rental.vehicle_id stored = vid /\
       Rental.start_date stored = s /\ Rental.end_date stored = e /\
       Rental.deleted_at stored = None)
  /\
  (forall resp db1 now db2 insert_raises' payload',
     create_rental insert_raises payload db = (Return resp, db1) ->
     delete_rental now (rental_id resp) db1 = (Return tt, db2) ->
     RentalCreateRequest.vehicle_id payload' = vid ->
     RentalCreateRequest.start_date payload' = s ->
     RentalCreateRequest.end_date payload' = e ->
     create_rental insert_raises' payload' db2 = (Raise vehicle_not_available, db2)).
Proof.
  intros vid s e overlapping bookable'. repeat split.
  - apply create_rental_invalid_range.
  - apply create_rental_overlap.
  - apply create_rental_vehicle_not_found.
  - intros Hrange Hno Hv ->.
    destruct (create_rental_validated payload db None Hrange Hno Hv)
      as (v & _ & _ & ->).
    cbn. eexists _, _. split; [reflexivity|].
    eexists. cbn. split; [reflexivity|]. repeat split.
  - intros resp db1 now db2 ins' payload' Hcreate Hdelete Hvid' Hs' He'.
    apply create_rental_returned in Hcreate.
    destruct Hcreate as (Hrange & _ & _ & _ & stored & Htable & Hid & Hvid & Hs & He).
    rewrite delete_rental_steps in Hdelete.
    destruct (existsb _ _); [|discriminate].
    injection Hdelete as <-.
    apply create_rental_overlap; [rewrite Hs', He'; apply not_lt_iff; exact Hrange|].
    exists (if Rental.rental_id stored =? rental_id resp
            then SET_deleted_at now stored else stored).
    unfold blocks_create. rewrite Hvid', Hs', He'.
    split; [|split].
    + cbn [UPDATE_Rental snd Rental_table]. rewrite Htable, map_app.
      apply in_or_app. right. left. reflexivity.
    + destruct (_ =? _); exact Hvid.
    + assert (Hdates : forall r, Rental.start_date r = s -> Rental.end_date r = e ->
                ~ ((e < Rental.start_date r)%date \/ (s > Rental.end_date r)%date)).
      { intros r -> ->. unfold PyDate.gt, PyDate.gtb, PyDate.lt. fold s e in Hrange.
        rewrite Hrange. intuition congruence. }
      destruct (_ =? _); apply Hdates; assumption.
Qed.

(* ================================================================= *)
(** ** Pricing at creation *)

(** C2. A create request that passes validation (the range is in order,
    no rental of the vehicle meets it, the vehicle exists and is not
    soft-deleted) is booked with [total_days = (end - start).days + 1], at
    least one day, and [total_cost = round(price_per_day * total_days, 2)],
    both in the response and in the stored row; at 45.00 a day, 2024-04-01
    to 2024-04-05 gives 5 days and 225.00. *)
Theorem create_rental_totals
    (payload : RentalCreateRequest) (db : Database) (v : Vehicle.row) :
  let vid := RentalCreateRequest.vehicle_id payload in
  let s := RentalCreateRequest.start_date payload in
  let e := RentalCreateRequest.end_date payload in
  (s <= e)%date ->
  (forall r, In r (Rental_table db) -> Rental.vehicle_id r = vid ->
             (e < Rental.start_date r)%date \/ (s > Rental.end_date r)%date) ->
  In v (Vehicle_table db) ->
  Vehicle.vehicle_id v = vid ->
  Vehicle.deleted_at v = None ->
  (forall v', In v' (Vehicle_table db) -> Vehicle.vehicle_id v' = vid -> v' = v) ->
  exists resp db' stored,
    create_rental None payload db = (Return resp, db') /\
    total_days resp = PyDate.toordinal e - PyDate.toordinal s + 1 /\
    total_price resp =
      PyFloat.round2
        (PyFloat.mul (Decimal.to_float (Vehicle.price_per_day v))
                     (PyFloat.of_int (total_days resp))) /\
    Rental_table db' = Rental_table db ++ [stored] /\
    Rental.rental_id stored = rental_id resp /\
    Rental.start_date stored = s /\ Rental.end_date stored = e /\
    Rental.price_at_rental stored = Decimal.to_float (Vehicle.price_per_day v) /\
    Rental.total_cost stored = total_price resp /\
    (PyDate.valid s -> PyDate.valid e -> 1 <= total_days resp) /\
    (Vehicle.price_per_day v = Decimal.mkdecimal 4500 2 ->
     s = PyDate.mkdate 2024 4 1 -> e = PyDate.mkdate 2024 4 5 ->
     total_days resp = 5 /\
     total_price resp = Decimal.to_float (Decimal.mkdecimal 22500 2)).
Proof.
  intros vid s e Hle Hfree Hin Hvid Hlive Hkey.
  assert (Hrange : ~ (e < s)%date).
  { clear - Hle. PyDateFacts.date_order. }
  assert (Hno : ~ (exists r, blocks_create payload db r)).
  { intros (r & Hr & Hrv & Hmeets). apply Hmeets. apply Hfree; assumption. }
  assert (Hv : exists v, bookable payload db v).
  { exists v. split; [exact Hin|]. split; assumption. }
  destruct (create_rental_validated payload db None Hrange Hno Hv)
    as (v' & (Hin' & Hvid' & _) & _ & ->).
  rewrite (Hkey v' Hin' Hvid').
  cbn. eexists _, _, _. split; [reflexivity|]. cbn.
  repeat (split; [reflexivity|]).
  fold s e. split.
  - intros Hs He. apply PyDateFacts.leb_toordinal in Hle; try assumption.
    unfold PyDate.days_between. lia.
  - intros -> -> ->. split; reflexivity.
Qed.

(* ================================================================= *)
(** ** Failures of the insert *)

(** C8. When the [INSERT] of an otherwise valid create request raises, the
    handler looks at the text of the exception: error 1062 on the key
    [uq_vehicle_date_overlap] is answered with the very error the overlap
    check raises; anything else is answered with the 500 error "Failed to
    create rental".  Either way the request fails, and the database is as
    it was: nothing is retried. *)
Theorem create_rental_insert_failure
    (msg : string) (payload : RentalCreateRequest) (db : Database) :
  let s := RentalCreateRequest.start_date payload in
  let e := RentalCreateRequest.end_date payload in
  ~ (e < s)%date ->
  ~ (exists r, blocks_create payload db r) ->
  (exists v, bookable payload db v) ->
  (contains "1062" msg = true ->
   contains "uq_vehicle_date_overlap" msg = true ->
   create_rental (Some msg) payload db = (Raise vehicle_not_available, db) /\
   forall insert_raises db2,
     (exists r, blocks_create payload db2 r) ->
     fst (create_rental insert_raises payload db2)
     = fst (create_rental (Some msg) payload db))
  /\
  (contains "1062" msg = false \/
   contains "uq_vehicle_date_overlap" msg = false ->
   create_rental (Some msg) payload db =
   (Raise {| status_code := 500; detail := "Failed to create rental" |}, db)).
Proof.
  intros s e Hrange Hno Hv.
  destruct (create_rental_validated payload db (Some msg) Hrange Hno Hv)
    as (v & _ & _ & Hcreate).
  cbn in Hcreate. split.
  - intros H1062 Hkey. rewrite H1062, Hkey in Hcreate. cbn in Hcreate.
    split; [exact Hcreate|].
    intros ins db2 Hblocked.
    rewrite Hcreate, (create_rental_overlap payload db2 ins Hrange Hblocked).
    reflexivity.
  - intros Hother. rewrite Hcreate.
    destruct Hother as [-> | ->]; [reflexivity|].
    rewrite andb_false_r. reflexivity.
Qed.

(* ================================================================= *)
(** ** Facts about [update_rental] *)

Section UpdateOverlap.
Import PyDateFacts.

Variables (rid vid : Z) (s e : date).
Hypothesis valid_start : PyDate.valid s.
Hypothesis valid_end : PyDate.valid e.

Lemma update_overlap_condition_iff (r : Rental.row) :
  update_overlap_condition vid rid (PyDate.isoformat s) (PyDate.isoformat e) r
  = true <->
  Rental.vehicle_id r = vid /\
  Rental.rental_id r <> rid /\
  Rental.deleted_at r = None /\
  ~ ((e <= Rental.start_date r)%date \/ (s >= Rental.end_date r)%date).
Proof.
  unfold update_overlap_condition.
  rewrite !of_sql_text_isoformat by assumption.
  rewrite !andb_true_iff, !negb_true_iff, orb_false_iff, Z.eqb_eq, Z.eqb_neq.
  unfold PyDate.le, PyDate.ge, IS_NULL.
  destruct (Rental.deleted_at r), (e <=? Rental.start_date r)%date,
    (s >=? Rental.end_date r)%date; intuition congruence.
Qed.

Lemma update_overlap_query_true (db : Database) :
  (exists r, blocks_update rid vid s e db r) ->
  existsb (update_overlap_condition vid rid (PyDate.isoformat s)
             (PyDate.isoformat e)) (Rental_table db) = true.
Proof.
  intros (r & Hin & Hr). apply existsb_exists. exists r.
  split; [exact Hin|]. apply update_overlap_condition_iff. exact Hr.
Qed.

Lemma update_overlap_query_false (db : Database) :
  ~ (exists r, blocks_update rid vid s e db r) ->
  existsb (update_overlap_condition vid rid (PyDate.isoformat s)
             (PyDate.isoformat e)) (Rental_table db) = false.
Proof.
  intros Hno. apply existsb_false_iff. intros r Hin.
  destruct (update_overlap_condition _ _ _ _ r) eqn:Hc; [|reflexivity].
  apply update_overlap_condition_iff in Hc. exfalso. apply Hno.
  exists r. split; [exact Hin | exact Hc].
Qed.
End UpdateOverlap.

(* ================================================================= *)
(** ** What the two overlap tests mean in days *)

Section OverlapInDays.
Import PyDateFacts.

Variables (vid rid : Z) (s e : date) (r : Rental.row).

Hypothesis valid_start : PyDate.valid s.
Hypothesis valid_end : PyDate.valid e.
Hypothesis valid_row_start : PyDate.valid (Rental.start_date r).
Hypothesis valid_row_end : PyDate.valid (Rental.end_date r).

(** The test of [create_rental] reads both ranges as inclusive: it holds
    exactly when the two ranges, each in order, have a day in common. *)
Lemma create_overlap_shares_a_day :
  Rental.vehicle_id r = vid ->
  (s <= e)%date -> (Rental.start_date r <= Rental.end_date r)%date ->
  (create_overlap_condition vid s e r = true <->
   exists n,
     PyDate.toordinal s <= n <= PyDate.toordinal e /\
     PyDate.toordinal (Rental.start_date r) <= n
       <= PyDate.toordinal (Rental.end_date r)).
Proof.
  intros Hvid Hse Hr.
  apply leb_toordinal in Hse, Hr; try assumption.
  rewrite create_overlap_condition_iff.
  unfold PyDate.gt, PyDate.gtb, PyDate.lt.
  rewrite !ltb_toordinal by assumption.
  split.
  - intros (_ & Hmeet).
    exists (Z.max (PyDate.toordinal s) (PyDate.toordinal (Rental.start_date r))).
    lia.
  - intros (n & Hn1 & Hn2). split; [exact Hvid | lia].
Qed.

(** The test of [update_rental] reads both ranges as half-open, the end
    day left out: for two ranges with [start < end] it holds exactly when
    some day lies in both [start, end) intervals. *)
Lemma update_overlap_shares_a_night :
  Rental.vehicle_id r = vid -> Rental.rental_id r <> rid ->
  Rental.deleted_at r = None ->
  (s < e)%date -> (Rental.start_date r < Rental.end_date r)%date ->
  (update_overlap_condition vid rid (PyDate.isoformat s) (PyDate.isoformat e) r
   = true <->
   exists n,
     PyDate.toordinal s <= n < PyDate.toordinal e /\
     PyDate.toordinal (Rental.start_date r) <= n
       < PyDate.toordinal (Rental.end_date r)).
Proof.
  intros Hvid Hrid Hlive Hse Hr.
  apply ltb_toordinal in Hse, Hr; try assumption.
  rewrite update_overlap_condition_iff by assumption.
  unfold PyDate.ge, PyDate.geb, PyDate.le.
  rewrite !leb_toordinal by assumption.
  split.
  - intros (_ & _ & _ & Hmeet).
    exists (Z.max (PyDate.toordinal s) (PyDate.toordinal (Rental.start_date r))).
    lia.
  - intros (n & Hn1 & Hn2). repeat (split; [assumption|]). lia.
Qed.
End OverlapInDays.

Section UpdateRental.
Import PyDateFacts.

Variable now : timestamp.
Variable rid : Z.
Variable payload : RentalCreateRequest.

Let s := RentalCreateRequest.start_date payload.
Let e := RentalCreateRequest.end_date payload.

Hypothesis valid_start : PyDate.valid s.
Hypothesis valid_end : PyDate.valid e.

(** The steps of the handler, one after the other: the lookup, the
    overlap check, the date order, the [UPDATE], the final [SELECT]. *)
Lemma update_rental_steps (db : Database) :
  update_rental now rid payload db =
  match find (live_rental_condition rid) (Rental_table db) with
  | None => (Raise rental_not_found, db)
  | Some existing =>
      if existsb (update_overlap_condition (Rental.vehicle_id existing) rid
                    (PyDate.isoformat s) (PyDate.isoformat e))
                 (Rental_table db)
      then (Raise vehicle_not_available, db)
      else if (s <? e)%date then
        let db' := snd (UPDATE_Rental
                          (SET_dates (PyDate.isoformat s) (PyDate.isoformat e) now)
                          rid db) in
        match find (fun rv => Rental.rental_id (fst rv) =? rid)
                   (Rental_JOIN_Vehicle db') with
        | None => (Uncaught "TypeError: 'NoneType' object is not iterable", db')
        | Some rv => (Return (rental_view rv), db')
        end
      else (Raise invalid_date_range, db)
  end.
Proof.
  unfold update_rental. fold s e.
  unfold bind at 1, fetch_one at 1. rewrite first_row_SELECT.
  destruct (find _ _) as [existing|]; [|reflexivity].
  cbn [option_map snd].
  unfold bind at 1, fetch_one at 1. rewrite truthy_first_row_SELECT.
  destruct (existsb _ _); [reflexivity|].
  unfold bind at 1, fetch_one at 1, date_order_query, first_row.
  rewrite ltb_isoformat by assumption.
  destruct (s <? e)%date; [|reflexivity].
  cbn [Z.eqb Pos.eqb negb].
  unfold bind, execute, fetch_one. cbn [UPDATE_Rental snd].
  rewrite first_row_SELECT.
  destruct (find _ _) as [rv|]; reflexivity.
Qed.
End UpdateRental.

(* ================================================================= *)
(** ** The decision protocol of [update_rental] *)

Section UpdateRentalCases.
Variable now : timestamp.
Variable rid : Z.
Variable payload : RentalCreateRequest.
Variable db : Database.
Variable existing : Rental.row.

Let s := RentalCreateRequest.start_date payload.
Let e := RentalCreateRequest.end_date payload.

Hypothesis valid_start : PyDate.valid s.
Hypothesis valid_end : PyDate.valid e.
Hypothesis existing_stored : In existing (Rental_table db).
Hypothesis existing_id : Rental.rental_id existing = rid.
Hypothesis existing_live : Rental.deleted_at existing = None.
Hypothesis rental_id_key :
  forall r, In r (Rental_table db) -> Rental.rental_id r = rid -> r = existing.

Lemma update_rental_lookup :
  find (live_rental_condition rid) (Rental_table db) = Some existing.
Proof.
  apply find_unique.
  - exact existing_stored.
  - apply live_rental_iff. split; assumption.
  - intros r Hin Hr. apply live_rental_iff in Hr.
    apply rental_id_key; tauto.
Qed.

Lemma update_rental_overlap :
  (exists r, blocks_update rid (Rental.vehicle_id existing) s e db r) ->
  update_rental now rid payload db = (Raise vehicle_not_available, db).
Proof.
  intros Hblocked.
  rewrite update_rental_steps by assumption.
  rewrite update_rental_lookup.
  rewrite update_overlap_query_true by assumption. reflexivity.
Qed.

Lemma update_rental_invalid_range :
  ~ (exists r, blocks_update rid (Rental.vehicle_id existing) s e db r) ->
  (s >= e)%date ->
  update_rental now rid payload db = (Raise invalid_date_range, db).
Proof.
  intros Hfree Hge.
  rewrite update_rental_steps by assumption.
  rewrite update_rental_lookup.
  rewrite update_overlap_query_false by assumption.
  assert (Hlt : (s <? e)%date = false).
  { clear - Hge. PyDateFacts.date_order. }
  fold s e. rewrite Hlt. reflexivity.
Qed.
(** With nothing in the way and the dates in order, no check of the
    handler refuses the request. *)
Lemma update_rental_accepted :
  ~ (exists r, blocks_update rid (Rental.vehicle_id existing) s e db r) ->
  (s < e)%date ->
  forall err, fst (update_rental now rid payload db) <> Raise err.
Proof.
  intros Hfree Hlt.
  rewrite update_rental_steps by assumption.
  rewrite update_rental_lookup.
  rewrite update_overlap_query_false by assumption.
  unfold PyDate.lt in Hlt. fold s e. rewrite Hlt. cbv zeta.
  destruct (find _ _) as [rv|]; discriminate.
Qed.
End UpdateRentalCases.

(** C4, as the code has it.  For an update of an existing, non-cancelled
    rental the overlap check comes first and the date order second.  The
    overlap check leaves out the rental's own id and every cancelled
    rental.  When it finds another rental the answer is the
    vehicle-unavailable error, whatever the order of the two dates; a
    request with [start_date >= end_date] gets the invalid-range error
    when the overlap check finds nothing; and when it finds nothing and
    the dates are in order, the rental's own row and the cancelled ones
    being no obstacle, none of the three checks refuses the request:
    the handler goes on to its [UPDATE]. *)
Theorem update_rental_checks_in_order
    (now : timestamp) (rid : Z) (payload : RentalCreateRequest)
    (db : Database) (existing : Rental.row) :
  let s := RentalCreateRequest.start_date payload in
  let e := RentalCreateRequest.end_date payload in
  PyDate.valid s -> PyDate.valid e ->
  In existing (Rental_table db) ->
  Rental.rental_id existing = rid ->
  Rental.deleted_at existing = None ->
  (forall r, In r (Rental_table db) -> Rental.rental_id r = rid -> r = existing) ->
  ((exists r, blocks_update rid (Rental.vehicle_id existing) s e db r) ->
   update_rental now rid payload db = (Raise vehicle_not_available, db))
  /\
  (~ (exists r, blocks_update rid (Rental.vehicle_id existing) s e db r) ->
   (s >= e)%date ->
   update_rental now rid payload db = (Raise invalid_date_range, db))
  /\
  (~ (exists r, blocks_update rid (Rental.vehicle_id existing) s e db r) ->
   (s < e)%date ->
   forall err, fst (update_rental now rid payload db) <> Raise err).
Proof.
  intros s e Hs He Hin Hid Hlive Hkey. split; [|split].
  - apply update_rental_overlap; assumption.
  - apply update_rental_invalid_range; assumption.
  - apply update_rental_accepted; assumption.
Qed.

(** C4 fails as stated: with rental 1 booked 04-01 .. 04-10 on the same
    vehicle, moving rental 2 to start 04-06, end 04-05 (a range out of
    order) is answered with the vehicle-unavailable error, not with the
    invalid-range error. *)
Lemma update_rental_range_checked_last :
  let payload := request 7 2 (d 2024 4 6) (d 2024 4 5) in
  (RentalCreateRequest.start_date payload >= RentalCreateRequest.end_date payload)%date /\
  In (rental_row 2 7 2 (d 2024 4 20) (d 2024 4 22) None) (Rental_table two_rentals_db) /\
  fst (update_rental 1000 2 payload two_rentals_db) = Raise vehicle_not_available /\
  fst (update_rental 1000 2 payload two_rentals_db) <> Raise invalid_date_range.
Proof.
  cbv zeta. split; [reflexivity|]. split; [right; left; reflexivity|].
  assert (H : fst (update_rental 1000 2 (request 7 2 (d 2024 4 6) (d 2024 4 5))
                     two_rentals_db) = Raise vehicle_not_available)
    by (vm_compute; reflexivity).
  split; [exact H|]. rewrite H. discriminate.
Qed.

(* ================================================================= *)
(** ** What a successful update stores and returns *)

Lemma in_JOIN {A B : Type} (left : list A) (right : list B)
    (on : A -> B -> bool) (a : A) (b : B) :
  In (a, b) (JOIN left right on) <-> In a left /\ In b right /\ on a b = true.
Proof.
  unfold JOIN. rewrite in_flat_map. split.
  - intros (a' & Ha' & Hab). apply in_map_iff in Hab.
    destruct Hab as (b' & Heq & Hb'). injection Heq as -> ->.
    apply filter_In in Hb'. tauto.
  - intros (Ha & Hb & Hon). exists a. split; [exact Ha|].
    apply in_map. apply filter_In. tauto.
Qed.

Lemma Forall2_map_r {A B : Type} (P : A -> B -> Prop) (f : A -> B) (l : list A) :
  (forall x, In x l -> P x (f x)) -> Forall2 P l (map f l).
Proof.
  induction l as [|x l IH]; intros H; cbn; constructor.
  - apply H. left. reflexivity.
  - apply IH. intros y Hy. apply H. right. exact Hy.
Qed.

Section UpdateRentalSuccess.
Variable now : timestamp.
Variable rid : Z.
Variable payload : RentalCreateRequest.
Variable db : Database.

Let s := RentalCreateRequest.start_date payload.
Let e := RentalCreateRequest.end_date payload.

Hypothesis valid_start : PyDate.valid s.
Hypothesis valid_end : PyDate.valid e.

(** A request that was accepted went through the [UPDATE], and the
    response is the joined view of a row that carries the new dates. *)
Lemma update_rental_returned (resp : RentalResponse) (db' : Database) :
  update_rental now rid payload db = (Return resp, db') ->
  (s <? e)%date = true /\
  db' = snd (UPDATE_Rental
               (SET_dates (PyDate.isoformat s) (PyDate.isoformat e) now) rid db) /\
  exists r v,
    In r (Rental_table db) /\ Rental.rental_id r = rid /\
    In v (Vehicle_table db) /\ Vehicle.vehicle_id v = Rental.vehicle_id r /\
    resp = rental_view
             (SET_dates (PyDate.isoformat s) (PyDate.isoformat e) now r, v).
Proof.
  intros Hupdate. rewrite update_rental_steps in Hupdate by assumption.
  destruct (find (live_rental_condition rid) _) as [existing|]; [|discriminate].
  destruct (existsb _ _); [discriminate|]. fold s e in Hupdate.
  destruct (s <? e)%date; [|discriminate]. cbv zeta in Hupdate.
  destruct (find _ _) as [[r' v]|] eqn:Hjoin; [|discriminate].
  injection Hupdate as <- <-.
  split; [reflexivity|]. split; [reflexivity|].
  apply find_some in Hjoin. destruct Hjoin as [Hin Hid].
  apply in_JOIN in Hin. destruct Hin as (Hr' & Hv & Hon).
  cbn [UPDATE_Rental snd Rental_table Vehicle_table fst] in Hr', Hv, Hid.
  apply in_map_iff in Hr'. destruct Hr' as (r & Hr & Hin).
  apply Z.eqb_eq in Hid, Hon.
  destruct (Rental.rental_id r =? rid) eqn:Hrid.
  - apply Z.eqb_eq in Hrid. exists r, v. subst r'.
    repeat split; try assumption.
  - subst r'. apply Z.eqb_neq in Hrid. contradiction.
Qed.
End UpdateRentalSuccess.

(** C5, as the code has it.  A successful update rewrites [start_date],
    [end_date] and [updated_at] of the rental and nothing else: its
    [vehicle_id], its [price_at_rental] and also its stored [total_cost]
    stay as they were, like every other row.  The recomputed total is
    only part of the response: the day difference of the new dates times
    the vehicle's current [price_per_day]. *)
Theorem update_rental_stored_fields
    (now : timestamp) (rid : Z) (payload : RentalCreateRequest)
    (db : Database) (resp : RentalResponse) (db' : Database) :
  let s := RentalCreateRequest.start_date payload in
  let e := RentalCreateRequest.end_date payload in
  PyDate.valid s -> PyDate.valid e ->
  update_rental now rid payload db = (Return resp, db') ->
  Forall2
    (fun r r' =>
       Rental.rental_id r' = Rental.rental_id r /\
       Rental.user_id r' = Rental.user_id r /\
       Rental.vehicle_id r' = Rental.vehicle_id r /\
       Rental.price_at_rental r' = Rental.price_at_rental r /\
       Rental.total_cost r' = Rental.total_cost r /\
       Rental.deleted_at r' = Rental.deleted_at r /\
       (Rental.rental_id r = rid ->
        Rental.start_date r' = s /\ Rental.end_date r' = e /\
        Rental.updated_at r' = Some now) /\
       (Rental.rental_id r <> rid -> r' = r))
    (Rental_table db) (Rental_table db')
  /\ Vehicle_table db' = Vehicle_table db
  /\ (exists r, In r (Rental_table db) /\ Rental.rental_id r = rid)
  /\ rental_id resp = rid
  /\ start_date resp = s /\ end_date resp = e
  /\ total_days resp = PyDate.days_between e s
  /\ exists v,
       In v (Vehicle_table db) /\ Vehicle.vehicle_id v = vehicle_id resp /\
       total_price resp =
         Decimal.to_float
           (Decimal.mul_int (PyDate.days_between e s) (Vehicle.price_per_day v)).
Proof.
  intros s e Hs He Hupdate.
  destruct (update_rental_returned now rid payload db Hs He resp db' Hupdate)
    as (_ & -> & r & v & Hr & Hrid & Hv & Hvid & ->).
  pose proof (PyDateFacts.of_sql_text_isoformat s Hs) as Hts.
  pose proof (PyDateFacts.of_sql_text_isoformat e He) as Hte.
  fold s e. split.
  { cbn [UPDATE_Rental snd Rental_table]. apply Forall2_map_r.
    intros x _. destruct (Rental.rental_id x =? rid) eqn:Hx.
    - apply Z.eqb_eq in Hx. cbn. rewrite Hts, Hte.
      repeat split; try reflexivity. intros Hne. contradiction.
    - apply Z.eqb_neq in Hx. repeat split; try reflexivity; contradiction. }
  split; [reflexivity|].
  split; [exists r; split; assumption|].
  cbn. rewrite Hts, Hte. repeat split; try assumption.
  exists v. repeat split; assumption.
Qed.

(** C5 fails as stated: after scenario A (five days, 225.00 stored), an
    update to 2024-04-02 .. 2024-04-10 succeeds, and the stored
    [total_cost] is still 225.00: it is neither the total the response
    reports (360.00) nor the creation-time formula on the new dates
    (405.00). *)
Lemma update_rental_keeps_total_cost :
  exists resp db' r',
    update_rental 1000 1 (request 1 2 (d 2024 4 2) (d 2024 4 10)) scenario_db_A
    = (Return resp, db') /\
    Rental_table db' = [r'] /\
    Rental.start_date r' = d 2024 4 2 /\ Rental.end_date r' = d 2024 4 10 /\
    Rental.total_cost r' = Decimal.to_float (Decimal.mkdecimal 22500 2) /\
    total_price resp = Decimal.to_float (Decimal.mkdecimal 36000 2) /\
    Rental.total_cost r' <> total_price resp /\
    Rental.total_cost r' <>
      PyFloat.round2
        (PyFloat.mul (Rental.price_at_rental r')
           (PyFloat.of_int
              (PyDate.days_between (Rental.end_date r') (Rental.start_date r') + 1))).
Proof.
  eexists _, _, _. split; [vm_compute; reflexivity|]. cbn [Rental_table].
  split; [reflexivity|].
  repeat (split; [vm_compute; reflexivity|]).
  split; vm_compute; discriminate.
Qed.

(* ================================================================= *)
(** ** Scenario D *)

(** C6, as the code has it.  Updating the rental of scenario A to
    2024-04-02 .. 2024-04-06 succeeds; the returned record reports the day
    difference, [total_days = 4], and [total_price = 180.00]. *)
Theorem update_rental_scenario_D (now : timestamp) :
  exists resp db',
    update_rental now 1 rental_D_request scenario_db_A = (Return resp, db') /\
    rental_id resp = 1 /\
    start_date resp = d 2024 4 2 /\ end_date resp = d 2024 4 6 /\
    total_days resp = 4 /\
    total_price resp = Decimal.to_float (Decimal.mkdecimal 18000 2).
Proof.
  eexists _, _. split; [vm_compute; reflexivity|].
  repeat split; vm_compute; reflexivity.
Qed.

(** C6 fails as stated: the update of scenario D does not report five days
    and 225.00. *)
Lemma update_rental_scenario_D_not_five_days :
  ~ (exists resp db',
       update_rental 1000 1 rental_D_request scenario_db_A = (Return resp, db') /\
       total_days resp = 5 /\
       total_price resp = Decimal.to_float (Decimal.mkdecimal 22500 2)).
Proof.
  intros (resp & db' & Hupdate & Hdays & _).
  vm_compute in Hupdate. injection Hupdate as <- _.
  cbn in Hdays. discriminate.
Qed.

(* ================================================================= *)
(** ** One-day requests *)

(** C10. A request whose start and end are the same day [dd] passes the
    date check of [create_rental], which only rejects [end_date <
    start_date], and is booked for one day when no rental of the vehicle
    meets that day and the vehicle can be booked.  [update_rental] asks
    for [start_date < end_date]: it never accepts the request, and its
    date check answers with the invalid-range error once the overlap
    check, which runs first, has found nothing. *)
Theorem same_day_request
    (dd : date) (uid vid : Z) (now : timestamp) (rid : Z)
    (db : Database) (existing : Rental.row) :
  let payload := request uid vid dd dd in
  PyDate.valid dd ->
  (~ (exists r, blocks_create payload db r) ->
   (exists v, bookable payload db v) ->
   exists resp db',
     create_rental None payload db = (Return resp, db') /\
     start_date resp = dd /\ end_date resp = dd /\ total_days resp = 1)
  /\
  (In existing (Rental_table db) ->
   Rental.rental_id existing = rid ->
   Rental.deleted_at existing = None ->
   (forall r, In r (Rental_table db) -> Rental.rental_id r = rid -> r = existing) ->
   ~ (exists r, blocks_update rid (Rental.vehicle_id existing) dd dd db r) ->
   update_rental now rid payload db = (Raise invalid_date_range, db))
  /\
  (forall resp db', update_rental now rid payload db <> (Return resp, db')).
Proof.
  intros payload Hvalid.
  assert (Hirrefl : (dd <? dd)%date = false).
  { PyDateFacts.date_order. }
  repeat split.
  - intros Hno Hv.
    assert (Hrange : ~ (RentalCreateRequest.end_date payload
                        < RentalCreateRequest.start_date payload)%date).
    { apply not_lt_iff. exact Hirrefl. }
    destruct (create_rental_validated payload db None Hrange Hno Hv)
      as (v & _ & _ & ->).
    cbn. eexists _, _. split; [reflexivity|]. cbn.
    repeat split. unfold PyDate.days_between. lia.
  - intros Hin Hid Hlive Hkey Hfree.
    apply (update_rental_invalid_range now rid payload db existing);
      try assumption.
    unfold PyDate.ge, PyDate.geb, PyDate.leb. cbn.
    replace (PyDate.eqb dd dd) with true; [apply orb_true_r|].
    symmetry. apply PyDateFacts.eqb_true_iff. tauto.
  - intros resp db' Hupdate.
    apply update_rental_returned in Hupdate; try assumption.
    destruct Hupdate as (Hlt & _). cbn in Hlt. congruence.
Qed.

(* ================================================================= *)
(** ** Cancelling *)

(** C7. [delete_rental] succeeds exactly when some rental has the given
    id and a null [deleted_at]; it then stamps [deleted_at] with the
    current time on the rows with that id and leaves the rest alone.
    Otherwise, the id unknown or the rental already cancelled, it raises
    "Rental not found" and the database is unchanged.  A second cancel of
    the same id therefore raises "Rental not found". *)
Theorem delete_rental_cancels_once (now : timestamp) (rid : Z) (db : Database) :
  let cancellable :=
    exists r, In r (Rental_table db) /\ Rental.rental_id r = rid /\
              Rental.deleted_at r = None in
  (cancellable <-> exists db', delete_rental now rid db = (Return tt, db'))
  /\
  (cancellable ->
   exists db',
     delete_rental now rid db = (Return tt, db') /\
     Forall2
       (fun r r' =>
          (Rental.rental_id r = rid ->
           r' = SET_deleted_at now r /\ Rental.deleted_at r' = Some now) /\
          (Rental.rental_id r <> rid -> r' = r))
       (Rental_table db) (Rental_table db') /\
     Vehicle_table db' = Vehicle_table db /\
     forall later,
       delete_rental later rid db' = (Raise rental_not_found, db'))
  /\
  (~ cancellable -> delete_rental now rid db = (Raise rental_not_found, db)).
Proof.
  intros cancellable.
  assert (Hquery : cancellable <->
            existsb (live_rental_condition rid) (Rental_table db) = true).
  { unfold cancellable. rewrite existsb_exists.
    split; intros (r & Hin & Hr); exists r; (split; [exact Hin|]);
      apply live_rental_iff; exact Hr. }
  assert (Hgone : forall later,
            delete_rental later rid
              (snd (UPDATE_Rental (SET_deleted_at now) rid db))
            = (Raise rental_not_found,
               snd (UPDATE_Rental (SET_deleted_at now) rid db))).
  { intros later. rewrite delete_rental_steps.
    match goal with
    | |- context [existsb ?c ?l] => assert (Hnone : existsb c l = false)
    end.
    { apply existsb_false_iff. intros r' Hin.
      cbn [UPDATE_Rental snd Rental_table] in Hin.
      apply in_map_iff in Hin. destruct Hin as (r & <- & _).
      unfold live_rental_condition.
      destruct (Rental.rental_id r =? rid) eqn:Hr; cbn; rewrite Hr;
        [reflexivity | reflexivity]. }
    rewrite Hnone. reflexivity. }
  repeat split.
  - intros Hc. apply Hquery in Hc. rewrite delete_rental_steps, Hc.
    eexists. reflexivity.
  - intros (db' & Hdel). apply Hquery.
    rewrite delete_rental_steps in Hdel.
    destruct (existsb _ _); [reflexivity | discriminate].
  - intros Hc. apply Hquery in Hc. rewrite delete_rental_steps, Hc.
    eexists. split; [reflexivity|]. split; [|split; [reflexivity | exact Hgone]].
    cbn [UPDATE_Rental snd Rental_table]. apply Forall2_map_r.
    intros r _. destruct (Rental.rental_id r =? rid) eqn:Hr.
    + apply Z.eqb_eq in Hr. split; [split; reflexivity | contradiction].
    + apply Z.eqb_neq in Hr. split; [contradiction | reflexivity].
  - intros Hnc. rewrite delete_rental_steps.
    destruct (existsb _ _) eqn:Hex; [|reflexivity].
    exfalso. apply Hnc. apply Hquery. reflexivity.
Qed.

(* ================================================================= *)
(** ** Day counts of the read endpoints *)

Section PageFacts.
Context {R : Type}.
Variable P : R -> Prop.

Lemma Forall_firstn (n : nat) (l : list R) : Forall P l -> Forall P (firstn n l).
Proof.
  revert l. induction n as [|n IH]; intros l Hl; cbn; [constructor|].
  destruct Hl; constructor; [assumption | apply IH; assumption].
Qed.

Lemma Forall_skipn (n : nat) (l : list R) : Forall P l -> Forall P (skipn n l).
Proof.
  revert l. induction n as [|n IH]; intros l Hl; cbn; [exact Hl|].
  destruct Hl; [constructor | apply IH; assumption].
Qed.

Lemma Forall_LIMIT_OFFSET (limit offset : Z) (l : list R) :
  Forall P l -> Forall P (LIMIT_OFFSET limit offset l).
Proof.
  intros Hl. unfold LIMIT_OFFSET. apply Forall_firstn, Forall_skipn, Hl.
Qed.
End PageFacts.

(** C9. Every rental that [list_rentals], [get_rental_by_id] or
    [get_user_rentals] returns reports [total_days] as the day difference
    [end_date - start_date], without the [+ 1] of [create_rental]: one
    day less than the response of the create request said for the same
    dates.  The two listings always return; [get_rental_by_id] returns a
    row, raises "Rental not found", or fails on its missing tables. *)
Theorem read_endpoints_total_days (db : Database) :
  (forall user_id vehicle_id limit offset,
     exists rows,
       list_rentals user_id vehicle_id limit offset db = (Return rows, db) /\
       Forall reports_day_difference rows)
  /\
  (forall rental_id,
     (exists row,
        get_rental_by_id rental_id db = (Return row, db) /\
        reports_day_difference row)
     \/ get_rental_by_id rental_id db = (Raise rental_not_found, db)
     \/ (exists exc, get_rental_by_id rental_id db = (Uncaught exc, db)))
  /\
  (forall user_id vehicle_id skip limit,
     exists rows,
       get_user_rentals user_id vehicle_id skip limit db = (Return rows, db) /\
       Forall reports_day_difference rows)
  /\
  (forall insert_raises payload db0 created db1 row,
     create_rental insert_raises payload db0 = (Return created, db1) ->
     reports_day_difference row ->
     start_date row = start_date created ->
     end_date row = end_date created ->
     total_days row = total_days created - 1).
Proof.
  split; [|split; [|split]]; [| | |
    intros ins payload db0 created db1 row Hcreate Hrow Hs He;
    apply create_rental_returned in Hcreate;
    destruct Hcreate as (_ & Hcs & Hce & Hdays & _);
    unfold reports_day_difference in Hrow;
    rewrite Hrow, Hs, He, Hcs, Hce, Hdays;
    unfold PyDate.days_between; lia ].
  - intros uid vid limit offset. eexists. split; [reflexivity|].
    apply Forall_LIMIT_OFFSET, Forall_map, Forall_forall.
    intros [r v] _. reflexivity.
  - intros rid. unfold get_rental_by_id, bind, fetch_one_if_tables.
    destruct (rentals_table db) as [rentals|];
      [destruct (vehicles_table db) as [vehicles|]|];
      try (right; right; eexists; reflexivity).
    rewrite first_row_SELECT.
    destruct (find _ _) as [[r v]|]; cbn [option_map].
    + left. eexists. split; reflexivity.
    + right. left. reflexivity.
  - intros uid vid skip limit. eexists. split; [reflexivity|].
    apply Forall_LIMIT_OFFSET, Forall_map, Forall_forall.
    intros [r v] _. reflexivity.
Qed.

(* ================================================================= *)
(** ** The two overlap tests *)

(** C1, as the code has it.  Take two live rentals [r1], [r2] of one
    vehicle, with ranges [[s1,e1]] and [[s2,e2]].  The overlap query of
    [create_rental], asked for the range of [r1], selects [r2] exactly
    when [NOT (e1 < s2 OR s1 > e2)]; the test is the same with the two
    rentals exchanged, and two well-formed ranges that share an endpoint
    day overlap.  The overlap query of [update_rental] selects [r2]
    exactly when [NOT (e1 <= s2 OR s1 >= e2)]; it is symmetric as well,
    but two ranges that share only an endpoint day do not overlap for
    it. *)
Theorem overlap_checks (vid : Z) (r1 r2 : Rental.row) :
  let s1 := Rental.start_date r1 in
  let e1 := Rental.end_date r1 in
  let s2 := Rental.start_date r2 in
  let e2 := Rental.end_date r2 in
  let text := PyDate.isoformat in
  Rental.vehicle_id r1 = vid -> Rental.vehicle_id r2 = vid ->
  Rental.rental_id r1 <> Rental.rental_id r2 ->
  Rental.deleted_at r1 = None -> Rental.deleted_at r2 = None ->
  PyDate.valid s1 -> PyDate.valid e1 -> PyDate.valid s2 -> PyDate.valid e2 ->
  (create_overlap_condition vid s1 e1 r2 = true
   <-> ~ ((e1 < s2)%date \/ (s1 > e2)%date))
  /\
  create_overlap_condition vid s1 e1 r2 = create_overlap_condition vid s2 e2 r1
  /\
  ((s1 <= e1)%date -> (s2 <= e2)%date -> e1 = s2 \/ e2 = s1 ->
   create_overlap_condition vid s1 e1 r2 = true)
  /\
  (update_overlap_condition vid (Rental.rental_id r1) (text s1) (text e1) r2 = true
   <-> ~ ((e1 <= s2)%date \/ (s1 >= e2)%date))
  /\
  update_overlap_condition vid (Rental.rental_id r1) (text s1) (text e1) r2
  = update_overlap_condition vid (Rental.rental_id r2) (text s2) (text e2) r1
  /\
  (e1 = s2 \/ e2 = s1 ->
   update_overlap_condition vid (Rental.rental_id r1) (text s1) (text e1) r2 = false).
Proof.
  cbv zeta. intros Hv1 Hv2 Hids Hl1 Hl2 Hs1 He1 Hs2 He2.
  assert (Hcreate : forall r r', Rental.vehicle_id r' = vid ->
            (create_overlap_condition vid (Rental.start_date r) (Rental.end_date r) r'
             = true
             <-> ~ ((Rental.end_date r < Rental.start_date r')%date \/
                    (Rental.start_date r > Rental.end_date r')%date))).
  { intros r r' Hv. rewrite create_overlap_condition_iff. tauto. }
  assert (Hupdate : forall r r',
            Rental.vehicle_id r' = vid -> Rental.deleted_at r' = None ->
            Rental.rental_id r' <> Rental.rental_id r ->
            PyDate.valid (Rental.start_date r) -> PyDate.valid (Rental.end_date r) ->
            (update_overlap_condition vid (Rental.rental_id r)
               (PyDate.isoformat (Rental.start_date r))
               (PyDate.isoformat (Rental.end_date r)) r' = true
             <-> ~ ((Rental.end_date r <= Rental.start_date r')%date \/
                    (Rental.start_date r >= Rental.end_date r')%date))).
  { intros r r' Hv Hl Hid Hs He.
    rewrite update_overlap_condition_iff by assumption. tauto. }
  assert (Hbool : forall b1 b2 : bool, (b1 = true <-> b2 = true) -> b1 = b2).
  { intros [] [] [H1 H2]; try reflexivity; [symmetry; apply H1 | apply H2];
      reflexivity. }
  split; [apply Hcreate; assumption|].
  split.
  { apply Hbool. rewrite (Hcreate r1 r2 Hv2), (Hcreate r2 r1 Hv1).
    unfold PyDate.gt, PyDate.gtb. tauto. }
  split.
  { intros Hle1 Hle2 Hshare. apply Hcreate; [assumption|].
    revert Hle1 Hle2 Hshare.
    generalize (Rental.start_date r1), (Rental.end_date r1),
      (Rental.start_date r2), (Rental.end_date r2).
    clear. intros s1 e1 s2 e2 Hle1 Hle2 Hshare.
    destruct Hshare; subst; PyDateFacts.date_order. }
  split; [apply Hupdate; auto|].
  split.
  { apply Hbool. rewrite (Hupdate r1 r2), (Hupdate r2 r1) by auto.
    unfold PyDate.ge, PyDate.geb. tauto. }
  intros Hshare.
  destruct (update_overlap_condition _ _ _ _ r2) eqn:Hc; [|reflexivity].
  apply Hupdate in Hc; auto. exfalso. apply Hc.
  revert Hshare.
  generalize (Rental.start_date r1), (Rental.end_date r1),
    (Rental.start_date r2), (Rental.end_date r2).
  clear. intros s1 e1 s2 e2 Hshare.
  destruct Hshare; subst; [left | right]; PyDateFacts.date_order.
Qed.

(** C1 fails as stated: for the ranges 04-05 .. 04-08 and 04-01 .. 04-05,
    which share the day 04-05, [NOT (e1 < s2 OR s1 > e2)] holds and the
    create path finds the overlap, while the update path does not and
    moves rental 2 onto 04-05 .. 04-08. *)
Lemma update_overlap_misses_shared_endpoint :
  let s1 := d 2024 4 5 in
  let e1 := d 2024 4 8 in
  let r2 := rental_row 1 1 2 (d 2024 4 1) (d 2024 4 5) None in
  ~ ((e1 < Rental.start_date r2)%date \/ (s1 > Rental.end_date r2)%date) /\
  create_overlap_condition 2 s1 e1 r2 = true /\
  update_overlap_condition 2 2 (PyDate.isoformat s1) (PyDate.isoformat e1) r2 = false /\
  fst (create_rental None (request 7 2 s1 e1) shared_endpoint_db)
  = Raise vehicle_not_available /\
  exists resp db',
    update_rental 1000 2 (request 7 2 s1 e1) shared_endpoint_db = (Return resp, db').
Proof.
  cbv zeta. split.
  { intros [H | H]; vm_compute in H; discriminate. }
  repeat (split; [vm_compute; reflexivity|]).
  eexists _, _. vm_compute. reflexivity.
Qed.

(* ================================================================= *)
(** ** The theorems on the scenarios *)

(** A literal date is a date of the calendar. *)
Ltac valid_date := unfold PyDate.valid, d; cbn; lia.

(** C1 on the ranges 04-05 .. 04-08 and 04-01 .. 04-05: the create test
    holds, the update test does not. *)
Lemma overlap_checks_witness :
  let r1 := rental_row 2 7 2 (d 2024 4 5) (d 2024 4 8) None in
  let r2 := rental_row 1 1 2 (d 2024 4 1) (d 2024 4 5) None in
  (Rental.vehicle_id r1 = 2 /\ Rental.vehicle_id r2 = 2 /\
   Rental.rental_id r1 <> Rental.rental_id r2 /\
   Rental.deleted_at r1 = None /\ Rental.deleted_at r2 = None /\
   PyDate.valid (Rental.start_date r1) /\ PyDate.valid (Rental.end_date r1) /\
   PyDate.valid (Rental.start_date r2) /\ PyDate.valid (Rental.end_date r2) /\
   (Rental.start_date r1 <= Rental.end_date r1)%date /\
   (Rental.start_date r2 <= Rental.end_date r2)%date /\
   Rental.end_date r2 = Rental.start_date r1)
  /\
  create_overlap_condition 2 (d 2024 4 5) (d 2024 4 8) r2 = true
  /\
  update_overlap_condition 2 2 (PyDate.isoformat (d 2024 4 5))
    (PyDate.isoformat (d 2024 4 8)) r2 = false.
Proof.
  cbv zeta.
  assert (Hids : Rental.rental_id (rental_row 2 7 2 (d 2024 4 5) (d 2024 4 8) None)
                 <> Rental.rental_id (rental_row 1 1 2 (d 2024 4 1) (d 2024 4 5) None))
    by (cbn; discriminate).
  assert (Hs1 : PyDate.valid (d 2024 4 5)) by valid_date.
  assert (He1 : PyDate.valid (d 2024 4 8)) by valid_date.
  assert (Hs2 : PyDate.valid (d 2024 4 1)) by valid_date.
  pose proof (overlap_checks 2
                (rental_row 2 7 2 (d 2024 4 5) (d 2024 4 8) None)
                (rental_row 1 1 2 (d 2024 4 1) (d 2024 4 5) None)
                eq_refl eq_refl Hids eq_refl eq_refl Hs1 He1 Hs2 Hs1)
    as (_ & _ & Hcreate & _ & _ & Hupdate).
  split.
  { repeat (split; [first [reflexivity | assumption]|]). reflexivity. }
  split.
  - apply Hcreate; [reflexivity | reflexivity | right; reflexivity].
  - apply Hupdate. right. reflexivity.
Defined.

(** C2 on scenario A: five days, 225.00. *)
Lemma create_rental_totals_witness :
  let v := {| Vehicle.vehicle_id := 2; Vehicle.make := "Toyota";
              Vehicle.model := "Camry";
              Vehicle.price_per_day := Decimal.mkdecimal 4500 2;
              Vehicle.deleted_at := None |} in
  ((d 2024 4 1 <= d 2024 4 5)%date /\
   In v (Vehicle_table scenario_db) /\
   Rental_table scenario_db = [])
  /\
  exists resp db',
    create_rental None rental_A_request scenario_db = (Return resp, db') /\
    total_days resp = 5 /\
    total_price resp = Decimal.to_float (Decimal.mkdecimal 22500 2).
Proof.
  cbv zeta.
  split; [split; [reflexivity | split; [left; reflexivity | reflexivity]]|].
  destruct (create_rental_totals rental_A_request scenario_db
              {| Vehicle.vehicle_id := 2; Vehicle.make := "Toyota";
                 Vehicle.model := "Camry";
                 Vehicle.price_per_day := Decimal.mkdecimal 4500 2;
                 Vehicle.deleted_at := None |})
    as (resp & db' & stored & Hcreate & _ & _ & _ & _ & _ & _ & _ & _ & _ & Hscenario).
  - reflexivity.
  - intros r [].
  - left. reflexivity.
  - reflexivity.
  - reflexivity.
  - intros v' [<- | []] _. reflexivity.
  - exists resp, db'. split; [exact Hcreate|].
    apply Hscenario; reflexivity.
Defined.

(** C3 on scenario C: scenario A, its cancellation, and the same request
    again. *)
Lemma create_rental_error_protocol_witness :
  (create_rental None rental_A_request scenario_db
   = (Return response_A, scenario_db_A) /\
   delete_rental 1000 1 scenario_db_A = (Return tt, scenario_db_A_cancelled))
  /\
  create_rental None rental_A_request scenario_db_A_cancelled
  = (Raise vehicle_not_available, scenario_db_A_cancelled).
Proof.
  assert (Hcreate : create_rental None rental_A_request scenario_db
                    = (Return response_A, scenario_db_A))
    by (vm_compute; reflexivity).
  assert (Hdelete : delete_rental 1000 1 scenario_db_A
                    = (Return tt, scenario_db_A_cancelled))
    by (vm_compute; reflexivity).
  split; [split; assumption|].
  exact (proj2 (proj2 (proj2 (proj2
           (create_rental_error_protocol None rental_A_request scenario_db))))
           _ _ 1000 _ None rental_A_request Hcreate Hdelete
           eq_refl eq_refl eq_refl).
Defined.

(** C4 on two rentals of one vehicle: a range out of order that falls
    inside the other rental is answered by the overlap check. *)
Lemma update_rental_checks_in_order_witness :
  let existing := rental_row 2 7 2 (d 2024 4 20) (d 2024 4 22) None in
  let blocking := rental_row 1 1 2 (d 2024 4 1) (d 2024 4 10) None in
  (PyDate.valid (d 2024 4 6) /\ PyDate.valid (d 2024 4 5) /\
   In existing (Rental_table two_rentals_db) /\
   blocks_update 2 2 (d 2024 4 6) (d 2024 4 5) two_rentals_db blocking)
  /\
  update_rental 1000 2 (request 7 2 (d 2024 4 6) (d 2024 4 5)) two_rentals_db
  = (Raise vehicle_not_available, two_rentals_db).
Proof.
  cbv zeta.
  assert (Hs : PyDate.valid (d 2024 4 6)) by valid_date.
  assert (He : PyDate.valid (d 2024 4 5)) by valid_date.
  assert (Hin : In (rental_row 2 7 2 (d 2024 4 20) (d 2024 4 22) None)
                  (Rental_table two_rentals_db))
    by (right; left; reflexivity).
  assert (Hblocks : blocks_update 2 2 (d 2024 4 6) (d 2024 4 5) two_rentals_db
                      (rental_row 1 1 2 (d 2024 4 1) (d 2024 4 10) None)).
  { split; [left; reflexivity|]. split; [reflexivity|].
    split; [cbn; discriminate|]. split; [reflexivity|].
    intros [H | H]; vm_compute in H; discriminate. }
  assert (Hkey : forall r, In r (Rental_table two_rentals_db) ->
                           Rental.rental_id r = 2 ->
                           r = rental_row 2 7 2 (d 2024 4 20) (d 2024 4 22) None).
  { intros r [<- | [<- | []]] Hid; [cbn in Hid; discriminate | reflexivity]. }
  split; [exact (conj Hs (conj He (conj Hin Hblocks)))|].
  apply (proj1 (update_rental_checks_in_order 1000 2
                  (request 7 2 (d 2024 4 6) (d 2024 4 5)) two_rentals_db
                  (rental_row 2 7 2 (d 2024 4 20) (d 2024 4 22) None)
                  Hs He Hin eq_refl eq_refl Hkey)).
  exists (rental_row 1 1 2 (d 2024 4 1) (d 2024 4 10) None). exact Hblocks.
Defined.

(** C5 on scenario D. *)
Lemma update_rental_stored_fields_witness :
  (PyDate.valid (d 2024 4 2) /\ PyDate.valid (d 2024 4 6) /\
   update_rental 1000 1 rental_D_request scenario_db_A
   = (Return response_D, scenario_db_D))
  /\
  Vehicle_table scenario_db_D = Vehicle_table scenario_db_A /\
  (exists r, In r (Rental_table scenario_db_A) /\ Rental.rental_id r = 1) /\
  total_days response_D = PyDate.days_between (d 2024 4 6) (d 2024 4 2).
Proof.
  assert (Hs : PyDate.valid (d 2024 4 2)) by valid_date.
  assert (He : PyDate.valid (d 2024 4 6)) by valid_date.
  assert (Hupdate : update_rental 1000 1 rental_D_request scenario_db_A
                    = (Return response_D, scenario_db_D))
    by (vm_compute; reflexivity).
  split; [exact (conj Hs (conj He Hupdate))|].
  destruct (update_rental_stored_fields 1000 1 rental_D_request scenario_db_A
              response_D scenario_db_D Hs He Hupdate)
    as (_ & Hvehicles & Hrental & _ & _ & _ & Hdays & _).
  exact (conj Hvehicles (conj Hrental Hdays)).
Defined.

(** C7 on the rental of scenario A: cancelled once, not found after. *)
Lemma delete_rental_cancels_once_witness :
  (exists r, In r (Rental_table scenario_db_A) /\ Rental.rental_id r = 1 /\
             Rental.deleted_at r = None)
  /\
  exists db',
    delete_rental 1000 1 scenario_db_A = (Return tt, db') /\
    forall later, delete_rental later 1 db' = (Raise rental_not_found, db').
Proof.
  assert (Htable : Rental_table scenario_db_A = [rental_A])
    by (vm_compute; reflexivity).
  assert (Hcancellable :
            exists r, In r (Rental_table scenario_db_A) /\
                      Rental.rental_id r = 1 /\ Rental.deleted_at r = None).
  { exists rental_A. rewrite Htable.
    split; [left; reflexivity | split; reflexivity]. }
  split; [exact Hcancellable|].
  destruct (proj1 (proj2 (delete_rental_cancels_once 1000 1 scenario_db_A))
              Hcancellable)
    as (db' & Hdelete & _ & _ & Hagain).
  exists db'. exact (conj Hdelete Hagain).
Defined.

(** C8 on scenario A with a failing [INSERT]: a duplicate key on the
    backstop, and a lost connection. *)
Lemma create_rental_insert_failure_witness :
  (~ (d 2024 4 5 < d 2024 4 1)%date /\
   ~ (exists r, blocks_create rental_A_request scenario_db r) /\
   (exists v, bookable rental_A_request scenario_db v) /\
   contains "1062" duplicate_key_error = true /\
   contains "uq_vehicle_date_overlap" duplicate_key_error = true /\
   contains "1062" lost_connection_error = false)
  /\
  create_rental (Some duplicate_key_error) rental_A_request scenario_db
  = (Raise vehicle_not_available, scenario_db)
  /\
  create_rental (Some lost_connection_error) rental_A_request scenario_db
  = (Raise {| status_code := 500; detail := "Failed to create rental" |},
     scenario_db).
Proof.
  assert (Hrange : ~ (d 2024 4 5 < d 2024 4 1)%date)
    by (intros H; vm_compute in H; discriminate).
  assert (Hfree : ~ (exists r, blocks_create rental_A_request scenario_db r))
    by (intros (r & [] & _)).
  assert (Hvehicle : exists v, bookable rental_A_request scenario_db v).
  { eexists. split; [left; reflexivity | split; reflexivity]. }
  assert (H1062 : contains "1062" duplicate_key_error = true)
    by (vm_compute; reflexivity).
  assert (Hkey : contains "uq_vehicle_date_overlap" duplicate_key_error = true)
    by (vm_compute; reflexivity).
  assert (Hother : contains "1062" lost_connection_error = false)
    by (vm_compute; reflexivity).
  split;
    [exact (conj Hrange (conj Hfree (conj Hvehicle
              (conj H1062 (conj Hkey Hother)))))|].
  split.
  - apply (proj1 (create_rental_insert_failure duplicate_key_error
                    rental_A_request scenario_db Hrange Hfree Hvehicle));
      assumption.
  - apply (proj2 (create_rental_insert_failure lost_connection_error
                    rental_A_request scenario_db Hrange Hfree Hvehicle)).
    left. exact Hother.
Defined.

(** C9 on scenario A: booked for 5 days, listed with 4. *)
Lemma read_endpoints_total_days_witness :
  create_rental None rental_A_request scenario_db
  = (Return response_A, scenario_db_A)
  /\
  (exists row,
     list_rentals None None 20 0 scenario_db_A = (Return [row], scenario_db_A) /\
     total_days response_A = 5 /\
     total_days row = 4)
  /\
  (exists row,
     get_rental_by_id 1 legacy_db = (Return row, legacy_db) /\
     reports_day_difference row /\
     total_days row = 4).
Proof.
  assert (Hcreate : create_rental None rental_A_request scenario_db
                    = (Return response_A, scenario_db_A))
    by (vm_compute; reflexivity).
  split; [exact Hcreate|].
  split.
  - destruct (read_endpoints_total_days scenario_db_A)
      as (Hlist & _ & _ & Hminus).
    destruct (Hlist None None 20 0) as (rows & Hrows & Hdiff).
    assert (Hcomputed : list_rentals None None 20 0 scenario_db_A
                        = (Return [rental_view (rental_A,
                                     {| Vehicle.vehicle_id := 2;
                                        Vehicle.make := "Toyota";
                                        Vehicle.model := "Camry";
                                        Vehicle.price_per_day :=
                                          Decimal.mkdecimal 4500 2;
                                        Vehicle.deleted_at := None |})],
                           scenario_db_A))
      by (vm_compute; reflexivity).
    rewrite Hcomputed in Hrows. injection Hrows as <-.
    eexists. split; [exact Hcomputed|]. split; [reflexivity|].
    inversion Hdiff as [|row rows' Hrow _]; subst.
    exact (Hminus None rental_A_request scenario_db response_A scenario_db_A _
             Hcreate Hrow eq_refl eq_refl).
  - destruct (read_endpoints_total_days legacy_db) as (_ & Hget & _).
    destruct (Hget 1) as [(row & Hrow & Hdiff) | [Hnone | (exc & Hexc)]].
    + exists row. split; [exact Hrow|]. split; [exact Hdiff|].
      vm_compute in Hrow. injection Hrow as <-. reflexivity.
    + vm_compute in Hnone. discriminate.
    + vm_compute in Hexc. discriminate.
Defined.

(** C10 on 2024-04-01 .. 2024-04-01: booked for one day by
    [create_rental], refused by [update_rental]. *)
Lemma same_day_request_witness :
  (PyDate.valid (d 2024 4 1) /\
   ~ (exists r, blocks_create (request 1 2 (d 2024 4 1) (d 2024 4 1)) scenario_db r) /\
   (exists v, bookable (request 1 2 (d 2024 4 1) (d 2024 4 1)) scenario_db v) /\
   In rental_A (Rental_table scenario_db_A) /\
   ~ (exists r, blocks_update 1 2 (d 2024 4 1) (d 2024 4 1) scenario_db_A r))
  /\
  (exists resp db',
     create_rental None (request 1 2 (d 2024 4 1) (d 2024 4 1)) scenario_db
     = (Return resp, db') /\
     total_days resp = 1)
  /\
  update_rental 1000 1 (request 1 2 (d 2024 4 1) (d 2024 4 1)) scenario_db_A
  = (Raise invalid_date_range, scenario_db_A).
Proof.
  assert (Hvalid : PyDate.valid (d 2024 4 1)) by valid_date.
  assert (Hfree : ~ (exists r, blocks_create (request 1 2 (d 2024 4 1) (d 2024 4 1))
                                 scenario_db r))
    by (intros (r & [] & _)).
  assert (Hvehicle : exists v, bookable (request 1 2 (d 2024 4 1) (d 2024 4 1))
                                 scenario_db v).
  { eexists. split; [left; reflexivity | split; reflexivity]. }
  assert (Htable : Rental_table scenario_db_A = [rental_A])
    by (vm_compute; reflexivity).
  assert (Hin : In rental_A (Rental_table scenario_db_A))
    by (rewrite Htable; left; reflexivity).
  assert (Hkey : forall r, In r (Rental_table scenario_db_A) ->
                           Rental.rental_id r = 1 -> r = rental_A).
  { intros r Hr _. rewrite Htable in Hr. destruct Hr as [<- | []]. reflexivity. }
  assert (Halone : ~ (exists r, blocks_update 1 2 (d 2024 4 1) (d 2024 4 1)
                                  scenario_db_A r)).
  { intros (r & Hr & _ & Hid & _). rewrite Htable in Hr.
    destruct Hr as [<- | []]. apply Hid. reflexivity. }
  split; [exact (conj Hvalid (conj Hfree (conj Hvehicle (conj Hin Halone))))|].
  split.
  - destruct (proj1 (same_day_request (d 2024 4 1) 1 2 1000 1 scenario_db
                       rental_A Hvalid) Hfree Hvehicle)
      as (resp & db' & Hcreate & _ & _ & Hdays).
    exists resp, db'. exact (conj Hcreate Hdays).
  - exact (proj1 (proj2 (same_day_request (d 2024 4 1) 1 2 1000 1 scenario_db_A
                           rental_A Hvalid))
             Hin eq_refl eq_refl Hkey Halone).
Defined.

(* ================================================================= *)
(** ** What the writers keep *)

Section Pairs.
Context {A : Type}.
Variable R : A -> A -> Prop.

Lemma FOP_snoc (l : list A) (x : A) :
  ForallOrdPairs R l -> Forall (fun y => R y x) l ->
  ForallOrdPairs R (l ++ [x]).
Proof.
  induction 1 as [|a l Ha Hl IH]; intros Hx; cbn.
  - constructor; constructor.
  - inversion Hx as [|? ? Hax Hlx]; subst. constructor.
    + apply Forall_app. split; [exact Ha | constructor; [exact Hax | constructor]].
    + apply IH. exact Hlx.
Qed.

Lemma FOP_map (f : A -> A) (l : list A) :
  (forall a b, R a b -> R (f a) (f b)) ->
  ForallOrdPairs R l -> ForallOrdPairs R (map f l).
Proof.
  intros Hf. induction 1 as [|a l Ha Hl IH]; cbn; constructor.
  - apply Forall_map. revert Ha. apply Forall_impl. intros b. apply Hf.
  - exact IH.
Qed.
End Pairs.

(** A key tells the rows of a table apart. *)
Lemma key_identifies {A K : Type} (key : A -> K) (l : list A) (a b : A) :
  NoDup (map key l) -> In a l -> In b l -> key a = key b -> a = b.
Proof.
  induction l as [|x l IH]; cbn; intros Hnd Ha Hb Hk; [contradiction|].
  inversion Hnd as [|? ? Hx Hl]; subst.
  destruct Ha as [-> | Ha], Hb as [-> | Hb].
  - reflexivity.
  - exfalso. apply Hx. rewrite Hk. apply in_map. exact Hb.
  - exfalso. apply Hx. rewrite <- Hk. apply in_map. exact Ha.
  - apply IH; assumption.
Qed.

Section WritersKeep.
Import PyDateFacts.

(** What [create_rental] leaves behind: nothing, or one more row, numbered
    by the counter, that no stored rental of the vehicle meets. *)
Lemma create_rental_effect (insert_raises : option string)
    (payload : RentalCreateRequest) (db : Database) :
  snd (create_rental insert_raises payload db) = db \/
  exists stored,
    snd (create_rental insert_raises payload db)
    = {| Vehicle_table := Vehicle_table db;
         Rental_table := Rental_table db ++ [stored];
         Rental_auto_increment := Rental_auto_increment db + 1;
         vehicles_table := vehicles_table db;
         rentals_table := rentals_table db |} /\
    Rental.rental_id stored = Rental_auto_increment db /\
    Rental.user_id stored = RentalCreateRequest.user_id payload /\
    Rental.vehicle_id stored = RentalCreateRequest.vehicle_id payload /\
    Rental.start_date stored = RentalCreateRequest.start_date payload /\
    Rental.end_date stored = RentalCreateRequest.end_date payload /\
    Rental.deleted_at stored = None /\
    (RentalCreateRequest.end_date payload
     <? RentalCreateRequest.start_date payload)%date = false /\
    existsb (create_overlap_condition
               (RentalCreateRequest.vehicle_id payload)
               (RentalCreateRequest.start_date payload)
               (RentalCreateRequest.end_date payload)) (Rental_table db)
    = false.
Proof.
  rewrite create_rental_steps.
  destruct (_ <? _)%date eqn:Hrange; [left; reflexivity|].
  destruct (existsb _ _) eqn:Hfree; [left; reflexivity|].
  destruct (find _ _) as [v|]; [|left; reflexivity].
  destruct insert_raises as [msg|]; cbn.
  - left. destruct (contains "1062" msg && contains "uq_vehicle_date_overlap" msg);
      reflexivity.
  - right. eexists. split; [reflexivity|]. cbn. repeat split.
Qed.

(** What [update_rental] leaves behind: nothing, or the new dates on the
    rows with the id, after the lookup found a live row and the overlap
    query found none. *)
Lemma update_rental_effect (now : timestamp) (rid : Z)
    (payload : RentalCreateRequest) (db : Database) :
  let s := RentalCreateRequest.start_date payload in
  let e := RentalCreateRequest.end_date payload in
  PyDate.valid s -> PyDate.valid e ->
  snd (update_rental now rid payload db) = db \/
  exists existing,
    snd (update_rental now rid payload db)
    = snd (UPDATE_Rental (SET_dates (PyDate.isoformat s) (PyDate.isoformat e) now)
             rid db) /\
    find (live_rental_condition rid) (Rental_table db) = Some existing /\
    existsb (update_overlap_condition (Rental.vehicle_id existing) rid
               (PyDate.isoformat s) (PyDate.isoformat e)) (Rental_table db)
    = false /\
    (s <? e)%date = true.
Proof.
  intros s e Hs He. rewrite update_rental_steps by assumption. fold s e.
  destruct (find (live_rental_condition rid) _) as [existing|] eqn:Hfind;
    [|left; reflexivity].
  destruct (existsb _ _) eqn:Hfree; [left; reflexivity|].
  destruct (s <? e)%date eqn:Hlt; [|left; reflexivity].
  right. exists existing. cbv zeta.
  split; [|repeat split; assumption].
  match goal with
  | |- context [find ?f (Rental_JOIN_Vehicle ?x)] =>
      destruct (find f (Rental_JOIN_Vehicle x)); reflexivity
  end.
Qed.

Lemma delete_rental_effect (now : timestamp) (rid : Z) (db : Database) :
  snd (delete_rental now rid db) = db \/
  snd (delete_rental now rid db)
  = snd (UPDATE_Rental (SET_deleted_at now) rid db).
Proof.
  rewrite delete_rental_steps.
  destruct (existsb _ _); [right | left]; reflexivity.
Qed.

(** An [UPDATE] that leaves [rental_id] alone leaves the keys alone. *)
Lemma UPDATE_Rental_well_keyed (set : Rental.row -> Rental.row) (rid : Z)
    (db : Database) :
  (forall r, Rental.rental_id (set r) = Rental.rental_id r) ->
  well_keyed db -> well_keyed (snd (UPDATE_Rental set rid db)).
Proof.
  intros Hset (Hnd & Hlt).
  assert (Hid : forall r,
            Rental.rental_id (if Rental.rental_id r =? rid then set r else r)
            = Rental.rental_id r).
  { intros r. destruct (_ =? _); [apply Hset | reflexivity]. }
  split; cbn [UPDATE_Rental snd Rental_table Rental_auto_increment].
  - rewrite map_map. erewrite map_ext; [exact Hnd | exact Hid].
  - apply Forall_map. revert Hlt. apply Forall_impl. intros r Hr.
    rewrite Hid. exact Hr.
Qed.

Lemma serve_well_keyed (req : rental_request) (db : Database) :
  dated req -> well_keyed db -> well_keyed (serve req db).
Proof.
  intros Hdated Hkeys. destruct req as [ins payload | now rid payload | now rid];
    cbn [serve].
  - destruct (create_rental_effect ins payload db)
      as [-> | (stored & -> & Hid & _)]; [exact Hkeys|].
    destruct Hkeys as (Hnd & Hlt).
    split; cbn [Rental_table Rental_auto_increment].
    + rewrite map_app. cbn [map]. rewrite Hid.
      apply NoDup_app; [exact Hnd | repeat constructor; intros [] |].
      intros x Hx [<- | []]. apply in_map_iff in Hx.
      destruct Hx as (r & Hr & Hin).
      rewrite Forall_forall in Hlt. specialize (Hlt r Hin). lia.
    + apply Forall_app. split.
      * revert Hlt. apply Forall_impl. intros r Hr. lia.
      * constructor; [lia | constructor].
  - destruct Hdated as [Hs He].
    destruct (update_rental_effect now rid payload db Hs He)
      as [-> | (existing & -> & _)]; [exact Hkeys|].
    apply UPDATE_Rental_well_keyed; [reflexivity | exact Hkeys].
  - destruct (delete_rental_effect now rid db) as [-> | ->]; [exact Hkeys|].
    apply UPDATE_Rental_well_keyed; [reflexivity | exact Hkeys].
Qed.

(** The new dates, read back from their text, on a row that is otherwise
    the same. *)
Lemma SET_dates_row (s e : date) (now : timestamp) (r : Rental.row) :
  PyDate.valid s -> PyDate.valid e ->
  SET_dates (PyDate.isoformat s) (PyDate.isoformat e) now r
  = {| Rental.rental_id := Rental.rental_id r;
       Rental.user_id := Rental.user_id r;
       Rental.vehicle_id := Rental.vehicle_id r;
       Rental.start_date := s;
       Rental.end_date := e;
       Rental.price_at_rental := Rental.price_at_rental r;
       Rental.total_cost := Rental.total_cost r;
       Rental.updated_at := Some now;
       Rental.deleted_at := Rental.deleted_at r |}.
Proof.
  intros Hs He. unfold SET_dates.
  rewrite !of_sql_text_isoformat by assumption. reflexivity.
Qed.

Lemma create_keeps_apart (stored : Rental.row) (rows : list Rental.row) :
  (Rental.end_date stored <? Rental.start_date stored)%date = false ->
  existsb (create_overlap_condition (Rental.vehicle_id stored)
             (Rental.start_date stored) (Rental.end_date stored)) rows = false ->
  ForallOrdPairs apart rows -> ForallOrdPairs apart (rows ++ [stored]).
Proof.
  intros Hrange Hfree Hrows. apply FOP_snoc; [exact Hrows|].
  apply Forall_forall. intros r Hr Hvid _ _.
  apply (proj1 (existsb_false_iff _ _) Hfree) in Hr.
  unfold create_overlap_condition in Hr.
  apply Z.eqb_eq in Hvid. rewrite Hvid in Hr. cbn [andb] in Hr.
  apply negb_false_iff, orb_true_iff in Hr.
  revert Hr.
  generalize (Rental.start_date stored), (Rental.end_date stored),
    (Rental.start_date r), (Rental.end_date r).
  clear. intros s e sr er [H | H]; [right | left]; date_order.
Qed.

Lemma update_keeps_apart (s e : date) (now : timestamp) (rid : Z)
    (rows : list Rental.row) (existing : Rental.row) :
  PyDate.valid s -> PyDate.valid e ->
  NoDup (map Rental.rental_id rows) ->
  find (live_rental_condition rid) rows = Some existing ->
  existsb (update_overlap_condition (Rental.vehicle_id existing) rid
             (PyDate.isoformat s) (PyDate.isoformat e)) rows = false ->
  ForallOrdPairs apart rows ->
  ForallOrdPairs apart
    (map (fun r => if Rental.rental_id r =? rid
                   then SET_dates (PyDate.isoformat s) (PyDate.isoformat e) now r
                   else r) rows).
Proof.
  intros Hs He Hnd Hfind Hfree Hrows.
  apply find_some in Hfind. destruct Hfind as [Hex_in Hex].
  apply live_rental_iff in Hex. destruct Hex as [Hex_id _].
  (* the row with the id is [existing] *)
  assert (Hthe : forall a, In a rows -> Rental.rental_id a = rid -> a = existing).
  { intros a Ha Hid. apply (key_identifies Rental.rental_id rows); try assumption.
    congruence. }
  (* the other live rentals of its vehicle leave the new range free *)
  assert (Hclear : forall b, In b rows -> Rental.rental_id b <> rid ->
            Rental.vehicle_id b = Rental.vehicle_id existing ->
            Rental.deleted_at b = None ->
            (e <= Rental.start_date b)%date \/ (s >= Rental.end_date b)%date).
  { intros b Hb Hid Hvid Hlive.
    apply (proj1 (existsb_false_iff _ _) Hfree) in Hb.
    unfold update_overlap_condition in Hb.
    rewrite !of_sql_text_isoformat in Hb by assumption.
    apply Z.eqb_eq in Hvid. apply Z.eqb_neq in Hid.
    rewrite Hvid, Hid, Hlive in Hb. cbn [andb negb IS_NULL] in Hb.
    apply negb_false_iff, orb_true_iff in Hb. exact Hb. }
  set (f := fun r => if Rental.rental_id r =? rid
                     then SET_dates (PyDate.isoformat s) (PyDate.isoformat e) now r
                     else r).
  assert (Hsub : incl rows rows) by apply incl_refl.
  revert Hnd Hrows Hsub. generalize rows at 1 2 3 5 as l.
  induction l as [|a l IH]; intros Hnd Hrows Hsub; cbn [map]; [constructor|].
  cbn [map] in Hnd. apply NoDup_cons_iff in Hnd. destruct Hnd as [Ha_fresh Hnd'].
  inversion Hrows as [|a' l' Ha Hl]; subst a' l'.
  assert (Hsub' : incl l rows) by (intros x Hx; apply Hsub; right; exact Hx).
  constructor; [|apply IH; assumption].
  apply Forall_map, Forall_forall. intros b Hb.
  rewrite Forall_forall in Ha. specialize (Ha b Hb).
  assert (Hab : Rental.rental_id a <> Rental.rental_id b).
  { intros Heq. apply Ha_fresh. rewrite Heq. apply in_map. exact Hb. }
  assert (Ha_in : In a rows) by (apply Hsub; left; reflexivity).
  assert (Hb_in : In b rows) by (apply Hsub'; exact Hb).
  unfold f.
  destruct (Z.eqb_spec (Rental.rental_id a) rid) as [Harid | Harid];
    destruct (Z.eqb_spec (Rental.rental_id b) rid) as [Hbrid | Hbrid].
  - congruence.
  - rewrite SET_dates_row by assumption. intros Hvid Hla Hlb. cbn in *.
    apply Hclear; try assumption.
    rewrite <- (Hthe a Ha_in Harid). symmetry. exact Hvid.
  - rewrite SET_dates_row by assumption. intros Hvid Hla Hlb. cbn in *.
    assert (Hfree_a : (e <= Rental.start_date a)%date \/
                      (s >= Rental.end_date a)%date).
    { apply Hclear; try assumption.
      rewrite <- (Hthe b Hb_in Hbrid). exact Hvid. }
    revert Hfree_a.
    generalize (Rental.start_date a), (Rental.end_date a).
    clear. intros sa ea [H | H]; [right | left]; date_order.
  - exact Ha.
Qed.

Lemma delete_keeps_apart (now : timestamp) (rid : Z) (rows : list Rental.row) :
  ForallOrdPairs apart rows ->
  ForallOrdPairs apart
    (map (fun r => if Rental.rental_id r =? rid then SET_deleted_at now r else r)
         rows).
Proof.
  apply FOP_map. intros a b Hab.
  destruct (Rental.rental_id a =? rid); [intros _ Hla _; discriminate Hla|].
  destruct (Rental.rental_id b =? rid); [intros _ _ Hlb; discriminate Hlb|].
  exact Hab.
Qed.

Lemma serve_live_rentals_apart (req : rental_request) (db : Database) :
  dated req -> well_keyed db -> live_rentals_apart db ->
  live_rentals_apart (serve req db).
Proof.
  intros Hdated (Hnd & _) Hapart. unfold live_rentals_apart in *.
  destruct req as [ins payload | now rid payload | now rid]; cbn [serve].
  - destruct (create_rental_effect ins payload db)
      as [-> | (stored & -> & _ & _ & Hvid & Hs & He & _ & Hrange & Hfree)];
      [exact Hapart|].
    cbn [Rental_table]. apply create_keeps_apart; [| |exact Hapart].
    + rewrite Hs, He. exact Hrange.
    + rewrite Hvid, Hs, He. exact Hfree.
  - destruct Hdated as [Hs He].
    destruct (update_rental_effect now rid payload db Hs He)
      as [-> | (existing & -> & Hfind & Hfree & _)]; [exact Hapart|].
    cbn [UPDATE_Rental snd Rental_table].
    apply (update_keeps_apart _ _ now rid _ existing); assumption.
  - destruct (delete_rental_effect now rid db) as [-> | ->]; [exact Hapart|].
    cbn [UPDATE_Rental snd Rental_table]. apply delete_keeps_apart. exact Hapart.
Qed.
End WritersKeep.

(* ================================================================= *)
(** ** What the listings return *)

Section Ordering.
Import PyDateFacts.
Context {R : Type}.
Variable key : R -> date.

Let later_first (a b : R) : Prop := (key b <= key a)%date.

Lemma In_insert_desc (x y : R) (l : list R) :
  In y (insert_desc key x l) <-> y = x \/ In y l.
Proof.
  induction l as [|z l IH]; cbn.
  - intuition congruence.
  - destruct (key z <=? key x)%date; cbn; [intuition congruence|].
    rewrite IH. intuition congruence.
Qed.

Lemma In_ORDER_BY_DESC (y : R) (l : list R) :
  In y (ORDER_BY_DESC key l) <-> In y l.
Proof.
  unfold ORDER_BY_DESC. induction l as [|x l IH]; cbn; [tauto|].
  rewrite In_insert_desc, IH. intuition congruence.
Qed.

Lemma length_ORDER_BY_DESC (l : list R) :
  List.length (ORDER_BY_DESC key l) = List.length l.
Proof.
  unfold ORDER_BY_DESC. induction l as [|x l IH]; cbn; [reflexivity|].
  rewrite <- IH. generalize (fold_right (insert_desc key) [] l) as sorted.
  induction sorted as [|z sorted IHs]; cbn; [reflexivity|].
  destruct (key z <=? key x)%date; cbn; [reflexivity|]. rewrite IHs. reflexivity.
Qed.

Lemma insert_desc_sorted (x : R) (l : list R) :
  ForallOrdPairs later_first l ->
  ForallOrdPairs later_first (insert_desc key x l).
Proof.
  induction 1 as [|z l Hz Hl IH]; cbn.
  - constructor; constructor.
  - destruct (key z <=? key x)%date eqn:Hzx.
    + constructor; [|constructor; assumption].
      constructor; [exact Hzx|].
      revert Hz. apply Forall_impl. intros b Hb. unfold later_first in *.
      revert Hzx Hb. generalize (key b), (key z), (key x). clear.
      intros kb kz kx Hzx Hb. date_order.
    + constructor; [|exact IH].
      apply Forall_forall. intros b Hb. apply In_insert_desc in Hb.
      destruct Hb as [-> | Hb].
      * unfold later_first. revert Hzx. generalize (key z), (key x). clear.
        intros kz kx Hzx. date_order.
      * rewrite Forall_forall in Hz. apply Hz. exact Hb.
Qed.

Lemma ORDER_BY_DESC_sorted (l : list R) :
  ForallOrdPairs later_first (ORDER_BY_DESC key l).
Proof.
  unfold ORDER_BY_DESC. induction l as [|x l IH]; cbn; [constructor|].
  apply insert_desc_sorted. exact IH.
Qed.
End Ordering.

Section Pages.
Context {A : Type}.
Variable R : A -> A -> Prop.

Lemma FOP_firstn (n : nat) (l : list A) :
  ForallOrdPairs R l -> ForallOrdPairs R (firstn n l).
Proof.
  revert l. induction n as [|n IH]; intros l Hl; cbn; [constructor|].
  destruct Hl as [|a l Ha Hl]; constructor.
  - apply Forall_firstn. exact Ha.
  - apply IH. exact Hl.
Qed.

Lemma FOP_skipn (n : nat) (l : list A) :
  ForallOrdPairs R l -> ForallOrdPairs R (skipn n l).
Proof.
  revert l. induction n as [|n IH]; intros l Hl; cbn; [exact Hl|].
  destruct Hl as [|a l Ha Hl]; [constructor | apply IH; exact Hl].
Qed.

Lemma FOP_LIMIT_OFFSET (limit offset : Z) (l : list A) :
  ForallOrdPairs R l -> ForallOrdPairs R (LIMIT_OFFSET limit offset l).
Proof.
  intros Hl. unfold LIMIT_OFFSET. apply FOP_firstn, FOP_skipn, Hl.
Qed.

Lemma length_LIMIT_OFFSET (limit offset : Z) (l : list A) :
  (List.length (LIMIT_OFFSET limit offset l) <= Z.to_nat limit)%nat.
Proof. unfold LIMIT_OFFSET. apply firstn_le_length. Qed.

(** A first page that is not full holds every row. *)
Lemma LIMIT_OFFSET_not_full (limit : Z) (l : list A) :
  (List.length (LIMIT_OFFSET limit 0 l) < Z.to_nat limit)%nat ->
  LIMIT_OFFSET limit 0 l = l.
Proof.
  unfold LIMIT_OFFSET. cbn [Z.to_nat skipn]. intros Hshort.
  apply firstn_all2. rewrite length_firstn in Hshort. lia.
Qed.
End Pages.

Lemma FOP_map_rel {A B : Type} (RA : A -> A -> Prop) (RB : B -> B -> Prop)
    (f : A -> B) (l : list A) :
  (forall a b, RA a b -> RB (f a) (f b)) ->
  ForallOrdPairs RA l -> ForallOrdPairs RB (map f l).
Proof.
  intros Hf. induction 1 as [|a l Ha Hl IH]; cbn; constructor.
  - apply Forall_map. revert Ha. apply Forall_impl. intros b. apply Hf.
  - exact IH.
Qed.

Section Listings.
Variable db : Database.

(** The rows the two listings select from, before they are ordered and
    paged: the pairs of the join that pass the collected conditions. *)
Lemma In_selected (where_ : list (Rental.row * Vehicle.row -> bool))
    (r : Rental.row) (v : Vehicle.row) :
  In (r, v)
     (ORDER_BY_DESC (fun rv => Rental.start_date (fst rv))
        (SELECT (fun rv => rv) (Rental_JOIN_Vehicle db) (AND_join where_)))
  <-> In r (Rental_table db) /\ In v (Vehicle_table db) /\
      Vehicle.vehicle_id v = Rental.vehicle_id r /\
      Forall (fun cond => cond (r, v) = true) where_.
Proof.
  rewrite In_ORDER_BY_DESC. unfold SELECT. rewrite map_id, filter_In.
  unfold Rental_JOIN_Vehicle. rewrite in_JOIN, Z.eqb_eq.
  unfold AND_join. rewrite forallb_forall, Forall_forall. tauto.
Qed.

(** The conditions [list_rentals] collects. *)
Lemma list_rentals_where (user_id vehicle_id : option Z)
    (r : Rental.row) (v : Vehicle.row) :
  let where_ := [fun rv : Rental.row * Vehicle.row =>
                   IS_NULL (Rental.deleted_at (fst rv))] in
  let where_ :=
    match user_id with
    | Some uid =>
        if uid =? 0 then where_
        else where_ ++ [fun rv => Rental.user_id (fst rv) =? uid]
    | None => where_
    end in
  let where_ :=
    match vehicle_id with
    | Some vid =>
        if vid =? 0 then where_
        else where_ ++ [fun rv => Rental.vehicle_id (fst rv) =? vid]
    | None => where_
    end in
  Forall (fun cond => cond (r, v) = true) where_ <->
  Rental.deleted_at r = None /\
  passes user_id (Rental.user_id r) /\
  passes vehicle_id (Rental.vehicle_id r).
Proof.
  cbv zeta.
  assert (Hnull : IS_NULL (Rental.deleted_at r) = true <-> Rental.deleted_at r = None).
  { unfold IS_NULL. destruct (Rental.deleted_at r); intuition congruence. }
  destruct user_id as [uid|], vehicle_id as [vid|]; cbn [passes];
    try destruct (Z.eqb_spec uid 0); try destruct (Z.eqb_spec vid 0);
    cbn [app]; rewrite ?Forall_cons_iff, ?Forall_nil_iff; cbn [fst];
    rewrite ?Z.eqb_eq, Hnull; intuition lia.
Qed.
End Listings.

(** A request that was booked: the vehicle it priced, the answer, and
    the row it stored. *)
Lemma create_rental_booked (insert_raises : option string)
    (payload : RentalCreateRequest) (db : Database)
    (resp : RentalResponse) (db' : Database) :
  create_rental insert_raises payload db = (Return resp, db') ->
  exists v,
    In v (Vehicle_table db) /\
    Vehicle.vehicle_id v = RentalCreateRequest.vehicle_id payload /\
    Vehicle.deleted_at v = None /\
    rental_id resp = Rental_auto_increment db /\
    user_id resp = RentalCreateRequest.user_id payload /\
    vehicle_id resp = RentalCreateRequest.vehicle_id payload /\
    start_date resp = RentalCreateRequest.start_date payload /\
    end_date resp = RentalCreateRequest.end_date payload /\
    total_days resp
    = PyDate.days_between (RentalCreateRequest.end_date payload)
        (RentalCreateRequest.start_date payload) + 1 /\
    db' = {| Vehicle_table := Vehicle_table db;
             Rental_table :=
               Rental_table db ++
               [{| Rental.rental_id := rental_id resp;
                   Rental.user_id := user_id resp;
                   Rental.vehicle_id := vehicle_id resp;
                   Rental.start_date := start_date resp;
                   Rental.end_date := end_date resp;
                   Rental.price_at_rental :=
                     Decimal.to_float (Vehicle.price_per_day v);
                   Rental.total_cost := total_price resp;
                   Rental.updated_at := None;
                   Rental.deleted_at := None |}];
             Rental_auto_increment := Rental_auto_increment db + 1;
             vehicles_table := vehicles_table db;
             rentals_table := rentals_table db |}.
Proof.
  intros Hcreate. rewrite create_rental_steps in Hcreate.
  destruct (_ <? _)%date; [discriminate|].
  destruct (existsb _ _); [discriminate|].
  destruct (find _ _) as [v|] eqn:Hv; [|discriminate].
  apply find_some in Hv. destruct Hv as [Hin Hv].
  apply live_vehicle_iff in Hv. destruct Hv as [Hvid Hlive].
  destruct insert_raises as [msg|]; cbn in Hcreate.
  { destruct (contains "1062" msg && contains "uq_vehicle_date_overlap" msg);
      discriminate. }
  injection Hcreate as <- <-. exists v. cbn. repeat split; assumption.
Qed.

(** X1. Whatever a request to [create_rental], [update_rental] or
    [delete_rental] answers, [rental_id] stays a key of the table and the
    next id stays unused; and the id a created rental is answered with is
    one no stored rental had. *)
Theorem rental_id_stays_a_key (db : Database) :
  well_keyed db ->
  (forall insert_raises payload,
     well_keyed (snd (create_rental insert_raises payload db)) /\
     forall resp db',
       create_rental insert_raises payload db = (Return resp, db') ->
       ~ In (rental_id resp) (map Rental.rental_id (Rental_table db)))
  /\
  (forall now rid payload,
     PyDate.valid (RentalCreateRequest.start_date payload) ->
     PyDate.valid (RentalCreateRequest.end_date payload) ->
     well_keyed (snd (update_rental now rid payload db)))
  /\
  (forall now rid, well_keyed (snd (delete_rental now rid db))).
Proof.
  intros Hkeys. split; [|split].
  - intros ins payload. split.
    + exact (serve_well_keyed (Create ins payload) db I Hkeys).
    + intros resp db' Hcreate Hin.
      apply create_rental_booked in Hcreate.
      destruct Hcreate as (_ & _ & _ & _ & Hid & _).
      apply in_map_iff in Hin. destruct Hin as (r & Hr & Hin).
      destruct Hkeys as (_ & Hlt). rewrite Forall_forall in Hlt.
      specialize (Hlt r Hin). lia.
  - intros now rid payload Hs He.
    exact (serve_well_keyed (Update now rid payload) db (conj Hs He) Hkeys).
  - intros now rid. exact (serve_well_keyed (Cancel now rid) db I Hkeys).
Qed.

(** X1 on the database with the rentals 1 and 2 of vehicle 2: a third
    booking, a change of dates and a cancellation. *)
Lemma rental_id_stays_a_key_witness :
  well_keyed shared_endpoint_db /\
  well_keyed (snd (create_rental None (request 7 2 (d 2024 4 6) (d 2024 4 9))
                     shared_endpoint_db)) /\
  well_keyed (snd (update_rental 1000 2 (request 7 2 (d 2024 4 5) (d 2024 4 8))
                     shared_endpoint_db)) /\
  well_keyed (snd (delete_rental 1000 1 shared_endpoint_db)).
Proof.
  assert (Hkeys : well_keyed shared_endpoint_db).
  { split; cbn.
    - repeat constructor; cbn; intuition discriminate.
    - repeat constructor. }
  destruct (rental_id_stays_a_key shared_endpoint_db Hkeys)
    as (Hcreate & Hupdate & Hdelete).
  split; [exact Hkeys|]. split; [|split].
  - apply Hcreate.
  - apply Hupdate; valid_date.
  - apply Hdelete.
Defined.

(** X2. With [rental_id] a key, no request makes two live rentals of one
    vehicle share a night: if every two of them were apart before a
    request to [create_rental], [update_rental] or [delete_rental], they
    are apart after it, whatever it answered. *)
Theorem live_rentals_stay_apart (db : Database) :
  well_keyed db -> live_rentals_apart db ->
  (forall insert_raises payload,
     live_rentals_apart (snd (create_rental insert_raises payload db)))
  /\
  (forall now rid payload,
     PyDate.valid (RentalCreateRequest.start_date payload) ->
     PyDate.valid (RentalCreateRequest.end_date payload) ->
     live_rentals_apart (snd (update_rental now rid payload db)))
  /\
  (forall now rid, live_rentals_apart (snd (delete_rental now rid db))).
Proof.
  intros Hkeys Hapart. split; [|split].
  - intros ins payload.
    exact (serve_live_rentals_apart (Create ins payload) db I Hkeys Hapart).
  - intros now rid payload Hs He.
    exact (serve_live_rentals_apart (Update now rid payload) db (conj Hs He)
             Hkeys Hapart).
  - intros now rid.
    exact (serve_live_rentals_apart (Cancel now rid) db I Hkeys Hapart).
Qed.

(** X2 on the same database: the booking 04-06 .. 04-09 goes between the
    two rentals, and rental 2 moves to 04-05 .. 04-08, the day rental 1
    ends. *)
Lemma live_rentals_stay_apart_witness :
  well_keyed shared_endpoint_db /\ live_rentals_apart shared_endpoint_db /\
  live_rentals_apart
    (snd (create_rental None (request 7 2 (d 2024 4 6) (d 2024 4 9))
            shared_endpoint_db)) /\
  live_rentals_apart
    (snd (update_rental 1000 2 (request 7 2 (d 2024 4 5) (d 2024 4 8))
            shared_endpoint_db)) /\
  live_rentals_apart (snd (delete_rental 1000 1 shared_endpoint_db)).
Proof.
  assert (Hkeys : well_keyed shared_endpoint_db).
  { split; cbn.
    - repeat constructor; cbn; intuition discriminate.
    - repeat constructor. }
  assert (Hapart : live_rentals_apart shared_endpoint_db).
  { unfold live_rentals_apart. cbn. repeat constructor. }
  destruct (live_rentals_stay_apart shared_endpoint_db Hkeys Hapart)
    as (Hcreate & Hupdate & Hdelete).
  split; [exact Hkeys|]. split; [exact Hapart|]. split; [|split].
  - apply Hcreate.
  - apply Hupdate; valid_date.
  - apply Hdelete.
Defined.

(** X3. Starting from an empty [Rental] table, after any sequence of
    create, update and cancel requests, answered or refused, [rental_id]
    is a key and no two live rentals of one vehicle share a night. *)
Theorem rental_history_is_consistent (reqs : list rental_request) (db : Database) :
  Forall dated reqs ->
  Rental_table db = [] ->
  well_keyed (serve_all reqs db) /\ live_rentals_apart (serve_all reqs db).
Proof.
  intros Hdated Hempty.
  assert (Hstart : well_keyed db /\ live_rentals_apart db).
  { unfold well_keyed, live_rentals_apart. rewrite Hempty.
    repeat constructor. }
  clear Hempty. revert db Hstart. unfold serve_all.
  induction Hdated as [|req reqs Hreq _ IH]; intros db [Hkeys Hapart]; cbn.
  - split; assumption.
  - apply IH. split.
    + apply serve_well_keyed; assumption.
    + apply serve_live_rentals_apart; assumption.
Qed.

(** X3 on the history of the scenario: the booking, its change of dates,
    its cancellation. *)
Lemma rental_history_is_consistent_witness :
  let reqs := [Create None rental_A_request;
               Update 1000 1 rental_D_request;
               Cancel 1001 1] in
  Forall dated reqs /\ Rental_table scenario_db = [] /\
  well_keyed (serve_all reqs scenario_db) /\
  live_rentals_apart (serve_all reqs scenario_db).
Proof.
  assert (Hdated : Forall dated [Create None rental_A_request;
                                 Update 1000 1 rental_D_request;
                                 Cancel 1001 1]).
  { repeat constructor; valid_date. }
  split; [exact Hdated|]. split; [reflexivity|].
  exact (rental_history_is_consistent _ scenario_db Hdated eq_refl).
Defined.

(* ================================================================= *)
(** ** The contracts of the two listings *)

(** What a page of [list_rentals] holds. *)
Lemma list_rentals_page
    (user_id vehicle_id : option Z) (limit offset : Z) (db : Database) :
  exists rows,
    list_rentals user_id vehicle_id limit offset db = (Return rows, db) /\
    Forall (fun row =>
              exists r v,
                listed_pair db r v /\
                passes user_id (Rental.user_id r) /\
                passes vehicle_id (Rental.vehicle_id r) /\
                row = rental_view (r, v)) rows /\
    (List.length rows <= Z.to_nat limit)%nat /\
    newest_first rows /\
    (offset = 0 -> (List.length rows < Z.to_nat limit)%nat ->
     forall r v,
       listed_pair db r v ->
       passes user_id (Rental.user_id r) ->
       passes vehicle_id (Rental.vehicle_id r) ->
       In (rental_view (r, v)) rows).
Proof.
  unfold list_rentals, bind, fetch_all, ret. cbv zeta.
  eexists. split; [reflexivity|].
  pose proof (list_rentals_where user_id vehicle_id) as Hwhere. cbv zeta in Hwhere.
  split; [|split; [apply length_LIMIT_OFFSET|split]].
  - apply Forall_LIMIT_OFFSET, Forall_map, Forall_forall.
    intros [r v] Hrv. apply In_selected in Hrv.
    destruct Hrv as (Hr & Hv & Hjoin & Hconds). apply Hwhere in Hconds.
    exists r, v. unfold listed_pair. tauto.
  - apply FOP_LIMIT_OFFSET.
    apply (FOP_map_rel
             (fun a b : Rental.row * Vehicle.row =>
                (Rental.start_date (fst b) <= Rental.start_date (fst a))%date)).
    + intros [ra va] [rb vb] Hab. exact Hab.
    + apply ORDER_BY_DESC_sorted.
  - intros -> Hshort r v (Hr & Hv & Hjoin & Hlive) Huser Hvehicle.
    rewrite LIMIT_OFFSET_not_full by exact Hshort.
    apply in_map. apply In_selected.
    repeat (split; [assumption|]). apply Hwhere. tauto.
Qed.

(** What a page of [get_user_rentals] holds. *)
Lemma get_user_rentals_page
    (user_id : Z) (vehicle_id : option Z) (skip limit : Z) (db : Database) :
  let wanted (r : Rental.row) :=
    Rental.user_id r = user_id /\
    match vehicle_id with
    | Some vid => Rental.vehicle_id r = vid
    | None => True
    end in
  exists rows,
    get_user_rentals user_id vehicle_id skip limit db = (Return rows, db) /\
    Forall (fun row =>
              exists r v,
                listed_pair db r v /\ wanted r /\
                row = user_rental_view (r, v) /\
                make row = Some (Vehicle.make v) /\
                model row = Some (Vehicle.model v) /\
                total_price row = Rental.total_cost r) rows /\
    (List.length rows <= Z.to_nat limit)%nat /\
    newest_first rows /\
    (skip = 0 -> (List.length rows < Z.to_nat limit)%nat ->
     forall r v,
       listed_pair db r v -> wanted r -> In (user_rental_view (r, v)) rows).
Proof.
  intros wanted.
  unfold get_user_rentals, bind, fetch_all, ret. cbv zeta.
  eexists. split; [reflexivity|].
  assert (Hwhere : forall r v,
            Forall (fun cond : Rental.row * Vehicle.row -> bool => cond (r, v) = true)
              (match vehicle_id with
               | Some vid =>
                   [fun rv : Rental.row * Vehicle.row =>
                      IS_NULL (Rental.deleted_at (fst rv));
                    fun rv => Rental.user_id (fst rv) =? user_id]
                   ++ [fun rv => Rental.vehicle_id (fst rv) =? vid]
               | None =>
                   [fun rv : Rental.row * Vehicle.row =>
                      IS_NULL (Rental.deleted_at (fst rv));
                    fun rv => Rental.user_id (fst rv) =? user_id]
               end)
            <-> Rental.deleted_at r = None /\ wanted r).
  { intros r v. unfold wanted.
    assert (Hnull : IS_NULL (Rental.deleted_at r) = true
                    <-> Rental.deleted_at r = None).
    { unfold IS_NULL. destruct (Rental.deleted_at r); intuition congruence. }
    destruct vehicle_id as [vid|]; cbn [app];
      rewrite ?Forall_cons_iff, ?Forall_nil_iff; cbn [fst];
      rewrite ?Z.eqb_eq, Hnull; tauto. }
  split; [|split; [apply length_LIMIT_OFFSET|split]].
  - apply Forall_LIMIT_OFFSET, Forall_map, Forall_forall.
    intros [r v] Hrv. apply In_selected in Hrv.
    destruct Hrv as (Hr & Hv & Hjoin & Hconds). apply Hwhere in Hconds.
    exists r, v. unfold listed_pair. cbn. tauto.
  - apply FOP_LIMIT_OFFSET.
    apply (FOP_map_rel
             (fun a b : Rental.row * Vehicle.row =>
                (Rental.start_date (fst b) <= Rental.start_date (fst a))%date)).
    + intros [ra va] [rb vb] Hab. exact Hab.
    + apply ORDER_BY_DESC_sorted.
  - intros -> Hshort r v (Hr & Hv & Hjoin & Hlive) Hwanted.
    rewrite LIMIT_OFFSET_not_full by exact Hshort.
    apply in_map. apply In_selected.
    repeat (split; [assumption|]). apply Hwhere. tauto.
Qed.

(** X4. [list_rentals] always answers, and leaves the database alone.
    Every row it returns is the view of a rental that is not cancelled,
    joined with its vehicle, and passing the filters that were given (an
    id of zero filters nothing); there are at most [limit] rows, the
    latest [start_date] first; and a first page that is not full holds
    every such rental. *)
Theorem list_rentals_contract
    (user_id vehicle_id : option Z) (limit offset : Z) (db : Database) :
  exists rows,
    list_rentals user_id vehicle_id limit offset db = (Return rows, db) /\
    Forall (fun row =>
              exists r v,
                listed_pair db r v /\
                passes user_id (Rental.user_id r) /\
                passes vehicle_id (Rental.vehicle_id r) /\
                row = rental_view (r, v)) rows /\
    (List.length rows <= Z.to_nat limit)%nat /\
    newest_first rows /\
    (offset = 0 -> (List.length rows < Z.to_nat limit)%nat ->
     forall r v,
       listed_pair db r v ->
       passes user_id (Rental.user_id r) ->
       passes vehicle_id (Rental.vehicle_id r) ->
       In (rental_view (r, v)) rows).
Proof.
  exact (list_rentals_page user_id vehicle_id limit offset db).
Qed.

(** X5. [get_user_rentals] always answers, and leaves the database alone.
    Every row it returns belongs to the user, is not cancelled, carries
    the make and model of its vehicle and, as [total_price], the
    [total_cost] the rental has stored; the optional vehicle filter is
    applied as given; there are at most [limit] rows, the latest
    [start_date] first; and a first page that is not full holds every
    such rental. *)
Theorem get_user_rentals_contract
    (user_id : Z) (vehicle_id : option Z) (skip limit : Z) (db : Database) :
  let wanted (r : Rental.row) :=
    Rental.user_id r = user_id /\
    match vehicle_id with
    | Some vid => Rental.vehicle_id r = vid
    | None => True
    end in
  exists rows,
    get_user_rentals user_id vehicle_id skip limit db = (Return rows, db) /\
    Forall (fun row =>
              exists r v,
                listed_pair db r v /\ wanted r /\
                row = user_rental_view (r, v) /\
                make row = Some (Vehicle.make v) /\
                model row = Some (Vehicle.model v) /\
                total_price row = Rental.total_cost r) rows /\
    (List.length rows <= Z.to_nat limit)%nat /\
    newest_first rows /\
    (skip = 0 -> (List.length rows < Z.to_nat limit)%nat ->
     forall r v,
       listed_pair db r v -> wanted r -> In (user_rental_view (r, v)) rows).
Proof.
  exact (get_user_rentals_page user_id vehicle_id skip limit db).
Qed.

(* ================================================================= *)
(** ** Refused requests *)

(** [update_rental] step by step, for dates of any kind: the date order
    is decided on the two texts. *)
Lemma update_rental_text_steps (now : timestamp) (rid : Z)
    (payload : RentalCreateRequest) (db : Database) :
  let s := PyDate.isoformat (RentalCreateRequest.start_date payload) in
  let e := PyDate.isoformat (RentalCreateRequest.end_date payload) in
  update_rental now rid payload db =
  match find (live_rental_condition rid) (Rental_table db) with
  | None => (Raise rental_not_found, db)
  | Some existing =>
      if existsb (update_overlap_condition (Rental.vehicle_id existing) rid s e)
                 (Rental_table db)
      then (Raise vehicle_not_available, db)
      else if String.ltb s e then
        let db' := snd (UPDATE_Rental (SET_dates s e now) rid db) in
        match find (fun rv => Rental.rental_id (fst rv) =? rid)
                   (Rental_JOIN_Vehicle db') with
        | None => (Uncaught "TypeError: 'NoneType' object is not iterable", db')
        | Some rv => (Return (rental_view rv), db')
        end
      else (Raise invalid_date_range, db)
  end.
Proof.
  intros s e. unfold update_rental. fold s e.
  unfold bind at 1, fetch_one at 1. rewrite first_row_SELECT.
  destruct (find _ _) as [existing|]; [|reflexivity].
  cbn [option_map snd].
  unfold bind at 1, fetch_one at 1. rewrite truthy_first_row_SELECT.
  destruct (existsb _ _); [reflexivity|].
  unfold bind at 1, fetch_one at 1, date_order_query, first_row.
  destruct (String.ltb s e); [|reflexivity].
  cbn [Z.eqb Pos.eqb negb].
  unfold bind, execute, fetch_one. cbn [UPDATE_Rental snd].
  rewrite first_row_SELECT.
  destruct (find _ _) as [rv|]; reflexivity.
Qed.

(** What [update_rental] leaves behind, for dates of any kind: nothing,
    or the rows after its [UPDATE]. *)
Lemma refused_or_written (now : timestamp) (rid : Z)
    (payload : RentalCreateRequest) (db : Database) :
  snd (update_rental now rid payload db) = db \/
  snd (update_rental now rid payload db)
  = snd (UPDATE_Rental
           (SET_dates (PyDate.isoformat (RentalCreateRequest.start_date payload))
                      (PyDate.isoformat (RentalCreateRequest.end_date payload))
                      now) rid db).
Proof.
  rewrite update_rental_text_steps. cbv zeta.
  destruct (find (live_rental_condition rid) _); [|left; reflexivity].
  destruct (existsb _ _); [left; reflexivity|].
  destruct (String.ltb _ _); [|left; reflexivity].
  right. destruct (find _ _); reflexivity.
Qed.

(** A rental that is unknown or cancelled cannot be updated, whatever
    the payload. *)
Lemma update_rental_unknown (now : timestamp) (rid : Z)
    (payload : RentalCreateRequest) (db : Database) :
  find (live_rental_condition rid) (Rental_table db) = None ->
  update_rental now rid payload db = (Raise rental_not_found, db).
Proof.
  intros Hnone. rewrite update_rental_text_steps. cbv zeta.
  rewrite Hnone. reflexivity.
Qed.

(** What the three writers do when they refuse. *)
Lemma refusal_cases (db : Database) :
  (forall insert_raises payload,
     match create_rental insert_raises payload db with
     | (Raise err, db') => db' = db /\ In err create_rental_refusals
     | _ => True
     end)
  /\
  (forall now rid payload,
     match update_rental now rid payload db with
     | (Raise err, db') => db' = db /\ In err update_rental_refusals
     | _ => True
     end)
  /\
  (forall now rid,
     match delete_rental now rid db with
     | (Raise err, db') => db' = db /\ err = rental_not_found
     | _ => True
     end).
Proof.
  split; [|split].
  - intros ins payload. rewrite create_rental_steps.
    unfold create_rental_refusals.
    destruct (_ <? _)%date; [cbn; auto|].
    destruct (existsb _ _); [cbn; auto|].
    destruct (find _ _) as [v|]; [|cbn; auto 6].
    destruct ins as [msg|]; cbn -[In]; [|exact I].
    destruct (contains "1062" msg && contains "uq_vehicle_date_overlap" msg);
      cbn; auto 6.
  - intros now rid payload. rewrite update_rental_text_steps. cbv zeta.
    unfold update_rental_refusals.
    destruct (find (live_rental_condition rid) _) as [existing|]; [|cbn; auto].
    destruct (existsb _ _); [cbn; auto|].
    destruct (String.ltb _ _); [|cbn; auto].
    destruct (find _ _); exact I.
  - intros now rid. rewrite delete_rental_steps.
    destruct (existsb _ _); [exact I | split; reflexivity].
Qed.

(** X6. A request that a handler refuses changes nothing, and the
    refusals are the ones listed: [create_rental] refuses with 422, 400,
    404 or 500, [update_rental] with 404, 400 or 422, [delete_rental]
    with 404.  An error of the driver that no handler catches is not a
    refusal, and nothing is said of it. *)
Theorem refused_request_changes_nothing (db : Database) :
  (forall insert_raises payload err db',
     create_rental insert_raises payload db = (Raise err, db') ->
     db' = db /\ In err create_rental_refusals)
  /\
  (forall now rid payload err db',
     update_rental now rid payload db = (Raise err, db') ->
     db' = db /\ In err update_rental_refusals)
  /\
  (forall now rid err db',
     delete_rental now rid db = (Raise err, db') ->
     db' = db /\ err = rental_not_found).
Proof.
  destruct (refusal_cases db) as (Hcreate & Hupdate & Hdelete).
  split; [|split].
  - intros ins payload err db' H. specialize (Hcreate ins payload).
    rewrite H in Hcreate. exact Hcreate.
  - intros now rid payload err db' H. specialize (Hupdate now rid payload).
    rewrite H in Hupdate. exact Hupdate.
  - intros now rid err db' H. specialize (Hdelete now rid).
    rewrite H in Hdelete. exact Hdelete.
Qed.

(* ================================================================= *)
(** ** One request after another *)

(** After [UPDATE Rental SET deleted_at = ...], the rows with the id are
    cancelled and the others are as they were. *)
Lemma In_cancelled (now : timestamp) (rid : Z) (db : Database) (r' : Rental.row) :
  In r' (Rental_table (snd (UPDATE_Rental (SET_deleted_at now) rid db))) <->
  exists r, In r (Rental_table db) /\
            r' = if Rental.rental_id r =? rid then SET_deleted_at now r else r.
Proof.
  cbn [UPDATE_Rental snd Rental_table]. rewrite in_map_iff.
  split; intros (r & H1 & H2); exists r; [split; [exact H2 | symmetry; exact H1]
                                          | split; [symmetry; exact H2 | exact H1]].
Qed.

Lemma cancelled_not_live (now : timestamp) (rid : Z) (db : Database)
    (r' : Rental.row) :
  In r' (Rental_table (snd (UPDATE_Rental (SET_deleted_at now) rid db))) ->
  Rental.rental_id r' = rid -> Rental.deleted_at r' = Some now.
Proof.
  intros Hin Hid. apply In_cancelled in Hin. destruct Hin as (r & _ & ->).
  destruct (Z.eqb_spec (Rental.rental_id r) rid); [reflexivity | contradiction].
Qed.

Lemma cancelled_others (now : timestamp) (rid : Z) (db : Database)
    (r : Rental.row) :
  Rental.rental_id r <> rid ->
  (In r (Rental_table (snd (UPDATE_Rental (SET_deleted_at now) rid db)))
   <-> In r (Rental_table db)).
Proof.
  intros Hid. rewrite In_cancelled. split.
  - intros (r0 & Hin & ->).
    destruct (Z.eqb_spec (Rental.rental_id r0) rid) as [Heq | _]; [|exact Hin].
    exfalso. apply Hid. exact Heq.
  - intros Hin. exists r. split; [exact Hin|].
    destruct (Z.eqb_spec (Rental.rental_id r) rid); [contradiction | reflexivity].
Qed.

(** X7. Once [delete_rental] has cancelled a rental, no page of
    [list_rentals] or of [get_user_rentals] shows its id, and
    [update_rental] answers 404 for it whatever the new dates; the
    rentals with another id are listed as before. *)
Theorem cancelled_rental_is_gone
    (now : timestamp) (rid : Z) (db db' : Database) :
  delete_rental now rid db = (Return tt, db') ->
  (forall user_id vehicle_id limit offset,
     exists rows,
       list_rentals user_id vehicle_id limit offset db' = (Return rows, db') /\
       Forall (fun row => rental_id row <> rid) rows)
  /\
  (forall user_id vehicle_id skip limit,
     exists rows,
       get_user_rentals user_id vehicle_id skip limit db' = (Return rows, db') /\
       Forall (fun row => rental_id row <> rid) rows)
  /\
  (forall later payload,
     update_rental later rid payload db' = (Raise rental_not_found, db'))
  /\
  (forall r v, Rental.rental_id r <> rid ->
               (listed_pair db' r v <-> listed_pair db r v)).
Proof.
  intros Hdelete. rewrite delete_rental_steps in Hdelete.
  destruct (existsb _ _); [|discriminate].
  injection Hdelete as Hdb'.
  assert (Hcancelled : forall r, In r (Rental_table db') ->
            Rental.rental_id r = rid -> Rental.deleted_at r = Some now).
  { rewrite <- Hdb'. apply cancelled_not_live. }
  assert (Hothers : forall r, Rental.rental_id r <> rid ->
            (In r (Rental_table db') <-> In r (Rental_table db))).
  { rewrite <- Hdb'. apply cancelled_others. }
  assert (Hvehicles : Vehicle_table db' = Vehicle_table db).
  { rewrite <- Hdb'. reflexivity. }
  clear Hdb'.
  assert (Hgone : forall r v, listed_pair db' r v -> Rental.rental_id r <> rid).
  { intros r v (Hr & _ & _ & Hlive) Hid.
    apply (Hcancelled r Hr) in Hid. congruence. }
  split; [|split; [|split]].
  - intros uid vid limit offset.
    destruct (list_rentals_page uid vid limit offset db')
      as (rows & Hrows & Hsound & _).
    exists rows. split; [exact Hrows|].
    revert Hsound. apply Forall_impl.
    intros row (r & v & Hpair & _ & _ & ->). exact (Hgone r v Hpair).
  - intros uid vid skip limit.
    destruct (get_user_rentals_page uid vid skip limit db')
      as (rows & Hrows & Hsound & _).
    exists rows. split; [exact Hrows|].
    revert Hsound. apply Forall_impl.
    intros row (r & v & Hpair & _ & -> & _). exact (Hgone r v Hpair).
  - intros later payload. apply update_rental_unknown.
    destruct (find (live_rental_condition rid) (Rental_table db'))
      as [r|] eqn:Hfind; [|reflexivity].
    apply find_some in Hfind. destruct Hfind as [Hr Hlive].
    apply live_rental_iff in Hlive. destruct Hlive as [Hid Hlive].
    apply (Hcancelled r Hr) in Hid. congruence.
  - intros r v Hid. unfold listed_pair.
    rewrite (Hothers r Hid), Hvehicles. reflexivity.
Qed.

(** X7 on the booking of scenario A, cancelled. *)
Lemma cancelled_rental_is_gone_witness :
  delete_rental 1000 1 scenario_db_A = (Return tt, scenario_db_A_cancelled) /\
  (exists rows,
     list_rentals None None 20 0 scenario_db_A_cancelled
     = (Return rows, scenario_db_A_cancelled) /\
     Forall (fun row => rental_id row <> 1) rows) /\
  update_rental 2000 1 rental_D_request scenario_db_A_cancelled
  = (Raise rental_not_found, scenario_db_A_cancelled).
Proof.
  assert (Hdelete : delete_rental 1000 1 scenario_db_A
                    = (Return tt, scenario_db_A_cancelled)) by reflexivity.
  destruct (cancelled_rental_is_gone 1000 1 scenario_db_A scenario_db_A_cancelled
              Hdelete) as (Hlist & _ & Hupdate & _).
  split; [exact Hdelete|]. split; [apply Hlist | apply Hupdate].
Defined.

(** X8. A rental [create_rental] has booked is listed: with its live
    vehicle it is a row of every first page, not full, of
    [get_user_rentals] for its user and of [list_rentals], under filters
    it passes.  The user's listing shows the [total_price] of the answer
    and one day less than its [total_days]; [list_rentals] shows that
    shorter day count and its product with the vehicle's price. *)
Theorem created_rental_is_listed
    (insert_raises : option string) (payload : RentalCreateRequest)
    (db : Database) (resp : RentalResponse) (db' : Database) :
  create_rental insert_raises payload db = (Return resp, db') ->
  exists r v,
    listed_pair db' r v /\
    Rental.rental_id r = rental_id resp /\
    Vehicle.deleted_at v = None /\
    (forall vehicle_filter limit rows,
       vehicle_filter = None \/ vehicle_filter = Some (vehicle_id resp) ->
       get_user_rentals (user_id resp) vehicle_filter 0 limit db'
       = (Return rows, db') ->
       (List.length rows < Z.to_nat limit)%nat ->
       In (user_rental_view (r, v)) rows) /\
    (forall user_filter vehicle_filter limit rows,
       passes user_filter (user_id resp) ->
       passes vehicle_filter (vehicle_id resp) ->
       list_rentals user_filter vehicle_filter limit 0 db' = (Return rows, db') ->
       (List.length rows < Z.to_nat limit)%nat ->
       In (rental_view (r, v)) rows) /\
    start_date (user_rental_view (r, v)) = start_date resp /\
    end_date (user_rental_view (r, v)) = end_date resp /\
    total_days (user_rental_view (r, v)) = total_days resp - 1 /\
    total_price (user_rental_view (r, v)) = total_price resp /\
    start_date (rental_view (r, v)) = start_date resp /\
    end_date (rental_view (r, v)) = end_date resp /\
    total_days (rental_view (r, v)) = total_days resp - 1 /\
    total_price (rental_view (r, v))
    = Decimal.to_float
        (Decimal.mul_int (total_days resp - 1) (Vehicle.price_per_day v)).
Proof.
  intros Hcreate. apply create_rental_booked in Hcreate.
  destruct Hcreate
    as (v & Hv & Hvid & Hlive & Hid & Huid & Hrvid & Hs & He & Hdays & ->).
  eexists. exists v.
  assert (Hpair : listed_pair
            {| Vehicle_table := Vehicle_table db;
               Rental_table :=
                 Rental_table db ++
                 [{| Rental.rental_id := rental_id resp;
                     Rental.user_id := user_id resp;
                     Rental.vehicle_id := vehicle_id resp;
                     Rental.start_date := start_date resp;
                     Rental.end_date := end_date resp;
                     Rental.price_at_rental :=
                       Decimal.to_float (Vehicle.price_per_day v);
                     Rental.total_cost := total_price resp;
                     Rental.updated_at := None;
                     Rental.deleted_at := None |}];
               Rental_auto_increment := Rental_auto_increment db + 1;
               vehicles_table := vehicles_table db;
               rentals_table := rentals_table db |}
            {| Rental.rental_id := rental_id resp;
               Rental.user_id := user_id resp;
               Rental.vehicle_id := vehicle_id resp;
               Rental.start_date := start_date resp;
               Rental.end_date := end_date resp;
               Rental.price_at_rental :=
                 Decimal.to_float (Vehicle.price_per_day v);
               Rental.total_cost := total_price resp;
               Rental.updated_at := None;
               Rental.deleted_at := None |} v).
  { unfold listed_pair. cbn [Rental_table Vehicle_table Rental.vehicle_id
                               Rental.deleted_at].
    split; [apply in_or_app; right; left; reflexivity|].
    split; [exact Hv|]. split; [congruence | reflexivity]. }
  split; [exact Hpair|]. split; [reflexivity|]. split; [exact Hlive|].
  split; [|split].
  - intros vf limit rows Hvf Hrows Hshort.
    match type of Hrows with
    | get_user_rentals ?u ?f ?k ?l ?x = _ =>
        destruct (get_user_rentals_page u f k l x)
          as (rows' & Hrows' & _ & _ & _ & Hall)
    end.
    rewrite Hrows' in Hrows. injection Hrows as ->.
    apply Hall; [reflexivity | exact Hshort | exact Hpair |].
    split; [reflexivity|]. destruct Hvf as [-> | ->]; [exact I | reflexivity].
  - intros uf vf limit rows Huf Hvf Hrows Hshort.
    match type of Hrows with
    | list_rentals ?u ?f ?l ?k ?x = _ =>
        destruct (list_rentals_page u f l k x)
          as (rows' & Hrows' & _ & _ & _ & Hall)
    end.
    rewrite Hrows' in Hrows. injection Hrows as ->.
    apply Hall; [reflexivity | exact Hshort | exact Hpair | exact Huf | exact Hvf].
  - cbn [user_rental_view rental_view start_date end_date total_days total_price
         Rental.start_date Rental.end_date Rental.total_cost].
    rewrite Hdays, Hs, He.
    replace (PyDate.days_between (RentalCreateRequest.end_date payload)
               (RentalCreateRequest.start_date payload) + 1 - 1)
      with (PyDate.days_between (RentalCreateRequest.end_date payload)
              (RentalCreateRequest.start_date payload)) by lia.
    repeat split.
Qed.

(** X8 on scenario A: the booking 04-01 .. 04-05, answered with 5 days
    and 225.00, is listed for user 1 with that price. *)
Lemma created_rental_is_listed_witness :
  create_rental None rental_A_request scenario_db = (Return response_A, scenario_db_A)
  /\
  exists rows r v,
    get_user_rentals 1 None 0 50 scenario_db_A = (Return rows, scenario_db_A) /\
    listed_pair scenario_db_A r v /\
    Rental.rental_id r = 1 /\
    In (user_rental_view (r, v)) rows /\
    total_price (user_rental_view (r, v))
    = Decimal.to_float (Decimal.mkdecimal 22500 2).
Proof.
  assert (Hcreate : create_rental None rental_A_request scenario_db
                    = (Return response_A, scenario_db_A)) by (vm_compute; reflexivity).
  split; [exact Hcreate|].
  destruct (created_rental_is_listed None rental_A_request scenario_db
              response_A scenario_db_A Hcreate)
    as (r & v & Hpair & Hid & _ & Huser & _ & _ & _ & _ & Hprice & _).
  destruct (get_user_rentals_page 1 None 0 50 scenario_db_A)
    as (rows & Hrows & _).
  exists rows, r, v. split; [exact Hrows|].
  split; [exact Hpair|]. split; [exact Hid|]. split.
  - apply (Huser None 50); [left; reflexivity | exact Hrows |].
    injection Hrows as <-. vm_compute. lia.
  - exact Hprice.
Defined.

(** After the [UPDATE] of [update_rental], a row with the id is a row
    that had the id, with the new dates. *)
Lemma In_updated (s e : string) (now : timestamp) (rid : Z) (db : Database)
    (r' : Rental.row) :
  In r' (Rental_table (snd (UPDATE_Rental (SET_dates s e now) rid db))) ->
  Rental.rental_id r' = rid ->
  exists r, In r (Rental_table db) /\ Rental.rental_id r = rid /\
            r' = SET_dates s e now r.
Proof.
  cbn [UPDATE_Rental snd Rental_table]. rewrite in_map_iff.
  intros (r & <- & Hin) Hid. exists r.
  destruct (Z.eqb_spec (Rental.rental_id r) rid) as [Heq | Hneq].
  - repeat split; assumption.
  - contradiction.
Qed.

(** X9. After [update_rental] has changed the dates of a rental, with
    [rental_id] a key, both listings show the rental with the new dates
    and the day count of the answer; but [get_user_rentals] shows as
    [total_price] the [total_cost] the rental had stored before the
    change, while [list_rentals] shows the day count times the price of
    the vehicle. *)
Theorem updated_rental_in_the_listings
    (now : timestamp) (rid : Z) (payload : RentalCreateRequest)
    (db : Database) (resp : RentalResponse) (db' : Database) :
  let s := RentalCreateRequest.start_date payload in
  let e := RentalCreateRequest.end_date payload in
  PyDate.valid s -> PyDate.valid e ->
  well_keyed db ->
  update_rental now rid payload db = (Return resp, db') ->
  exists r,
    In r (Rental_table db) /\ Rental.rental_id r = rid /\
    Rental.deleted_at r = None /\
    total_days resp = PyDate.days_between e s /\
    (forall user_id vehicle_filter skip limit,
       exists rows,
         get_user_rentals user_id vehicle_filter skip limit db'
         = (Return rows, db') /\
         Forall (fun row =>
                   rental_id row = rid ->
                   start_date row = s /\ end_date row = e /\
                   total_days row = total_days resp /\
                   total_price row = Rental.total_cost r) rows)
    /\
    (forall user_filter vehicle_filter limit offset,
       exists rows,
         list_rentals user_filter vehicle_filter limit offset db'
         = (Return rows, db') /\
         Forall (fun row =>
                   rental_id row = rid ->
                   start_date row = s /\ end_date row = e /\
                   total_days row = total_days resp /\
                   exists v,
                     In v (Vehicle_table db) /\
                     Vehicle.vehicle_id v = Rental.vehicle_id r /\
                     total_price row
                     = Decimal.to_float
                         (Decimal.mul_int (total_days resp)
                                          (Vehicle.price_per_day v))) rows).
Proof.
  intros s e Hs He (Hnd & _) Hupdate.
  pose proof (update_rental_returned now rid payload db Hs He resp db' Hupdate)
    as (_ & Hdb' & r0 & v0 & Hr0 & Hid0 & _ & _ & Hresp).
  fold s e in Hdb', Hresp.
  rewrite update_rental_steps in Hupdate by assumption.
  destruct (find (live_rental_condition rid) _) as [r|] eqn:Hfind;
    [|discriminate].
  clear Hupdate.
  apply find_some in Hfind. destruct Hfind as [Hr Hlive].
  apply live_rental_iff in Hlive. destruct Hlive as [Hid Hlive].
  assert (Hthe : forall a, In a (Rental_table db) -> Rental.rental_id a = rid ->
                           a = r).
  { intros a Ha Haid.
    apply (key_identifies Rental.rental_id (Rental_table db)); try assumption.
    congruence. }
  assert (Hdays : total_days resp = PyDate.days_between e s).
  { rewrite Hresp, SET_dates_row by assumption. reflexivity. }
  assert (Hrow : forall r' v, listed_pair db' r' v -> Rental.rental_id r' = rid ->
            r' = {| Rental.rental_id := Rental.rental_id r;
                    Rental.user_id := Rental.user_id r;
                    Rental.vehicle_id := Rental.vehicle_id r;
                    Rental.start_date := s;
                    Rental.end_date := e;
                    Rental.price_at_rental := Rental.price_at_rental r;
                    Rental.total_cost := Rental.total_cost r;
                    Rental.updated_at := Some now;
                    Rental.deleted_at := Rental.deleted_at r |} /\
            In v (Vehicle_table db)).
  { intros r' v (Hr' & Hv & _) Hid'. rewrite Hdb' in Hr', Hv.
    apply In_updated in Hr'; [|exact Hid'].
    destruct Hr' as (a & Ha & Haid & ->).
    rewrite (Hthe a Ha Haid), SET_dates_row by assumption.
    split; [reflexivity | exact Hv]. }
  exists r. repeat (split; [assumption|]). split.
  - intros uid vf skip limit.
    destruct (get_user_rentals_page uid vf skip limit db')
      as (rows & Hrows & Hsound & _).
    exists rows. split; [exact Hrows|].
    revert Hsound. apply Forall_impl.
    intros row (r' & v & Hpair & _ & -> & _) Hid'.
    destruct (Hrow r' v Hpair Hid') as [-> _]. rewrite Hdays. cbn. repeat split.
  - intros uf vf limit offset.
    destruct (list_rentals_page uf vf limit offset db')
      as (rows & Hrows & Hsound & _).
    exists rows. split; [exact Hrows|].
    revert Hsound. apply Forall_impl.
    intros row (r' & v & Hpair & _ & _ & ->) Hid'.
    destruct (Hrow r' v Hpair Hid') as [Hr' Hv].
    destruct Hpair as (_ & _ & Hjoin & _). subst r'. rewrite Hdays.
    cbn in Hjoin |- *. repeat split. exists v. repeat split; assumption.
Qed.

(** X9 on scenario D: the booking of scenario A, stored with 225.00,
    moves to 04-02 .. 04-06; the answer says 4 days and 180.00, the
    user's listing 4 days and 225.00. *)
Lemma updated_rental_in_the_listings_witness :
  update_rental 1000 1 rental_D_request scenario_db_A
  = (Return response_D, scenario_db_D) /\
  exists rows,
    get_user_rentals 1 None 0 50 scenario_db_D = (Return rows, scenario_db_D) /\
    Forall (fun row =>
              rental_id row = 1 ->
              total_days row = 4 /\
              total_price row = Decimal.to_float (Decimal.mkdecimal 22500 2)) rows.
Proof.
  assert (Hupdate : update_rental 1000 1 rental_D_request scenario_db_A
                    = (Return response_D, scenario_db_D)) by (vm_compute; reflexivity).
  split; [exact Hupdate|].
  assert (Hs : PyDate.valid (d 2024 4 2)) by valid_date.
  assert (He : PyDate.valid (d 2024 4 6)) by valid_date.
  assert (Hkeys : well_keyed scenario_db_A).
  { split; cbn.
    - repeat constructor. intros [].
    - repeat constructor. }
  destruct (updated_rental_in_the_listings 1000 1 rental_D_request scenario_db_A
              response_D scenario_db_D Hs He Hkeys Hupdate)
    as (r & Hr & Hid & _ & _ & Huser & _).
  destruct (Huser 1 None 0 50) as (rows & Hrows & Hshown).
  exists rows. split; [exact Hrows|].
  revert Hshown. apply Forall_impl. intros row Hrow Hrid.
  destruct (Hrow Hrid) as (_ & _ & Hdays & Hprice).
  split; [exact Hdays|]. rewrite Hprice.
  destruct Hr as [<- | []]. reflexivity.
Defined.

(* ================================================================= *)
(** ** Dates bound as text *)

(** X10. [update_rental] binds [str(payload.start_date)] and
    [str(payload.end_date)]; for dates of the calendar its three
    statements do with the texts what they would do with the dates: the
    [CASE WHEN] compares them as the dates compare, the overlap query
    tests the dates, and the [UPDATE] stores them. *)
Theorem update_rental_dates_as_text
    (s e : date) (now : timestamp) (vid rid : Z) (r : Rental.row) :
  PyDate.valid s -> PyDate.valid e ->
  date_order_query (PyDate.isoformat s) (PyDate.isoformat e)
  = [if (s <? e)%date then 1 else 0]
  /\
  update_overlap_condition vid rid (PyDate.isoformat s) (PyDate.isoformat e) r
  = (Rental.vehicle_id r =? vid) && negb (Rental.rental_id r =? rid)
    && IS_NULL (Rental.deleted_at r)
    && negb ((e <=? Rental.start_date r)%date || (s >=? Rental.end_date r)%date)
  /\
  Rental.start_date (SET_dates (PyDate.isoformat s) (PyDate.isoformat e) now r) = s
  /\
  Rental.end_date (SET_dates (PyDate.isoformat s) (PyDate.isoformat e) now r) = e.
Proof.
  intros Hs He. unfold date_order_query, update_overlap_condition.
  rewrite PyDateFacts.ltb_isoformat by assumption.
  rewrite SET_dates_row by assumption.
  rewrite !PyDateFacts.of_sql_text_isoformat by assumption.
  repeat split.
Qed.

(** X10 on the dates of scenario D. *)
Lemma update_rental_dates_as_text_witness :
  PyDate.valid (d 2024 4 2) /\ PyDate.valid (d 2024 4 6) /\
  date_order_query "2024-04-02" "2024-04-06" = [1] /\
  Rental.start_date (SET_dates "2024-04-02" "2024-04-06" 1000 rental_A)
  = d 2024 4 2.
Proof.
  assert (Hs : PyDate.valid (d 2024 4 2)) by valid_date.
  assert (He : PyDate.valid (d 2024 4 6)) by valid_date.
  destruct (update_rental_dates_as_text (d 2024 4 2) (d 2024 4 6) 1000 2 1
              rental_A Hs He) as (Horder & _ & Hstart & _).
  split; [exact Hs|]. split; [exact He|]. split; [exact Horder | exact Hstart].
Defined.

(* ================================================================= *)
(** ** Rentals and their vehicles *)

(** No handler writes to [Vehicle]. *)
Lemma serve_Vehicle_table (req : rental_request) (db : Database) :
  Vehicle_table (serve req db) = Vehicle_table db.
Proof.
  destruct req as [ins payload | now rid payload | now rid]; cbn [serve].
  - destruct (create_rental_effect ins payload db) as [-> | (stored & -> & _)];
      reflexivity.
  - pose proof (refused_or_written now rid payload db) as [-> | ->]; reflexivity.
  - destruct (delete_rental_effect now rid db) as [-> | ->]; reflexivity.
Qed.

Lemma serve_vehicles_known (req : rental_request) (db : Database) :
  vehicles_known db -> vehicles_known (serve req db).
Proof.
  unfold vehicles_known. intros Hknown.
  assert (Hmap : forall set rid,
            (forall r, Rental.vehicle_id (set r) = Rental.vehicle_id r) ->
            Forall (fun r => exists v, In v (Vehicle_table db) /\
                                       Vehicle.vehicle_id v = Rental.vehicle_id r)
              (Rental_table (snd (UPDATE_Rental set rid db)))).
  { intros set rid Hset. cbn [UPDATE_Rental snd Rental_table].
    apply Forall_map. revert Hknown. apply Forall_impl. intros r Hr.
    destruct (_ =? _); [rewrite Hset|]; exact Hr. }
  rewrite serve_Vehicle_table.
  destruct req as [ins payload | now rid payload | now rid]; cbn [serve].
  - rewrite create_rental_steps.
    destruct (_ <? _)%date; [exact Hknown|].
    destruct (existsb _ _); [exact Hknown|].
    destruct (find _ _) as [v|] eqn:Hv; [|exact Hknown].
    apply find_some in Hv. destruct Hv as [Hin Hv].
    apply live_vehicle_iff in Hv. destruct Hv as [Hvid _].
    destruct ins as [msg|]; cbn.
    + destruct (contains "1062" msg && contains "uq_vehicle_date_overlap" msg);
        exact Hknown.
    + apply Forall_app. split; [exact Hknown|].
      constructor; [|constructor]. exists v. split; assumption.
  - destruct (refused_or_written now rid payload db) as [-> | ->];
      [exact Hknown | apply Hmap; reflexivity].
  - destruct (delete_rental_effect now rid db) as [-> | ->];
      [exact Hknown | apply Hmap; reflexivity].
Qed.

Lemma serve_all_vehicles_known (reqs : list rental_request) (db : Database) :
  vehicles_known db -> vehicles_known (serve_all reqs db).
Proof.
  unfold serve_all. revert db.
  induction reqs as [|req reqs IH]; intros db Hknown; cbn; [exact Hknown|].
  apply IH, serve_vehicles_known, Hknown.
Qed.

(** With the vehicle of every rental in [Vehicle], the final [SELECT] of
    [update_rental] finds the row it has just written. *)
Lemma known_vehicles_row_found (now : timestamp) (rid : Z)
    (payload : RentalCreateRequest) (db : Database) :
  vehicles_known db ->
  fst (update_rental now rid payload db)
  <> Uncaught "TypeError: 'NoneType' object is not iterable".
Proof.
  intros Hknown Hexc.
  rewrite update_rental_text_steps in Hexc. cbv zeta in Hexc.
  destruct (find (live_rental_condition rid) _) as [existing|] eqn:Hfind;
    [|discriminate].
  destruct (existsb _ _); [discriminate|].
  destruct (String.ltb _ _); [|discriminate].
  destruct (find _ (Rental_JOIN_Vehicle _)) as [rv|] eqn:Hjoin; [discriminate|].
  apply find_some in Hfind. destruct Hfind as [Hin Hlive].
  apply live_rental_iff in Hlive. destruct Hlive as [Hid _].
  unfold vehicles_known in Hknown. rewrite Forall_forall in Hknown.
  destruct (Hknown existing Hin) as (v & Hv & Hvid).
  match type of Hjoin with
  | find _ (Rental_JOIN_Vehicle ?x) = None =>
      assert (Hpair : In (SET_dates
                            (PyDate.isoformat (RentalCreateRequest.start_date payload))
                            (PyDate.isoformat (RentalCreateRequest.end_date payload))
                            now existing, v)
                         (Rental_JOIN_Vehicle x))
  end.
  { unfold Rental_JOIN_Vehicle. apply in_JOIN.
    cbn [UPDATE_Rental snd Rental_table Vehicle_table].
    split; [|split; [exact Hv | apply Z.eqb_eq; exact Hvid]].
    apply in_map_iff. exists existing. split; [|exact Hin].
    apply Z.eqb_eq in Hid. rewrite Hid. reflexivity. }
  apply (find_none _ _ Hjoin) in Hpair. cbn in Hpair.
  apply Z.eqb_neq in Hpair. contradiction.
Qed.

(** X11. No handler adds a rental of a vehicle that [Vehicle] does not
    have: if every rental's vehicle is in [Vehicle], it stays so through
    any sequence of create, update and cancel requests.  Then the final
    [SELECT] of [update_rental] finds the row of the rental: the handler
    does not end with the [TypeError] of a missing row.  Of an error
    that the driver raises nothing is said. *)
Theorem rentals_keep_their_vehicles
    (reqs : list rental_request) (db : Database) :
  vehicles_known db ->
  vehicles_known (serve_all reqs db) /\
  forall now rid payload,
    fst (update_rental now rid payload (serve_all reqs db))
    <> Uncaught "TypeError: 'NoneType' object is not iterable".
Proof.
  intros Hknown. apply (serve_all_vehicles_known reqs) in Hknown.
  split; [exact Hknown|].
  intros now rid payload. apply known_vehicles_row_found. exact Hknown.
Qed.

(** X11 on the two rentals of vehicle 2, after a third booking: moving
    rental 2 finds its row. *)
Lemma rentals_keep_their_vehicles_witness :
  let reqs := [Create None (request 7 2 (d 2024 4 6) (d 2024 4 9))] in
  vehicles_known shared_endpoint_db /\
  vehicles_known (serve_all reqs shared_endpoint_db) /\
  fst (update_rental 1000 2 (request 7 2 (d 2024 4 10) (d 2024 4 11))
         (serve_all reqs shared_endpoint_db))
  <> Uncaught "TypeError: 'NoneType' object is not iterable".
Proof.
  intros reqs.
  assert (Hknown : vehicles_known shared_endpoint_db).
  { unfold vehicles_known. cbn.
    repeat constructor; eexists; (split; [left; reflexivity | reflexivity]). }
  split; [exact Hknown|].
  destruct (rentals_keep_their_vehicles reqs shared_endpoint_db Hknown)
    as [Hafter Hfound].
  split; [exact Hafter | apply Hfound].
Defined.

(* ================================================================= *)
(** ** The tables of [get_rental_by_id] *)

(** No handler writes to [rentals] or [vehicles]. *)
Lemma serve_legacy_tables (req : rental_request) (db : Database) :
  rentals_table (serve req db) = rentals_table db /\
  vehicles_table (serve req db) = vehicles_table db.
Proof.
  destruct req as [ins payload | now rid payload | now rid]; cbn [serve].
  - destruct (create_rental_effect ins payload db) as [-> | (stored & -> & _)];
      split; reflexivity.
  - destruct (refused_or_written now rid payload db) as [-> | ->];
      split; reflexivity.
  - destruct (delete_rental_effect now rid db) as [-> | ->]; split; reflexivity.
Qed.

Lemma serve_all_legacy_tables (reqs : list rental_request) (db : Database) :
  rentals_table (serve_all reqs db) = rentals_table db /\
  vehicles_table (serve_all reqs db) = vehicles_table db.
Proof.
  unfold serve_all. revert db.
  induction reqs as [|req reqs IH]; intros db; cbn; [split; reflexivity|].
  destruct (IH (serve req db)) as [-> ->]. apply serve_legacy_tables.
Qed.

(** X12. [get_rental_by_id] reads the tables [rentals] and [vehicles],
    which no other handler writes: whatever create, update and cancel
    requests were served, it answers as it did before them.  It changes
    nothing, and where one of its tables is missing it ends with the
    driver's exception for every id. *)
Theorem get_rental_by_id_misses_every_write
    (rental_id : Z) (reqs : list rental_request) (db : Database) :
  fst (get_rental_by_id rental_id (serve_all reqs db))
  = fst (get_rental_by_id rental_id db)
  /\ snd (get_rental_by_id rental_id db) = db
  /\ (rentals_table db = None \/ vehicles_table db = None ->
      exists exc, fst (get_rental_by_id rental_id db) = Uncaught exc).
Proof.
  destruct (serve_all_legacy_tables reqs db) as [Hr Hv].
  unfold get_rental_by_id, bind, fetch_one_if_tables. rewrite Hr, Hv.
  destruct (rentals_table db) as [rentals|], (vehicles_table db) as [vehicles|].
  - split; [|split].
    + destruct (first_row _); reflexivity.
    + destruct (first_row _); reflexivity.
    + intros [H | H]; discriminate.
  - repeat split. intros _. eexists. reflexivity.
  - repeat split. intros _. eexists. reflexivity.
  - repeat split. intros _. eexists. reflexivity.
Qed.

(* ================================================================= *)
(** ** [list_vehicles] *)

Section OrderBy.
Context {R : Type}.
Variable leb : R -> R -> bool.
Hypothesis leb_total : forall a b, leb a b = true \/ leb b a = true.
Hypothesis leb_trans : forall a b c, leb a b = true -> leb b c = true ->
                                     leb a c = true.

Lemma In_insert_by (x y : R) (l : list R) :
  In y (insert_by leb x l) <-> y = x \/ In y l.
Proof.
  induction l as [|z l IH]; cbn.
  - intuition congruence.
  - destruct (leb x z); cbn; [intuition congruence|].
    rewrite IH. intuition congruence.
Qed.

Lemma In_ORDER_BY (y : R) (l : list R) :
  In y (ORDER_BY leb l) <-> In y l.
Proof.
  unfold ORDER_BY. induction l as [|x l IH]; cbn; [tauto|].
  rewrite In_insert_by, IH. intuition congruence.
Qed.

Lemma insert_by_sorted (x : R) (l : list R) :
  ForallOrdPairs (fun a b => leb a b = true) l ->
  ForallOrdPairs (fun a b => leb a b = true) (insert_by leb x l).
Proof.
  induction 1 as [|z l Hz Hl IH]; cbn.
  - constructor; constructor.
  - destruct (leb x z) eqn:Hxz.
    + constructor; [|constructor; assumption].
      constructor; [exact Hxz|].
      revert Hz. apply Forall_impl. intros b Hb. exact (leb_trans _ _ _ Hxz Hb).
    + constructor; [|exact IH].
      apply Forall_forall. intros b Hb. apply In_insert_by in Hb.
      destruct Hb as [-> | Hb].
      * destruct (leb_total x z) as [H | H]; [congruence | exact H].
      * rewrite Forall_forall in Hz. apply Hz. exact Hb.
Qed.

Lemma ORDER_BY_sorted (l : list R) :
  ForallOrdPairs (fun a b => leb a b = true) (ORDER_BY leb l).
Proof.
  unfold ORDER_BY. induction l as [|x l IH]; cbn; [constructor|].
  apply insert_by_sorted. exact IH.
Qed.
End OrderBy.

Lemma decimal_leb_total (a b : decimal) :
  decimal_leb a b = true \/ decimal_leb b a = true.
Proof. unfold decimal_leb. rewrite !Z.leb_le. lia. Qed.

Lemma decimal_leb_trans (a b c : decimal) :
  decimal_leb a b = true -> decimal_leb b c = true -> decimal_leb a c = true.
Proof.
  unfold decimal_leb. rewrite !Z.leb_le.
  generalize (Decimal.unscaled a), (Decimal.unscaled b), (Decimal.unscaled c).
  generalize (Decimal.pow10 (Decimal.scale a)), (Decimal.pow10 (Decimal.scale b)),
    (Decimal.pow10 (Decimal.scale c)).
  intros pa pb pc x y z Hxy Hyz.
  apply (Z.mul_le_mono_pos_l _ _ (Zpos pb)); [lia|].
  apply Z.le_trans with (y * Zpos pa * Zpos pc); nia.
Qed.

Section ListVehiclesFacts.
Variable text_eq : string -> string -> bool.
Variable price_geb : decimal -> float -> bool.
Variable price_leb : decimal -> float -> bool.
Variable r : Catalog.row.

Let holds (cond : Catalog.row -> bool) : Prop := cond r = true.

Lemma Forall_snoc_holds (where_ : list (Catalog.row -> bool))
    (cond : Catalog.row -> bool) :
  Forall holds (where_ ++ [cond]) <-> Forall holds where_ /\ cond r = true.
Proof.
  rewrite Forall_app, Forall_cons_iff, Forall_nil_iff. unfold holds. tauto.
Qed.

Lemma Forall_optional_filter {A : Type} (where_ : list (Catalog.row -> bool))
    (param : option A) (cond : A -> Catalog.row -> bool) :
  Forall holds (match param with
                | Some a => where_ ++ [cond a]
                | None => where_
                end)
  <-> Forall holds where_ /\ (forall a, param = Some a -> cond a r = true).
Proof.
  destruct param as [a|].
  - rewrite Forall_snoc_holds. split.
    + intros [H1 H2]. split; [exact H1|]. intros a' [= <-]. exact H2.
    + intros [H1 H2]. split; [exact H1 | apply H2; reflexivity].
  - split; [intros H; split; [exact H | discriminate] | tauto].
Qed.

Lemma Forall_equality_filter (where_ : list (Catalog.row -> bool))
    (param : option string) (column : Catalog.row -> string) :
  Forall holds (equality_filter text_eq where_ (param, column))
  <-> Forall holds where_ /\
      (forall m, param = Some m -> m <> "" -> text_eq (column r) m = true).
Proof.
  unfold equality_filter. destruct param as [[|c m]|].
  - split; [|tauto]. intros H. split; [exact H|].
    intros m [= <-] Hm. contradiction.
  - rewrite Forall_snoc_holds. split.
    + intros [H1 H2]. split; [exact H1|]. intros m' [= <-] _. exact H2.
    + intros [H1 H2]. split; [exact H1|]. apply H2; [reflexivity | discriminate].
  - split; [|tauto]. intros H. split; [exact H | discriminate].
Qed.

(** The conditions [list_vehicles] collects. *)
Lemma list_vehicles_where_iff
    (status : option Literal.status) (make model : option string)
    (year_from year_to : option Z) (min_price max_price : option float) :
  Forall holds
    (list_vehicles_where text_eq price_geb price_leb
       status make model year_from year_to min_price max_price)
  <-> vehicle_matches text_eq price_geb price_leb
        status make model year_from year_to min_price max_price r.
Proof.
  unfold list_vehicles_where, vehicle_matches. cbv zeta. cbn [fold_left].
  rewrite (Forall_optional_filter _ max_price
             (fun p r => price_leb (Catalog.price_per_day r) p)).
  rewrite (Forall_optional_filter _ min_price
             (fun p r => price_geb (Catalog.price_per_day r) p)).
  rewrite (Forall_optional_filter _ year_to (fun y r => Catalog.year r <=? y)).
  rewrite (Forall_optional_filter _ year_from (fun y r => Catalog.year r >=? y)).
  rewrite !Forall_equality_filter.
  rewrite Forall_cons_iff, Forall_nil_iff. unfold holds.
  assert (Hnull : IS_NULL (Catalog.deleted_at r) = true
                  <-> Catalog.deleted_at r = None).
  { unfold IS_NULL. destruct (Catalog.deleted_at r); intuition congruence. }
  assert (Hstatus :
            (forall m, option_map Literal.status_str status = Some m -> m <> "" ->
                       text_eq (Catalog.status r) m = true)
            <-> (forall s, status = Some s ->
                           text_eq (Catalog.status r) (Literal.status_str s) = true)).
  { split.
    - intros H s ->. apply H; [reflexivity|]. destruct s; discriminate.
    - intros H m Hm _. destruct status as [s|]; [|discriminate].
      injection Hm as <-. apply H. reflexivity. }
  assert (Hfrom : (forall y, year_from = Some y -> (Catalog.year r >=? y) = true)
                  <-> (forall y, year_from = Some y -> y <= Catalog.year r)).
  { split; intros H y Hy; specialize (H y Hy); lia. }
  assert (Hto : (forall y, year_to = Some y -> (Catalog.year r <=? y) = true)
                <-> (forall y, year_to = Some y -> Catalog.year r <= y)).
  { split; intros H y Hy; specialize (H y Hy); lia. }
  rewrite Hnull, Hstatus, Hfrom, Hto. tauto.
Qed.
End ListVehiclesFacts.

(** The column [sort_column_map] yields is one the table has, and its
    order is total and transitive. *)
Lemma sort_column_known (sort_by : option Literal.sort_by) :
  exists leb,
    sort_column_leb (sort_column_map sort_by) = Some leb /\
    (forall a b, leb a b = true \/ leb b a = true) /\
    (forall a b c, leb a b = true -> leb b c = true -> leb a c = true) /\
    (forall a b, listing_leb sort_by (list_vehicles_select a) (list_vehicles_select b)
                 = leb a b).
Proof.
  destruct sort_by as [[| |]|]; cbn; eexists; (split; [reflexivity|]);
    (split; [|split; [|reflexivity]]); cbv beta.
  - intros a b. apply decimal_leb_total.
  - intros a b c. apply decimal_leb_trans.
  - intros a b. rewrite !Z.leb_le. lia.
  - intros a b c. rewrite !Z.leb_le. lia.
  - intros a b. rewrite !Z.leb_le. lia.
  - intros a b c. rewrite !Z.leb_le. lia.
  - intros a b. rewrite !Z.leb_le. lia.
  - intros a b c. rewrite !Z.leb_le. lia.
Qed.

Section ListVehiclesPage.
Variable text_eq : string -> string -> bool.
Variable price_geb : decimal -> float -> bool.
Variable price_leb : decimal -> float -> bool.
Variable status : option Literal.status.
Variables make model : option string.
Variables year_from year_to : option Z.
Variables min_price max_price : option float.
Variable sort_by : option Literal.sort_by.
Variable sort_dir : Literal.sort_dir.
Variables limit offset : Z.
Variable Vehicle : list Catalog.row.

Let matches : Catalog.row -> Prop :=
  vehicle_matches text_eq price_geb price_leb
    status make model year_from year_to min_price max_price.

(** The rows the query selects and orders, before the page is cut. *)
Lemma list_vehicles_steps :
  exists ordered,
    list_vehicles text_eq price_geb price_leb
      status make model year_from year_to min_price max_price
      sort_by (Some sort_dir) limit offset Vehicle
    = Return (map list_vehicles_select (LIMIT_OFFSET limit offset ordered)) /\
    (forall r, In r ordered <-> In r Vehicle /\ matches r) /\
    in_order sort_by sort_dir (map list_vehicles_select ordered).
Proof.
  unfold list_vehicles, ORDER_BY_column.
  destruct (sort_column_known sort_by) as (leb & -> & Htotal & Htrans & Hleb).
  assert (Hselected : forall r,
            In r (SELECT (fun r => r) Vehicle
                    (AND_join (list_vehicles_where text_eq price_geb price_leb
                                 status make model year_from year_to
                                 min_price max_price)))
            <-> In r Vehicle /\ matches r).
  { intros r. unfold SELECT. rewrite map_id, filter_In.
    unfold AND_join. rewrite forallb_forall, <- Forall_forall.
    rewrite (list_vehicles_where_iff text_eq price_geb price_leb r). reflexivity. }
  eexists. split; [reflexivity|]. split.
  - intros r. rewrite <- Hselected.
    destruct sort_dir; apply In_ORDER_BY.
  - unfold in_order. destruct sort_dir.
    + apply (FOP_map_rel (fun a b => leb a b = true)).
      * intros a b Hab. rewrite Hleb. exact Hab.
      * apply ORDER_BY_sorted; assumption.
    + apply (FOP_map_rel (fun a b => leb b a = true)).
      * intros a b Hab. rewrite Hleb. exact Hab.
      * apply (ORDER_BY_sorted (fun a b => leb b a)).
        -- intros a b. destruct (Htotal a b); tauto.
        -- intros a b c Hab Hbc. exact (Htrans _ _ _ Hbc Hab).
Qed.
End ListVehiclesPage.

Lemma map_LIMIT_OFFSET {A B : Type} (f : A -> B) (limit offset : Z) (l : list A) :
  map f (LIMIT_OFFSET limit offset l) = LIMIT_OFFSET limit offset (map f l).
Proof. unfold LIMIT_OFFSET. rewrite <- firstn_map, <- skipn_map. reflexivity. Qed.

(** X13. Given a sort direction, [list_vehicles] answers.  Every row of
    the answer is a row of [Vehicle] that is not soft-deleted and passes
    each filter that was given, a text filter that is empty being no
    filter; there are at most [limit] rows; and a first page that is not
    full holds every such vehicle. *)
Theorem list_vehicles_contract
    (text_eq : string -> string -> bool)
    (price_geb price_leb : decimal -> float -> bool)
    (status : option Literal.status) (make model : option string)
    (year_from year_to : option Z) (min_price max_price : option float)
    (sort_by : option Literal.sort_by) (sort_dir : Literal.sort_dir)
    (limit offset : Z) (Vehicle : list Catalog.row) :
  let matches :=
    vehicle_matches text_eq price_geb price_leb
      status make model year_from year_to min_price max_price in
  exists rows,
    list_vehicles text_eq price_geb price_leb
      status make model year_from year_to min_price max_price
      sort_by (Some sort_dir) limit offset Vehicle
    = Return rows /\
    Forall (fun row => exists r, In r Vehicle /\ matches r /\
                                 row = list_vehicles_select r) rows /\
    (List.length rows <= Z.to_nat limit)%nat /\
    (offset = 0 -> (List.length rows < Z.to_nat limit)%nat ->
     forall r, In r Vehicle -> matches r -> In (list_vehicles_select r) rows).
Proof.
  intros matches.
  destruct (list_vehicles_steps text_eq price_geb price_leb
              status make model year_from year_to min_price max_price
              sort_by sort_dir limit offset Vehicle)
    as (ordered & -> & Hin & _).
  eexists. split; [reflexivity|]. split; [|split].
  - apply Forall_map, Forall_LIMIT_OFFSET, Forall_forall.
    intros r Hr. apply Hin in Hr. exists r. tauto.
  - rewrite length_map. apply length_LIMIT_OFFSET.
  - intros -> Hshort r Hr Hmatches. rewrite length_map in Hshort.
    rewrite LIMIT_OFFSET_not_full by exact Hshort.
    apply in_map. apply Hin. tauto.
Qed.

(** X14. The rows [list_vehicles] answers with are ordered on the column
    [sort_by] names ([price_per_day], [year] or [created_at], and
    [created_at] when it names none), ascending or descending as
    [sort_dir] says; [sort_column_map] only yields columns the table
    has.  Without a [sort_dir] the handler ends with an [AttributeError]
    before it sends a query. *)
Theorem list_vehicles_order
    (text_eq : string -> string -> bool)
    (price_geb price_leb : decimal -> float -> bool)
    (status : option Literal.status) (make model : option string)
    (year_from year_to : option Z) (min_price max_price : option float)
    (sort_by : option Literal.sort_by) (limit offset : Z)
    (Vehicle : list Catalog.row) :
  (forall sort_dir,
     exists rows,
       list_vehicles text_eq price_geb price_leb
         status make model year_from year_to min_price max_price
         sort_by (Some sort_dir) limit offset Vehicle
       = Return rows /\
       in_order sort_by sort_dir rows)
  /\
  sort_column_leb (sort_column_map sort_by) <> None
  /\
  list_vehicles text_eq price_geb price_leb
    status make model year_from year_to min_price max_price
    sort_by None limit offset Vehicle
  = Uncaught "AttributeError: 'NoneType' object has no attribute 'upper'".
Proof.
  split; [|split].
  - intros sort_dir.
    destruct (list_vehicles_steps text_eq price_geb price_leb
                status make model year_from year_to min_price max_price
                sort_by sort_dir limit offset Vehicle)
      as (ordered & -> & _ & Hordered).
    eexists. split; [reflexivity|].
    rewrite map_LIMIT_OFFSET. apply FOP_LIMIT_OFFSET. exact Hordered.
  - destruct (sort_column_known sort_by) as (leb & -> & _). discriminate.
  - reflexivity.
Qed.

(** X15. The catalogue and the booking agree on the price: with
    [vehicle_id] a key of [Vehicle], a rental that [create_rental] books
    for a vehicle [list_vehicles] shows costs the shown [price_per_day],
    as a float, times the days of the answer, rounded to two decimals;
    and [create_rental] never answers that such a vehicle is not
    found. *)
Theorem listed_vehicle_is_priced_as_listed
    (text_eq : string -> string -> bool)
    (price_geb price_leb : decimal -> float -> bool)
    (status : option Literal.status) (make model : option string)
    (year_from year_to : option Z) (min_price max_price : option float)
    (sort_by : option Literal.sort_by) (sort_dir : option Literal.sort_dir)
    (limit offset : Z) (Vehicle : list Catalog.row)
    (rows : list VehicleListing.row) (row : VehicleListing.row)
    (db : Database) (insert_raises : option string)
    (payload : RentalCreateRequest) :
  NoDup (map Catalog.vehicle_id Vehicle) ->
  Vehicle_table db = map Catalog.to_Vehicle Vehicle ->
  list_vehicles text_eq price_geb price_leb
    status make model year_from year_to min_price max_price
    sort_by sort_dir limit offset Vehicle
  = Return rows ->
  In row rows ->
  RentalCreateRequest.vehicle_id payload = VehicleListing.vehicle_id row ->
  (forall resp db',
     create_rental insert_raises payload db = (Return resp, db') ->
     total_price resp
     = PyFloat.round2
         (PyFloat.mul (Decimal.to_float (VehicleListing.price_per_day row))
                      (PyFloat.of_int (total_days resp))))
  /\
  fst (create_rental insert_raises payload db)
  <> Raise {| status_code := 404; detail := "Vehicle not found" |}.
Proof.
  intros Hkey Htable Hlist Hrow Hvid.
  destruct sort_dir as [dir|]; [|discriminate].
  destruct (list_vehicles_steps text_eq price_geb price_leb
              status make model year_from year_to min_price max_price
              sort_by dir limit offset Vehicle)
    as (ordered & Hrows' & Hordered & _).
  rewrite Hrows' in Hlist. injection Hlist as <-.
  apply in_map_iff in Hrow. destruct Hrow as (r & <- & Hr).
  assert (Hpage : Forall (fun r => In r ordered)
                         (LIMIT_OFFSET limit offset ordered)).
  { apply Forall_LIMIT_OFFSET, Forall_forall. intros x Hx. exact Hx. }
  rewrite Forall_forall in Hpage. apply Hpage in Hr.
  apply Hordered in Hr. destruct Hr as (Hr & Hlive & _).
  cbn [list_vehicles_select VehicleListing.vehicle_id
       VehicleListing.price_per_day] in *.
  (* the pricing query finds the listed row *)
  assert (Hfound : forall v,
            find (vehicle_pricing_condition (RentalCreateRequest.vehicle_id payload))
                 (Vehicle_table db) = Some v ->
            Vehicle.price_per_day v = Catalog.price_per_day r).
  { intros v Hv. apply find_some in Hv. destruct Hv as [Hin Hv].
    apply live_vehicle_iff in Hv. destruct Hv as [Hid _].
    rewrite Htable in Hin. apply in_map_iff in Hin.
    destruct Hin as (r' & <- & Hr').
    cbn in Hid |- *. f_equal.
    apply (key_identifies Catalog.vehicle_id Vehicle); try assumption.
    congruence. }
  assert (Hsome : find (vehicle_pricing_condition
                          (RentalCreateRequest.vehicle_id payload))
                       (Vehicle_table db) <> None).
  { intros Hnone.
    assert (Hcond : vehicle_pricing_condition
                      (RentalCreateRequest.vehicle_id payload)
                      (Catalog.to_Vehicle r) = true).
    { apply live_vehicle_iff. cbn. split; [symmetry; exact Hvid | exact Hlive]. }
    rewrite (find_none _ _ Hnone (Catalog.to_Vehicle r)) in Hcond;
      [discriminate|].
    rewrite Htable. apply in_map. exact Hr. }
  split.
  - intros resp db' Hcreate. rewrite create_rental_steps in Hcreate.
    destruct (_ <? _)%date; [discriminate|].
    destruct (existsb _ _); [discriminate|].
    destruct (find _ _) as [v|] eqn:Hv; [|discriminate].
    rewrite <- (Hfound v eq_refl).
    destruct insert_raises as [msg|]; cbn in Hcreate.
    + destruct (contains "1062" msg && contains "uq_vehicle_date_overlap" msg);
        discriminate.
    + injection Hcreate as <- _. reflexivity.
  - rewrite create_rental_steps.
    destruct (_ <? _)%date; [discriminate|].
    destruct (existsb _ _); [discriminate|].
    destruct (find _ _) as [v|] eqn:Hv; [|contradiction].
    destruct insert_raises as [msg|]; cbn; [|discriminate].
    destruct (contains "1062" msg && contains "uq_vehicle_date_overlap" msg);
      discriminate.
Qed.

(** X15 on the scenario: the Camry is listed at 45.00 and the booking of
    five days costs 225.00. *)
Lemma listed_vehicle_is_priced_as_listed_witness :
  let row := {| VehicleListing.vehicle_id := 2;
                VehicleListing.make := "Toyota";
                VehicleListing.model := "Camry";
                VehicleListing.year := 2022;
                VehicleListing.status := "available";
                VehicleListing.price_per_day := Decimal.mkdecimal 4500 2;
                VehicleListing.created_at := 0 |} in
  list_vehicles String.eqb (fun _ _ => true) (fun _ _ => true)
    (Some Literal.available) (Some "Toyota") None (Some 2020) None None None
    (Some Literal.price) (Some Literal.asc) 20 0 scenario_catalog
  = Return [row] /\
  create_rental None rental_A_request scenario_db = (Return response_A, scenario_db_A)
  /\
  total_price response_A
  = PyFloat.round2
      (PyFloat.mul (Decimal.to_float (Decimal.mkdecimal 4500 2)) (PyFloat.of_int 5)).
Proof.
  intros row.
  assert (Hlist : list_vehicles String.eqb (fun _ _ => true) (fun _ _ => true)
                    (Some Literal.available) (Some "Toyota") None (Some 2020) None
                    None None (Some Literal.price) (Some Literal.asc) 20 0
                    scenario_catalog
                  = Return [row]) by reflexivity.
  assert (Hcreate : create_rental None rental_A_request scenario_db
                    = (Return response_A, scenario_db_A)) by (vm_compute; reflexivity).
  split; [exact Hlist|]. split; [exact Hcreate|].
  assert (Hkey : NoDup (map Catalog.vehicle_id scenario_catalog)).
  { repeat constructor. intros []. }
  destruct (listed_vehicle_is_priced_as_listed
              String.eqb (fun _ _ => true) (fun _ _ => true)
              (Some Literal.available) (Some "Toyota") None (Some 2020) None
              None None (Some Literal.price) (Some Literal.asc) 20 0
              scenario_catalog [row] row scenario_db None rental_A_request
              Hkey eq_refl Hlist (or_introl eq_refl) eq_refl) as [Hprice _].
  exact (Hprice response_A scenario_db_A Hcreate).
Defined.

(* ================================================================= *)
(** ** [register] and [login] *)

Lemma registration_error_listed (e : string) :
  In (registration_error e) registration_refusals.
Proof.
  unfold registration_error, registration_refusals. cbv zeta.
  destruct (_ || _); [|cbn; auto 6].
  destruct (contains "email" _); [cbn; auto|].
  destruct (contains "phone" _); cbn; auto 6.
Qed.

(** X16. [register] never lets an exception escape, and it refuses only
    with the four listed answers.  When the [INSERT] raises, nothing is
    stored; when it does not, the row of the payload is stored with the
    digest of the password, also when the [SELECT] that follows raises
    and the request is refused: the user is then registered without
    being told.  The [TypeError] branch for a missing row is never
    taken. *)
Theorem register_outcome
    (SHA2_256 : string -> string) (insert_raises fetch_raises : option string)
    (payload : AuthRegisterRequest.payload) (users : Users) :
  let stored :=
    {| User_table := User_table users ++ [registered_row SHA2_256 payload users];
       User_auto_increment := User_auto_increment users + 1 |} in
  match register SHA2_256 insert_raises fetch_raises payload users with
  | (Return resp, users') =>
      insert_raises = None /\ fetch_raises = None /\ users' = stored /\
      AuthResponse.success resp = true /\
      AuthResponse.message resp = "Registration successful"
  | (Raise err, users') =>
      In err registration_refusals /\
      ((exists e, insert_raises = Some e /\ err = registration_error e /\
                  users' = users) \/
       (exists e, insert_raises = None /\ fetch_raises = Some e /\
                  err = registration_error e /\ users' = stored))
  | (Uncaught _, _) => False
  end.
Proof.
  intros stored. unfold register.
  destruct insert_raises as [e|]; cbn [INSERT_INTO_User].
  - split; [apply registration_error_listed|]. left. exists e. repeat split.
  - destruct fetch_raises as [e|].
    + split; [apply registration_error_listed|]. right. exists e. repeat split.
    + destruct (first_row _) as [user|] eqn:Hrow.
      * repeat split.
      * exfalso. rewrite first_row_SELECT in Hrow. cbn [option_map] in Hrow.
        destruct (find _ _) eqn:Hfind; [discriminate|].
        cbn [User_table] in Hfind.
        assert (Hin : In (registered_row SHA2_256 payload users)
                         (User_table users ++ [registered_row SHA2_256 payload users])).
        { apply in_or_app. right. left. reflexivity. }
        apply (find_none _ _ Hfind) in Hin. cbn in Hin.
        rewrite Z.eqb_refl in Hin. discriminate.
Qed.

(** X17. With [user_id] a key of [User] below the counter, a
    registration that no statement fails is answered with the new id and
    the name and email of the payload, and [user_id] stays such a key.
    [register] reads its answer back from the table by id. *)
Theorem register_answers_with_the_new_user
    (SHA2_256 : string -> string) (payload : AuthRegisterRequest.payload)
    (users : Users) :
  users_keyed users ->
  exists resp users',
    register SHA2_256 None None payload users = (Return resp, users') /\
    AuthResponse.user_id resp = Some (User_auto_increment users) /\
    AuthResponse.name resp = Some (AuthRegisterRequest.name payload) /\
    AuthResponse.email resp = Some (AuthRegisterRequest.email payload) /\
    User_table users' = User_table users ++ [registered_row SHA2_256 payload users] /\
    users_keyed users'.
Proof.
  intros (Hnd & Hlt). unfold register. cbn [INSERT_INTO_User].
  rewrite first_row_SELECT. cbn [User_table].
  assert (Hfind : find (fun u => User.user_id u =? User_auto_increment users)
                       (User_table users ++ [registered_row SHA2_256 payload users])
                  = Some (registered_row SHA2_256 payload users)).
  { apply find_unique.
    - apply in_or_app. right. left. reflexivity.
    - cbn. apply Z.eqb_refl.
    - intros u Hu Hid. apply Z.eqb_eq in Hid.
      apply in_app_or in Hu. destruct Hu as [Hu | [<- | []]]; [|reflexivity].
      rewrite Forall_forall in Hlt. specialize (Hlt u Hu). lia. }
  fold (registered_row SHA2_256 payload users). rewrite Hfind. cbn [option_map].
  eexists. eexists. split; [reflexivity|].
  do 4 (split; [reflexivity|]).
  unfold users_keyed. cbn [User_table User_auto_increment]. split.
  - rewrite map_app. cbn [map].
    apply NoDup_app; [exact Hnd | repeat constructor; intros [] |].
    intros x Hx [<- | []]. apply in_map_iff in Hx.
    destruct Hx as (u & Hu & Hin).
    rewrite Forall_forall in Hlt. specialize (Hlt u Hin). cbn in Hu. lia.
  - apply Forall_app. split.
    + revert Hlt. apply Forall_impl. intros u Hu. lia.
    + constructor; [cbn; lia | constructor].
Qed.

(** X17 on the first registration. *)
Lemma register_answers_with_the_new_user_witness :
  users_keyed no_users /\
  fst (register sample_digest None None john_doe no_users)
  = Return {| AuthResponse.success := true;
              AuthResponse.message := "Registration successful";
              AuthResponse.user_id := Some 1;
              AuthResponse.name := Some "John Doe";
              AuthResponse.email := Some "john.doe@example.com" |}.
Proof.
  assert (Hkeyed : users_keyed no_users) by (split; constructor).
  split; [exact Hkeyed|].
  destruct (register_answers_with_the_new_user sample_digest john_doe no_users
              Hkeyed) as (resp & users' & Hregister & _).
  rewrite Hregister. injection Hregister as <- _. reflexivity.
Defined.

(** What [login] does, by its answer. *)
Lemma login_cases
    (SHA2_256 : string -> string) (email_eq hash_eq : string -> string -> bool)
    (now : timestamp) (payload : AuthLoginRequest.payload) (users : Users) :
  let admits (u : User.row) :=
    email_eq (User.email u) (AuthLoginRequest.email payload) = true /\
    hash_eq (User.password_hash u)
            (SHA2_256 (AuthLoginRequest.password payload)) = true /\
    User.deleted_at u = None in
  match login SHA2_256 email_eq hash_eq now payload users with
  | (Return resp, users') =>
      exists u,
        In u (User_table users) /\ admits u /\
        resp = {| AuthResponse.success := true;
                  AuthResponse.message := "Login successful";
                  AuthResponse.user_id := Some (User.user_id u);
                  AuthResponse.name := Some (User.name u);
                  AuthResponse.email := Some (User.email u) |} /\
        User_auto_increment users' = User_auto_increment users /\
        Forall2 (fun a b =>
                   (User.user_id a = User.user_id u ->
                    b = SET_last_login_at now a) /\
                   (User.user_id a <> User.user_id u -> b = a))
                (User_table users) (User_table users')
  | (Raise err, users') =>
      err = invalid_credentials /\ users' = users /\
      forall u, In u (User_table users) -> ~ admits u
  | (Uncaught _, _) => True
  end.
Proof.
  intros admits. unfold login. rewrite first_row_SELECT.
  assert (Hcond : forall u, login_condition SHA2_256 email_eq hash_eq payload u = true
                            <-> admits u).
  { intros u. unfold login_condition, admits, IS_NULL.
    rewrite !andb_true_iff. destruct (User.deleted_at u); intuition congruence. }
  destruct (find _ _) as [u|] eqn:Hfind; cbn [option_map].
  - apply find_some in Hfind. destruct Hfind as [Hin Hu]. apply Hcond in Hu.
    exists u. repeat (split; [assumption || reflexivity|]).
    cbn [UPDATE_User User_table]. apply Forall2_map_r. intros a _.
    destruct (Z.eqb_spec (User.user_id a) (User.user_id u)); split; intros H;
      (reflexivity || contradiction).
  - repeat split. intros u Hin Hu. apply Hcond in Hu.
    rewrite (find_none _ _ Hfind u Hin) in Hu. discriminate.
Qed.

(** X18. On a database that answers, [login] refuses with 401, and
    changes nothing, exactly when no user that is not soft-deleted has
    the email and the digest of the password; otherwise it answers with
    the first such user, and sets [last_login_at] on the rows with that
    user's id and on no other.  The handler catches no error of the
    driver, and nothing is said of one. *)
Theorem login_contract
    (SHA2_256 : string -> string) (email_eq hash_eq : string -> string -> bool)
    (now : timestamp) (payload : AuthLoginRequest.payload) (users : Users) :
  let admits (u : User.row) :=
    email_eq (User.email u) (AuthLoginRequest.email payload) = true /\
    hash_eq (User.password_hash u)
            (SHA2_256 (AuthLoginRequest.password payload)) = true /\
    User.deleted_at u = None in
  (forall resp users',
     login SHA2_256 email_eq hash_eq now payload users = (Return resp, users') ->
     exists u,
       In u (User_table users) /\ admits u /\
       resp = {| AuthResponse.success := true;
                 AuthResponse.message := "Login successful";
                 AuthResponse.user_id := Some (User.user_id u);
                 AuthResponse.name := Some (User.name u);
                 AuthResponse.email := Some (User.email u) |} /\
       User_auto_increment users' = User_auto_increment users /\
       Forall2 (fun a b =>
                  (User.user_id a = User.user_id u ->
                   b = SET_last_login_at now a) /\
                  (User.user_id a <> User.user_id u -> b = a))
               (User_table users) (User_table users'))
  /\
  (forall err users',
     login SHA2_256 email_eq hash_eq now payload users = (Raise err, users') ->
     err = invalid_credentials /\ users' = users /\
     forall u, In u (User_table users) -> ~ admits u)
  /\
  ((forall u, In u (User_table users) -> ~ admits u) ->
   login SHA2_256 email_eq hash_eq now payload users
   = (Raise invalid_credentials, users))
  /\
  ((exists u, In u (User_table users) /\ admits u) ->
   exists resp users',
     login SHA2_256 email_eq hash_eq now payload users = (Return resp, users')).
Proof.
  intros admits.
  pose proof (login_cases SHA2_256 email_eq hash_eq now payload users) as Hcases.
  cbv zeta in Hcases. fold admits in Hcases.
  destruct (login SHA2_256 email_eq hash_eq now payload users)
    as [[resp | err | exc] users'] eqn:Hlogin.
  - split; [|split; [|split]].
    + intros resp0 users0 [= <- <-]. exact Hcases.
    + intros err users0 [=].
    + intros Hnone. destruct Hcases as (u & Hin & Hu & _).
      destruct (Hnone u Hin Hu).
    + intros _. exists resp, users'. reflexivity.
  - destruct Hcases as (-> & -> & Hnone). split; [|split; [|split]].
    + intros resp users0 [=].
    + intros err users0 [= <- <-]. repeat split. exact Hnone.
    + intros _. reflexivity.
    + intros (u & Hin & Hu). destruct (Hnone u Hin Hu).
  - exfalso. unfold login in Hlogin. destruct (first_row _); discriminate.
Qed.

(** X19. Once the [INSERT] of [register] has gone through, the email and
    password of the payload log in, whatever [register] answered, as
    long as each comparison of [login] holds between a text and itself.
    If moreover [user_id] is a key and no earlier user that is not
    soft-deleted has the email, [login] answers with the id, name and
    email of the new user. *)
Theorem registered_user_can_log_in
    (SHA2_256 : string -> string) (email_eq hash_eq : string -> string -> bool)
    (fetch_raises : option string) (payload : AuthRegisterRequest.payload)
    (users : Users) (now : timestamp) :
  (forall s, email_eq s s = true) ->
  (forall s, hash_eq s s = true) ->
  let users' := snd (register SHA2_256 None fetch_raises payload users) in
  let credentials :=
    AuthLoginRequest.mk (AuthRegisterRequest.email payload)
                        (AuthRegisterRequest.password payload) in
  exists resp users'',
    login SHA2_256 email_eq hash_eq now credentials users' = (Return resp, users'') /\
    AuthResponse.success resp = true /\
    (users_keyed users ->
     (forall u, In u (User_table users) -> User.deleted_at u = None ->
                email_eq (User.email u) (AuthRegisterRequest.email payload) = false) ->
     AuthResponse.user_id resp = Some (User_auto_increment users) /\
     AuthResponse.name resp = Some (AuthRegisterRequest.name payload) /\
     AuthResponse.email resp = Some (AuthRegisterRequest.email payload)).
Proof.
  intros Hemail Hhash users' credentials.
  set (new := registered_row SHA2_256 payload users).
  assert (Htable : User_table users' = User_table users ++ [new]).
  { unfold users', register. cbn [INSERT_INTO_User].
    destruct fetch_raises; [reflexivity|].
    destruct (first_row _); reflexivity. }
  assert (Hnew : login_condition SHA2_256 email_eq hash_eq credentials new = true).
  { unfold login_condition, new, registered_row, credentials. cbn.
    rewrite Hemail, Hhash. reflexivity. }
  unfold login. rewrite first_row_SELECT, Htable.
  destruct (find _ _) as [u|] eqn:Hfind; cbn [option_map].
  - eexists. eexists. split; [reflexivity|]. split; [reflexivity|].
    intros _ Hfirst. cbn [AuthResponse.user_id AuthResponse.name AuthResponse.email].
    apply find_some in Hfind. destruct Hfind as [Hin Hu].
    apply in_app_or in Hin. destruct Hin as [Hin | [<- | []]].
    + exfalso. unfold login_condition in Hu.
      apply andb_true_iff in Hu. destruct Hu as [Hu Hlive].
      apply andb_true_iff in Hu. destruct Hu as [Hu _].
      unfold IS_NULL in Hlive.
      destruct (User.deleted_at u) eqn:Hdel; [discriminate|].
      unfold credentials in Hu. cbn [AuthLoginRequest.email] in Hu.
      rewrite (Hfirst u Hin Hdel) in Hu. discriminate.
    + repeat split.
  - exfalso.
    assert (Hin : In new (User_table users ++ [new])).
    { apply in_or_app. right. left. reflexivity. }
    rewrite (find_none _ _ Hfind new Hin) in Hnew. discriminate.
Qed.

(** X19 on the first registration, with the texts compared as they are. *)
Lemma registered_user_can_log_in_witness :
  (forall s, String.eqb s s = true) /\
  exists resp users'',
    login sample_digest String.eqb String.eqb 1000
      (AuthLoginRequest.mk "john.doe@example.com" "securepassword123")
      (snd (register sample_digest None None john_doe no_users))
    = (Return resp, users'') /\
    AuthResponse.user_id resp = Some 1.
Proof.
  split; [exact String.eqb_refl|].
  destruct (registered_user_can_log_in sample_digest String.eqb String.eqb None
              john_doe no_users 1000 String.eqb_refl String.eqb_refl)
    as (resp & users'' & Hlogin & _ & Hnew).
  exists resp, users''. split; [exact Hlogin|].
  apply Hnew.
  - split; constructor.
  - intros u [].
Defined.

(* ================================================================= *)
(** ** The helpers of the test suite *)

Section DictFacts.
Context {V : Type}.

Lemma dict_lookup_unique (d : dict V) (k : string) (v : V) :
  NoDup (map fst d) -> In (k, v) d -> dict_lookup d k = Some v.
Proof.
  unfold dict_lookup. induction d as [|[k' v'] d IH]; cbn; intros Hnd Hin;
    [contradiction|].
  apply NoDup_cons_iff in Hnd. destruct Hnd as [Hfresh Hnd].
  destruct Hin as [[= -> ->] | Hin].
  - rewrite String.eqb_refl. reflexivity.
  - destruct (String.eqb_spec k' k) as [-> | _]; [|apply IH; assumption].
    exfalso. apply Hfresh. apply (in_map fst) in Hin. exact Hin.
Qed.

Lemma dict_setitem_fresh (d : dict V) (k : string) (v : V) :
  ~ In k (map fst d) -> dict_setitem d k v = d ++ [(k, v)].
Proof.
  induction d as [|[k' v'] d IH]; cbn; intros Hfresh; [reflexivity|].
  destruct (String.eqb_spec k' k) as [-> | _]; [tauto|].
  rewrite IH; [reflexivity | tauto].
Qed.

(** Copying the rest of a row whose first part is already copied. *)
Lemma dict_update_from_rest (copied rest : dict V) :
  NoDup (map fst (copied ++ rest)) ->
  dict_update_from (create_mock_row (copied ++ rest)) (map fst rest) copied
  = Return (copied ++ rest).
Proof.
  revert copied. induction rest as [|[k v] rest IH]; intros copied Hnd; cbn.
  - rewrite app_nil_r. reflexivity.
  - unfold MockRow_getitem, create_mock_row. cbn [_data].
    rewrite (dict_lookup_unique _ k v Hnd)
      by (apply in_or_app; right; left; reflexivity).
    assert (Hfresh : ~ In k (map fst copied)).
    { rewrite map_app in Hnd. cbn in Hnd. apply NoDup_remove_2 in Hnd.
      intros Hin. apply Hnd. apply in_or_app. left. exact Hin. }
    rewrite (dict_setitem_fresh _ _ _ Hfresh).
    specialize (IH (copied ++ [(k, v)])).
    rewrite <- app_assoc in IH. cbn [app] in IH. apply IH. exact Hnd.
Qed.
End DictFacts.

(** X20. [dict(row)] gives back the dict a [MockRow] was made from, the
    keys of a dict being distinct, and [row[k]] raises no [KeyError] for
    a key of the row; [create_mock_rows] makes one row for each dict, in
    order. *)
Theorem mock_row_round_trip {V : Type} (data : dict V) :
  NoDup (map fst data) ->
  dict_of_MockRow (create_mock_row data) = Return data /\
  (forall k, In k (MockRow_keys (create_mock_row data)) ->
             exists v, MockRow_getitem (create_mock_row data) k = Return v /\
                       In (k, v) data) /\
  (forall data_list : list (dict V),
     map _data (create_mock_rows data_list) = data_list).
Proof.
  intros Hnd. split; [|split].
  - exact (dict_update_from_rest [] data Hnd).
  - intros k Hk. unfold MockRow_keys, create_mock_row in Hk. cbn [_data] in Hk.
    apply in_map_iff in Hk. destruct Hk as ([k' v] & <- & Hin).
    exists v. split; [|exact Hin].
    unfold MockRow_getitem, create_mock_row. cbn [_data fst].
    rewrite (dict_lookup_unique data k' v Hnd Hin). reflexivity.
  - intros data_list. unfold create_mock_rows. rewrite map_map. apply map_id.
Qed.

(** X20 on a row of the vehicle fixture. *)
Lemma mock_row_round_trip_witness :
  let data := [("vehicle_id", "1"); ("make", "Toyota"); ("model", "Camry")] in
  NoDup (map fst data) /\
  dict_of_MockRow (create_mock_row data) = Return data.
Proof.
  intros data.
  assert (Hnd : NoDup (map fst data)).
  { repeat constructor; cbn; intuition discriminate. }
  split; [exact Hnd|].
  exact (proj1 (mock_row_round_trip data Hnd)).
Defined.

Section QueryCaptureFacts.
Context {V : Type}.
Variable py_None : V.
Variable py_eq : V -> V -> bool.
Variable py_str : V -> string.

Lemma captured_from (calls : list (string * option (dict V)))
    (self : QueryCapture V) :
  fold_left (fun self call => capture (fst call) (snd call) self) calls self
  = {| queries := queries self ++ map fst calls;
       params := params self ++ map (fun call => values_or_empty (snd call)) calls |}.
Proof.
  revert self. induction calls as [|call calls IH]; intros self; cbn.
  - rewrite !app_nil_r. destruct self. reflexivity.
  - rewrite IH. cbn [capture queries params]. rewrite <- !app_assoc. reflexivity.
Qed.

Lemma assert_contains_from_spec (substring : string) (qs : list string) :
  (assert_contains_from substring qs = Return true /\
   exists q, In q qs /\ contains substring q = true)
  \/
  (assert_contains_from substring qs
   = Uncaught ("AssertionError: No query contains: " ++ substring) /\
   forall q, In q qs -> contains substring q = false).
Proof.
  induction qs as [|q qs IH]; cbn [assert_contains_from].
  - right. split; [reflexivity | intros q []].
  - destruct (contains substring q) eqn:Hq.
    + left. split; [reflexivity|]. exists q. split; [left; reflexivity | exact Hq].
    + destruct IH as [(-> & q' & Hin & Hq') | (-> & Hnone)].
      * left. split; [reflexivity|]. exists q'. split; [right; exact Hin | exact Hq'].
      * right. split; [reflexivity|]. intros q' [<- | Hin]; [exact Hq | auto].
Qed.

Lemma assert_param_equals_from_spec (key : string) (value : V)
    (ps : list (dict V)) :
  (assert_param_equals_from V py_None py_eq py_str key value ps = Return true /\
   exists p, In p ps /\ py_eq (dict_get V py_None p key) value = true)
  \/
  (assert_param_equals_from V py_None py_eq py_str key value ps
   = Uncaught ("AssertionError: No query params contain "
               ++ key ++ "=" ++ py_str value) /\
   forall p, In p ps -> py_eq (dict_get V py_None p key) value = false).
Proof.
  induction ps as [|p ps IH]; cbn [assert_param_equals_from].
  - right. split; [reflexivity | intros p []].
  - destruct (py_eq (dict_get V py_None p key) value) eqn:Hp.
    + left. split; [reflexivity|]. exists p. split; [left; reflexivity | exact Hp].
    + destruct IH as [(-> & p' & Hin & Hp') | (-> & Hnone)].
      * left. split; [reflexivity|]. exists p'. split; [right; exact Hin | exact Hp'].
      * right. split; [reflexivity|]. intros p' [<- | Hin]; [exact Hp | auto].
Qed.
End QueryCaptureFacts.

(** X21. After the calls a test captured, [QueryCapture] holds their
    queries in order and as many dicts, a missing or empty [values]
    standing as the empty dict; [last_query] is the query of the last
    call, and the empty text when there was none.  [assert_contains]
    returns [True] when some captured query contains the text and raises
    [AssertionError] otherwise; [assert_param_equals] returns [True]
    when [p.get(key) == value] for the dict [p] of some call and raises
    otherwise, so that with [None == None] a call without the key
    passes an expected [None]. *)
Theorem query_capture_contract {V : Type} (py_None : V) (py_eq : V -> V -> bool)
    (py_str : V -> string) (calls : list (string * option (dict V))) :
  let self := captured calls in
  queries self = map fst calls /\
  params self = map (fun call => values_or_empty (snd call)) calls /\
  last_query self = last (map fst calls) "" /\
  (forall query values,
     last_query (capture query values self) = query) /\
  (forall substring,
     (assert_contains substring self = Return true /\
      exists call, In call calls /\ contains substring (fst call) = true)
     \/
     (assert_contains substring self
      = Uncaught ("AssertionError: No query contains: " ++ substring) /\
      forall call, In call calls -> contains substring (fst call) = false))
  /\
  (forall key value,
     (assert_param_equals V py_None py_eq py_str key value self = Return true /\
      exists call,
        In call calls /\
        py_eq (dict_get V py_None (values_or_empty (snd call)) key) value = true)
     \/
     (assert_param_equals V py_None py_eq py_str key value self
      = Uncaught ("AssertionError: No query params contain "
                  ++ key ++ "=" ++ py_str value) /\
      forall call,
        In call calls ->
        py_eq (dict_get V py_None (values_or_empty (snd call)) key) value = false))
  /\
  (py_eq py_None py_None = true ->
   forall key call,
     In call calls ->
     dict_lookup (values_or_empty (snd call)) key = None ->
     assert_param_equals V py_None py_eq py_str key py_None self = Return true).
Proof.
  intros self.
  assert (Hself : self = {| queries := map fst calls;
                            params := map (fun call => values_or_empty (snd call))
                                          calls |}).
  { unfold self, captured. rewrite captured_from. reflexivity. }
  assert (Hcontains : forall substring,
     (assert_contains substring self = Return true /\
      exists call, In call calls /\ contains substring (fst call) = true)
     \/
     (assert_contains substring self
      = Uncaught ("AssertionError: No query contains: " ++ substring) /\
      forall call, In call calls -> contains substring (fst call) = false)).
  { intros substring. unfold assert_contains. rewrite Hself. cbn [queries].
    destruct (assert_contains_from_spec substring (map fst calls))
      as [(-> & q & Hin & Hq) | (-> & Hnone)].
    - left. split; [reflexivity|]. apply in_map_iff in Hin.
      destruct Hin as (call & <- & Hin). exists call. split; assumption.
    - right. split; [reflexivity|]. intros call Hin. apply Hnone.
      apply in_map. exact Hin. }
  assert (Hparam : forall key value,
     (assert_param_equals V py_None py_eq py_str key value self = Return true /\
      exists call,
        In call calls /\
        py_eq (dict_get V py_None (values_or_empty (snd call)) key) value = true)
     \/
     (assert_param_equals V py_None py_eq py_str key value self
      = Uncaught ("AssertionError: No query params contain "
                  ++ key ++ "=" ++ py_str value) /\
      forall call,
        In call calls ->
        py_eq (dict_get V py_None (values_or_empty (snd call)) key) value = false)).
  { intros key value. unfold assert_param_equals. rewrite Hself. cbn [params].
    destruct (assert_param_equals_from_spec py_None py_eq py_str key value
                (map (fun call => values_or_empty (snd call)) calls))
      as [(-> & p & Hin & Hp) | (-> & Hnone)].
    - left. split; [reflexivity|]. apply in_map_iff in Hin.
      destruct Hin as (call & <- & Hin). exists call. split; assumption.
    - right. split; [reflexivity|]. intros call Hin.
      apply (Hnone (values_or_empty (snd call))).
      apply (in_map (fun call => values_or_empty (snd call))). exact Hin. }
  split; [rewrite Hself; reflexivity|].
  split; [rewrite Hself; reflexivity|].
  split; [unfold last_query; rewrite Hself; reflexivity|].
  split.
  { intros query values. unfold last_query, capture. cbn [queries].
    apply last_last. }
  split; [exact Hcontains|]. split; [exact Hparam|].
  intros Hnone key call Hin Hmissing.
  destruct (Hparam key py_None) as [[Hok _] | [_ Hno]]; [exact Hok|].
  specialize (Hno call Hin). unfold dict_get in Hno.
  rewrite Hmissing in Hno. congruence.
Qed.

(* ================================================================= *)
(** ** The two listings side by side *)

(** X22. For a user, [list_rentals] and [get_user_rentals] select the
    same rentals: a page of the one has as many rows as the same page
    of the other, and on a first page that is not full every rental
    shown by the one is shown by the other, the two rows agreeing on
    everything but [make], [model] and [total_price].  The user id is
    not zero and the vehicle filter, where there is one, is not zero, as
    the routes require.  In which order rentals with the same
    [start_date] come is left open. *)
Theorem listings_show_the_same_rentals
    (user_id : Z) (vehicle_filter : option Z) (limit offset : Z) (db : Database) :
  user_id <> 0 -> vehicle_filter <> Some 0 ->
  exists rows rows',
    list_rentals (Some user_id) vehicle_filter limit offset db = (Return rows, db) /\
    get_user_rentals user_id vehicle_filter offset limit db = (Return rows', db) /\
    List.length rows = List.length rows' /\
    (offset = 0 -> (List.length rows < Z.to_nat limit)%nat ->
     (forall a, In a rows -> exists b, In b rows' /\ same_rental a b) /\
     (forall b, In b rows' -> exists a, In a rows /\ same_rental a b)).
Proof.
  intros Huid Hvid.
  destruct (list_rentals_page (Some user_id) vehicle_filter limit offset db)
    as (rows & Hrows & Hsound & _ & _ & Hall).
  destruct (get_user_rentals_page user_id vehicle_filter offset limit db)
    as (rows' & Hrows' & Hsound' & _ & _ & Hall').
  exists rows, rows'. split; [exact Hrows|]. split; [exact Hrows'|].
  (* the two queries select with the same conditions *)
  assert (Hwanted : forall r : Rental.row,
            passes (Some user_id) (Rental.user_id r) /\
            passes vehicle_filter (Rental.vehicle_id r)
            <-> Rental.user_id r = user_id /\
                match vehicle_filter with
                | Some vid => Rental.vehicle_id r = vid
                | None => True
                end).
  { intros r. destruct vehicle_filter as [vid|]; cbn [passes].
    - assert (vid <> 0) by congruence. intuition lia.
    - intuition lia. }
  assert (Hlength : List.length rows = List.length rows').
  { revert Hrows Hrows'.
    unfold list_rentals, get_user_rentals, bind, fetch_all, ret. cbv zeta.
    apply Z.eqb_neq in Huid. rewrite Huid.
    intros [= <-] [= <-].
    destruct vehicle_filter as [vid|].
    - assert (Hv : (vid =? 0) = false) by (apply Z.eqb_neq; congruence).
      rewrite Hv. cbn [app]. rewrite <- !map_LIMIT_OFFSET, !length_map.
      reflexivity.
    - cbn [app]. rewrite <- !map_LIMIT_OFFSET, !length_map. reflexivity. }
  split; [exact Hlength|].
  intros Hoffset Hshort.
  assert (Hshort' : (List.length rows' < Z.to_nat limit)%nat) by lia.
  rewrite Forall_forall in Hsound, Hsound'.
  split.
  - intros a Ha.
    destruct (Hsound a Ha) as (r & v & Hpair & Hu & Hv & ->).
    exists (user_rental_view (r, v)). split.
    + apply Hall'; [exact Hoffset | exact Hshort' | exact Hpair |].
      apply Hwanted. split; assumption.
    + unfold same_rental. cbn. repeat split.
  - intros b Hb.
    destruct (Hsound' b Hb) as (r & v & Hpair & Hw & -> & _).
    apply Hwanted in Hw. destruct Hw as [Hu Hv].
    exists (rental_view (r, v)). split.
    + apply Hall; [exact Hoffset | exact Hshort | exact Hpair | exact Hu | exact Hv].
    + unfold same_rental. cbn. repeat split.
Qed.

(** X22 on scenario A, for user 1 and vehicle 2. *)
Lemma listings_show_the_same_rentals_witness :
  exists rows rows',
    list_rentals (Some 1) (Some 2) 20 0 scenario_db_A = (Return rows, scenario_db_A) /\
    get_user_rentals 1 (Some 2) 0 20 scenario_db_A = (Return rows', scenario_db_A) /\
    List.length rows = List.length rows' /\
    (forall a, In a rows -> exists b, In b rows' /\ same_rental a b).
Proof.
  destruct (listings_show_the_same_rentals 1 (Some 2) 20 0 scenario_db_A)
    as (rows & rows' & Hrows & Hrows' & Hlength & Hsame);
    [lia | discriminate |].
  exists rows, rows'. split; [exact Hrows|]. split; [exact Hrows'|].
  split; [exact Hlength|].
  apply Hsame; [reflexivity|].
  injection Hrows as <-. vm_compute. lia.
Defined.

(* ================================================================= *)
(** ** What becomes of a stored rental *)

Lemma kept_refl (r : Rental.row) : kept r r.
Proof. unfold kept. repeat split. Qed.

Lemma kept_trans (a b c : Rental.row) : kept a b -> kept b c -> kept a c.
Proof.
  unfold kept. intros (H1 & H2 & H3 & H4 & H5 & H6) (K1 & K2 & K3 & K4 & K5 & K6).
  repeat split; try congruence.
  intros Ha. specialize (H6 Ha). subst b. exact (K6 Ha).
Qed.

Lemma Forall2_kept_refl (l : list Rental.row) : Forall2 kept l l.
Proof. induction l; constructor; [apply kept_refl | assumption]. Qed.

Lemma Forall2_kept_trans (l1 l2 l3 : list Rental.row) :
  Forall2 kept l1 l2 -> Forall2 kept l2 l3 -> Forall2 kept l1 l3.
Proof.
  intros H12. revert l3. induction H12 as [|a b l1 l2 Hab _ IH]; intros l3 H23.
  - inversion H23. constructor.
  - inversion H23 as [|b' c l2' l3' Hbc H23']; subst. constructor.
    + exact (kept_trans _ _ _ Hab Hbc).
    + apply IH. exact H23'.
Qed.

(** An [UPDATE] by id that finds the id on a live row, and leaves the
    id, user, vehicle, price and cost of a row alone. *)
Lemma UPDATE_Rental_kept (set : Rental.row -> Rental.row) (rid : Z)
    (db : Database) (existing : Rental.row) :
  well_keyed db ->
  In existing (Rental_table db) ->
  live_rental_condition rid existing = true ->
  (forall r, Rental.rental_id (set r) = Rental.rental_id r /\
             Rental.user_id (set r) = Rental.user_id r /\
             Rental.vehicle_id (set r) = Rental.vehicle_id r /\
             Rental.price_at_rental (set r) = Rental.price_at_rental r /\
             Rental.total_cost (set r) = Rental.total_cost r) ->
  Forall2 kept (Rental_table db) (Rental_table (snd (UPDATE_Rental set rid db))).
Proof.
  intros (Hnd & _) Hin Hlive Hset. cbn [UPDATE_Rental snd Rental_table].
  apply live_rental_iff in Hlive. destruct Hlive as [Hid Hlive].
  apply Forall2_map_r. intros r Hr.
  destruct (Z.eqb_spec (Rental.rental_id r) rid) as [Hrid | _];
    [|apply kept_refl].
  assert (r = existing) as ->.
  { apply (key_identifies Rental.rental_id (Rental_table db)); try assumption.
    congruence. }
  destruct (Hset existing) as (H1 & H2 & H3 & H4 & H5).
  unfold kept. repeat (split; [assumption|]). congruence.
Qed.

Lemma serve_well_keyed_any (req : rental_request) (db : Database) :
  well_keyed db -> well_keyed (serve req db).
Proof.
  intros Hkeys. destruct req as [ins payload | now rid payload | now rid].
  - exact (serve_well_keyed (Create ins payload) db I Hkeys).
  - cbn [serve].
    destruct (refused_or_written now rid payload db) as [-> | ->];
      [exact Hkeys|].
    apply UPDATE_Rental_well_keyed; [reflexivity | exact Hkeys].
  - exact (serve_well_keyed (Cancel now rid) db I Hkeys).
Qed.

Lemma serve_kept (req : rental_request) (db : Database) :
  well_keyed db ->
  exists rows added,
    Rental_table (serve req db) = rows ++ added /\
    Forall2 kept (Rental_table db) rows.
Proof.
  intros Hkeys.
  assert (Hsame : exists rows added,
            Rental_table db = rows ++ added /\
            Forall2 kept (Rental_table db) rows).
  { exists (Rental_table db), []. rewrite app_nil_r. split; [reflexivity|].
    apply Forall2_kept_refl. }
  destruct req as [ins payload | now rid payload | now rid]; cbn [serve].
  - destruct (create_rental_effect ins payload db) as [-> | (stored & -> & _)];
      [exact Hsame|].
    cbn [Rental_table]. exists (Rental_table db), [stored].
    split; [reflexivity|].
    apply Forall2_kept_refl.
  - rewrite update_rental_text_steps. cbv zeta.
    destruct (find (live_rental_condition rid) _) as [existing|] eqn:Hfind;
      [|exact Hsame].
    destruct (existsb _ _); [exact Hsame|].
    destruct (String.ltb _ _); [|exact Hsame].
    apply find_some in Hfind. destruct Hfind as [Hin Hlive].
    exists (Rental_table
              (snd (UPDATE_Rental
                      (SET_dates
                         (PyDate.isoformat (RentalCreateRequest.start_date payload))
                         (PyDate.isoformat (RentalCreateRequest.end_date payload))
                         now) rid db))), [].
    rewrite app_nil_r.
    split; [destruct (find _ _); reflexivity|].
    apply (UPDATE_Rental_kept _ rid db existing); try assumption.
    intros r. repeat split.
  - rewrite delete_rental_steps.
    destruct (existsb _ _) eqn:Hlive; [|exact Hsame].
    apply existsb_exists in Hlive. destruct Hlive as (existing & Hin & Hlive).
    eexists. exists []. rewrite app_nil_r. split; [reflexivity|].
    apply (UPDATE_Rental_kept _ rid db existing); try assumption.
    intros r. repeat split.
Qed.

Lemma serve_all_kept (reqs : list rental_request) (db : Database) :
  well_keyed db ->
  exists rows added,
    Rental_table (serve_all reqs db) = rows ++ added /\
    Forall2 kept (Rental_table db) rows.
Proof.
  unfold serve_all. revert db.
  induction reqs as [|req reqs IH]; intros db Hkeys; cbn [fold_left].
  - exists (Rental_table db), []. rewrite app_nil_r. split; [reflexivity|].
    apply Forall2_kept_refl.
  - destruct (serve_kept req db Hkeys) as (rows1 & added1 & Htable1 & Hkept1).
    destruct (IH (serve req db) (serve_well_keyed_any req db Hkeys))
      as (rows & added & Htable & Hkept).
    rewrite Htable1 in Hkept. apply Forall2_app_inv_l in Hkept.
    destruct Hkept as (rows' & added' & Hrows' & _ & ->).
    exists rows', (added' ++ added). split.
    + rewrite Htable, app_assoc. reflexivity.
    + exact (Forall2_kept_trans _ _ _ Hkept1 Hrows').
Qed.

(** X23. No request removes a rental or rewrites what it cost: with
    [rental_id] a key, after any sequence of create, update and cancel
    requests each stored rental is still in its place in the table, with
    its id, user, vehicle, price and total cost, and a rental that was
    cancelled is as it was; new rentals come after the stored ones. *)
Theorem stored_rentals_are_kept (reqs : list rental_request) (db : Database) :
  well_keyed db ->
  exists rows added,
    Rental_table (serve_all reqs db) = rows ++ added /\
    Forall2 kept (Rental_table db) rows.
Proof. exact (serve_all_kept reqs db). Qed.

(** X23 on the two rentals of vehicle 2: rental 1 is cancelled, then
    moved in vain, then a third rental is booked. *)
Lemma stored_rentals_are_kept_witness :
  let reqs := [Cancel 1000 1;
               Update 2000 1 (request 1 2 (d 2024 5 1) (d 2024 5 3));
               Create None (request 9 2 (d 2024 4 6) (d 2024 4 9))] in
  well_keyed shared_endpoint_db /\
  exists rows added,
    Rental_table (serve_all reqs shared_endpoint_db) = rows ++ added /\
    Forall2 kept (Rental_table shared_endpoint_db) rows.
Proof.
  intros reqs.
  assert (Hkeys : well_keyed shared_endpoint_db).
  { split; cbn.
    - repeat constructor; cbn; intuition discriminate.
    - repeat constructor. }
  split; [exact Hkeys|].
  exact (stored_rentals_are_kept reqs shared_endpoint_db Hkeys).
Defined.
